(** * ADOdb release upload script: a shallow embedding of
      [scripts/uploadrelease.py] and the properties of its naming rules,
      command-line front end, transfer stage and metadata stage.

    Python strings are modelled as [string] over the code points 0..255;
    on that range the digit class of [re] is exactly ['0'..'9'].  Library
    functions the script calls ([str.split], [int], [posixpath], [glob],
    [re], [getopt], [urllib.parse.quote_plus], the parameter encoding and
    URL preparation of [requests]) are transcribed in module [Py]; the
    script itself is module [Upload]. *)

From Stdlib Require Import String Ascii List ZArith Lia Bool Arith.
From Stdlib Require Import DecimalString.
From Stdlib Require DecimalZ.
Import ListNotations.

Local Open Scope list_scope.
Local Open Scope string_scope.

(** ** Outcomes of Python code: a value, [sys.exit], or an exception. *)

Inductive exn : Type :=
| IndexError
| ValueError
| AttributeError
| OSError
| KeyError
| RequestException.

Inductive outcome (A : Type) : Type :=
| Ret (a : A)
| Exit (code : Z)
| Raise (e : exn).

Arguments Ret {A} a.
Arguments Exit {A} code.
Arguments Raise {A} e.

Definition obind {A B : Type} (o : outcome A) (k : A -> outcome B) : outcome B :=
  match o with
  | Ret a => k a
  | Exit c => Exit c
  | Raise e => Raise e
  end.

Notation "x <-- e ;; k" := (obind e (fun x => k))
  (at level 61, e at next level, right associativity).

(** ** Library functions *)

Module Py.

(** The line feed and the double quote, which a literal cannot hold. *)
Definition LF : ascii := ascii_of_nat 10.
Definition DQUOTE : ascii := ascii_of_nat 34.

Definition str (c : ascii) : string := String c "".

(** *** Character classes *)

Definition is_digit (c : ascii) : bool :=
  (48 <=? nat_of_ascii c)%nat && (nat_of_ascii c <=? 57)%nat.

Definition digit_val (c : ascii) : Z := Z.of_nat (nat_of_ascii c) - 48.

Fixpoint str_forall (p : ascii -> bool) (s : string) : bool :=
  match s with
  | "" => true
  | String c s' => p c && str_forall p s'
  end.

(** A non-empty run of decimal digits. *)
Definition digits (s : string) : bool :=
  negb (s =? "") && str_forall is_digit s.

(** *** Slices *)

Fixpoint str_take (n : nat) (s : string) : string :=
  match n, s with
  | S n', String c s' => String c (str_take n' s')
  | _, _ => ""
  end.

Fixpoint str_drop (n : nat) (s : string) : string :=
  match n, s with
  | S n', String _ s' => str_drop n' s'
  | _, _ => s
  end.

Fixpoint startswith (p s : string) : bool :=
  match p, s with
  | "", _ => true
  | String a p', String b s' => (a =? b)%char && startswith p' s'
  | _, "" => false
  end.

Definition endswith (p s : string) : bool :=
  (str_drop (String.length s - String.length p) s =? p)
  && (String.length p <=? String.length s)%nat.

(** *** [str.split(sep)] and [str.rsplit(sep)] for a one-character
    separator and no limit: the pieces between the separators. *)

Fixpoint split (sep : ascii) (s : string) : list string :=
  match s with
  | "" => [""]
  | String c s' =>
      if (c =? sep)%char then "" :: split sep s'
      else match split sep s' with
           | h :: t => String c h :: t
           | [] => [String c ""]
           end
  end.

Definition rsplit (sep : ascii) (s : string) : list string := split sep s.

(** [str.rfind(c)]: the index of the last occurrence, [-1] if none. *)
Fixpoint rfind_from (i : Z) (c : ascii) (s : string) : Z :=
  match s with
  | "" => -1
  | String a s' =>
      let r := rfind_from (i + 1) c s' in
      if (0 <=? r)%Z then r else if (a =? c)%char then i else -1
  end.

Definition rfind (c : ascii) (s : string) : Z := rfind_from 0 c s.

(** [str.rsplit(sep, 1)]: cut at the last separator, if there is one. *)
Definition rsplit1 (sep : ascii) (s : string) : list string :=
  let i := rfind sep s in
  if (i <? 0)%Z then [s]
  else [str_take (Z.to_nat i) s; str_drop (Z.to_nat i + 1) s].

(** [l[n]] *)
Definition item {A : Type} (l : list A) (n : nat) : outcome A :=
  match nth_error l n with
  | Some a => Ret a
  | None => Raise IndexError
  end.

(** *** [int(s)] for a string: optional surrounding white space, an
    optional sign, then decimal digits, single underscores allowed between
    digits.  Anything else is a [ValueError].  (The interpreter's
    configurable cap on the number of digits is left out.) *)

Definition int_space (c : ascii) : bool :=
  let n := nat_of_ascii c in
  ((9 <=? n) && (n <=? 13))%nat || (n =? 32)%nat || (n =? 133)%nat || (n =? 160)%nat.

Fixpoint lstrip (s : string) : string :=
  match s with
  | "" => ""
  | String c s' => if int_space c then lstrip s' else s
  end.

Fixpoint rstrip (s : string) : string :=
  match s with
  | "" => ""
  | String c s' =>
      match rstrip s' with
      | "" => if int_space c then "" else String c ""
      | r => String c r
      end
  end.

Fixpoint int_digits (acc : Z) (after_digit : bool) (s : string) : option Z :=
  match s with
  | "" => if after_digit then Some acc else None
  | String c s' =>
      if is_digit c then int_digits (10 * acc + digit_val c) true s'
      else if (c =? "_")%char
           then (if after_digit then int_digits acc false s' else None)
           else None
  end.

Definition int_signed (s : string) : option Z :=
  match s with
  | String "+" r => int_digits 0 false r
  | String "-" r => option_map Z.opp (int_digits 0 false r)
  | _ => int_digits 0 false s
  end.

Definition int (s : string) : outcome Z :=
  match int_signed (rstrip (lstrip s)) with
  | Some z => Ret z
  | None => Raise ValueError
  end.

(** The value of a run of digits, most significant first. *)
Fixpoint dec_value_from (acc : Z) (s : string) : Z :=
  match s with
  | "" => acc
  | String c s' => dec_value_from (10 * acc + digit_val c) s'
  end.

Definition dec_value (s : string) : Z := dec_value_from 0 s.

(** ['{}'.format(z)] for an integer: its decimal numeral. *)
Definition format_int (z : Z) : string :=
  NilZero.string_of_int (Z.to_int z).

(** *** [posixpath] *)

Definition path_join (a b : string) : string :=
  if startswith "/" b then b
  else if (a =? "") || endswith "/" a then a ++ b
  else a ++ "/" ++ b.

Definition basename (p : string) : string :=
  str_drop (Z.to_nat (rfind "/" p + 1)) p.

Definition char_at (i : nat) (p : string) : string :=
  str_take 1 (str_drop i p).

(** The loop of [genericpath._splitext] that skips leading dots: [n]
    positions from [filenameIndex] up to the last dot are inspected, and
    the answer is whether one of them holds something else than a dot. *)
Fixpoint splitext_scan (n filenameIndex : nat) (p : string) : bool :=
  match n with
  | O => false
  | S n' =>
      if negb (char_at filenameIndex p =? ".") then true
      else splitext_scan n' (S filenameIndex) p
  end.

Definition splitext (p : string) : string * string :=
  let sepIndex := rfind "/" p in
  let dotIndex := rfind "." p in
  if (sepIndex <? dotIndex)%Z
     && splitext_scan (Z.to_nat (dotIndex - (sepIndex + 1)))
                      (Z.to_nat (sepIndex + 1)) p
  then (str_take (Z.to_nat dotIndex) p, str_drop (Z.to_nat dotIndex) p)
  else (p, "").

(** *** [glob.glob(pattern)] in the current directory, for a pattern
    without a directory part whose only wildcards are [*] and [?]:
    [fnmatch.filter] over the directory's names, hidden names left out
    unless the pattern is hidden itself.  The names come in the order the
    directory scan yields them. *)

Fixpoint fnmatch (pat : string) : string -> bool :=
  match pat with
  | "" => fun name => name =? ""
  | String "*" pat' =>
      fix star (name : string) : bool :=
        fnmatch pat' name
        || match name with
           | "" => false
           | String _ name' => star name'
           end
  | String "?" pat' =>
      fun name => match name with
                  | "" => false
                  | String _ name' => fnmatch pat' name'
                  end
  | String c pat' =>
      fun name => match name with
                  | "" => false
                  | String a name' => (a =? c)%char && fnmatch pat' name'
                  end
  end.

Definition ishidden (name : string) : bool := startswith "." name.

Definition glob (listing : list string) (pattern : string) : list string :=
  let names :=
    if ishidden pattern then listing
    else filter (fun x => negb (ishidden x)) listing in
  filter (fnmatch pattern) names.

(** *** [re]: the fragment of the pattern language the script uses, with
    the backtracking matcher's order of alternatives (greedy repetition,
    left alternative first). *)

Inductive regex : Type :=
| Eps                         (* the empty pattern *)
| Bol                         (* ^ *)
| Eol                         (* $ *)
| Chr (c : ascii)             (* a literal character *)
| Digits1                     (* [\d]+ *)
| Seq (r1 r2 : regex)
| Alt (r1 r2 : regex)
| Opt (r : regex)             (* (...)? *)
| Group (n : nat) (r : regex) (* the n-th capturing group *).

Fixpoint Lit (s : string) : regex :=
  match s with
  | "" => Eps
  | String c "" => Chr c
  | String c s' => Seq (Chr c) (Lit s')
  end.

Record mstate : Type := mkMstate {
  m_pos : nat;                      (* characters consumed so far *)
  m_rest : string;                  (* what is left of the subject *)
  m_groups : list (nat * string)    (* captures, latest first *)
}.

(** All the ways [cls+] can match at the head of [s], longest first:
    pairs of the text consumed and the text left. *)
Fixpoint many (cls : ascii -> bool) (s : string) : list (string * string) :=
  match s with
  | "" => [("", "")]
  | String c s' =>
      if cls c
      then map (fun '(a, b) => (String c a, b)) (many cls s') ++ [("", s)]
      else [("", s)]
  end.

Definition many1 (cls : ascii -> bool) (s : string) : list (string * string) :=
  match s with
  | "" => []
  | String c s' =>
      if cls c then map (fun '(a, b) => (String c a, b)) (many cls s') else []
  end.

(** [$] without MULTILINE: at the end of the subject, or just before a
    line feed that ends it. *)
Definition at_eol (rest : string) : bool :=
  (rest =? "") || (rest =? str LF).

Fixpoint rmatch (r : regex) (st : mstate) : list mstate :=
  match r with
  | Eps => [st]
  | Bol => if (m_pos st =? 0)%nat then [st] else []
  | Eol => if at_eol (m_rest st) then [st] else []
  | Chr c =>
      match m_rest st with
      | String a rest =>
          if (a =? c)%char then [mkMstate (S (m_pos st)) rest (m_groups st)] else []
      | "" => []
      end
  | Digits1 =>
      map (fun '(a, b) => mkMstate (m_pos st + String.length a) b (m_groups st))
          (many1 is_digit (m_rest st))
  | Seq r1 r2 => flat_map (rmatch r2) (rmatch r1 st)
  | Alt r1 r2 => rmatch r1 st ++ rmatch r2 st
  | Opt r' => rmatch r' st ++ [st]
  | Group n r' =>
      map (fun st' =>
             mkMstate (m_pos st') (m_rest st')
               ((n, str_take (m_pos st' - m_pos st) (m_rest st)) :: m_groups st'))
          (rmatch r' st)
  end.

(** [re.search(r, s)]: the first match at the leftmost position that has
    one; the result is the final matcher state. *)
Fixpoint search_from (r : regex) (pos : nat) (s : string) : option mstate :=
  match rmatch r (mkMstate pos s []) with
  | m :: _ => Some m
  | [] =>
      match s with
      | "" => None
      | String _ s' => search_from r (S pos) s'
      end
  end.

Definition re_search (r : regex) (s : string) : option mstate :=
  search_from r 0 s.

(** [m.group(n)]: [None] for a group that took no part in the match. *)
Fixpoint assoc (n : nat) (l : list (nat * string)) : option string :=
  match l with
  | [] => None
  | (k, v) :: l' => if (k =? n)%nat then Some v else assoc n l'
  end.

Definition group (m : mstate) (n : nat) : option string := assoc n (m_groups m).

(** *** [getopt.gnu_getopt] *)

Definition getopt_result (A : Type) : Type := (A + string)%type.

Fixpoint short_has_arg (opt : ascii) (shortopts : string) : getopt_result bool :=
  match shortopts with
  | "" => inr ("option -" ++ str opt ++ " not recognized")
  | String c rest =>
      if (opt =? c)%char && negb (c =? ":")%char
      then inl (startswith ":" rest)
      else short_has_arg opt rest
  end.

(** [opts.append(o)] *)
Definition push {A : Type} (opts : list A) (o : A) : list A := (opts ++ [o])%list.

Fixpoint do_shorts (opts : list (string * string)) (optstring shortopts : string)
         (args : list string) : getopt_result (list (string * string) * list string) :=
  match optstring with
  | "" => inl (opts, args)
  | String opt optstring' =>
      match short_has_arg opt shortopts with
      | inr err => inr err
      | inl true =>
          if optstring' =? "" then
            match args with
            | [] => inr ("option -" ++ str opt ++ " requires argument")
            | a :: args' => inl (push opts ("-" ++ str opt, a), args')
            end
          else inl (push opts ("-" ++ str opt, optstring'), args)
      | inl false =>
          do_shorts (push opts ("-" ++ str opt, "")) optstring' shortopts args
      end
  end.

Definition str_in (s : string) (l : list string) : bool :=
  existsb (String.eqb s) l.

Definition drop_last (s : string) : string :=
  str_take (String.length s - 1) s.

Definition long_has_args (opt : string) (longopts : list string)
  : getopt_result (bool * string) :=
  let possibilities := filter (startswith opt) longopts in
  match possibilities with
  | [] => inr ("option --" ++ opt ++ " not recognized")
  | unique_match :: others =>
      (* Is there an exact match? *)
      if str_in opt possibilities then inl (false, opt)
      else if str_in (opt ++ "=") possibilities then inl (true, opt)
      else
        (* No exact match, so better be unique. *)
        match others with
        | _ :: _ => inr ("option --" ++ opt ++ " not a unique prefix")
        | [] =>
            let has_arg := endswith "=" unique_match in
            inl (has_arg, if has_arg then drop_last unique_match else unique_match)
        end
  end.

(** [opt.index('=')] and the two slices around it. *)
Fixpoint cut_at (c : ascii) (s : string) : option (string * string) :=
  match s with
  | "" => None
  | String a s' =>
      if (a =? c)%char then Some ("", s')
      else match cut_at c s' with
           | Some (l, r) => Some (String a l, r)
           | None => None
           end
  end.

Definition do_longs (opts : list (string * string)) (opt : string)
           (longopts args : list string)
  : getopt_result (list (string * string) * list string) :=
  let '(opt, optarg) :=
    match cut_at "=" opt with
    | Some (l, r) => (l, Some r)
    | None => (opt, None)
    end in
  match long_has_args opt longopts with
  | inr err => inr err
  | inl (has_arg, opt) =>
      if has_arg then
        match optarg, args with
        | Some a, _ => inl (push opts ("--" ++ opt, a), args)
        | None, [] => inr ("option --" ++ opt ++ " requires argument")
        | None, a :: args' => inl (push opts ("--" ++ opt, a), args')
        end
      else
        match optarg with
        | Some _ => inr ("option --" ++ opt ++ " must not have an argument")
        | None => inl (push opts ("--" ++ opt, ""), args)
        end
  end.

(** The [while args:] loop; each round drops at least one argument, so
    [fuel] rounds are enough when [fuel] is the number of arguments. *)
Fixpoint gnu_getopt_loop (fuel : nat) (all_options_first : bool)
         (shortopts : string) (longopts : list string)
         (opts : list (string * string)) (prog_args args : list string)
  : getopt_result (list (string * string) * list string) :=
  match fuel, args with
  | _, [] => inl (opts, prog_args)
  | O, _ => inl (opts, prog_args)
  | S fuel', a :: rest =>
      if a =? "--" then inl (opts, (prog_args ++ rest)%list)
      else if str_take 2 a =? "--" then
        match do_longs opts (str_drop 2 a) longopts rest with
        | inr err => inr err
        | inl (opts', args') =>
            gnu_getopt_loop fuel' all_options_first shortopts longopts
              opts' prog_args args'
        end
      else if (str_take 1 a =? "-") && negb (a =? "-") then
        match do_shorts opts (str_drop 1 a) shortopts rest with
        | inr err => inr err
        | inl (opts', args') =>
            gnu_getopt_loop fuel' all_options_first shortopts longopts
              opts' prog_args args'
        end
      else if all_options_first then inl (opts, (prog_args ++ args)%list)
      else gnu_getopt_loop fuel' all_options_first shortopts longopts
             opts (prog_args ++ [a])%list rest
  end.

(** [posixly_correct]: whether [os.environ.get("POSIXLY_CORRECT")] is
    true, that is, whether the variable is set to a text that is not
    empty. *)
Definition gnu_getopt (posixly_correct : bool) (args : list string)
           (shortopts : string) (longopts : list string)
  : getopt_result (list (string * string) * list string) :=
  let '(shortopts, all_options_first) :=
    if startswith "+" shortopts then (str_drop 1 shortopts, true)
    else (shortopts, posixly_correct) in
  gnu_getopt_loop (List.length args) all_options_first shortopts longopts [] [] args.

(** *** [urllib.parse.quote_plus] and [urlencode] *)

Definition is_unreserved (c : ascii) : bool :=
  let n := nat_of_ascii c in
  ((48 <=? n) && (n <=? 57) || (65 <=? n) && (n <=? 90)
   || (97 <=? n) && (n <=? 122))%nat
  || (c =? "_")%char || (c =? ".")%char || (c =? "-")%char || (c =? "~")%char.

Definition hex_digit (n : nat) : ascii :=
  if (n <? 10)%nat then ascii_of_nat (48 + n) else ascii_of_nat (55 + n).

Definition pct (byte : nat) : string :=
  String "%" (String (hex_digit (byte / 16)) (String (hex_digit (byte mod 16)) "")).

(** One code point, UTF-8 encoded and percent-quoted. *)
Definition quote_char (c : ascii) : string :=
  let n := nat_of_ascii c in
  if is_unreserved c then str c
  else if (c =? " ")%char then "+"
  else if (n <? 128)%nat then pct n
  else pct (192 + n / 64) ++ pct (128 + n mod 64).

Fixpoint quote_plus (s : string) : string :=
  match s with
  | "" => ""
  | String c s' => quote_char c ++ quote_plus s'
  end.

Definition urlencode (query : list (string * string)) : string :=
  String.concat "&" (map (fun '(k, v) => quote_plus k ++ "=" ++ quote_plus v) query).

(** *** [requests]: what a request is made of, and the URL of the
    prepared request.  Parameters are flattened to key/value pairs, a list
    value giving one pair per element, and form-encoded. *)

Inductive param : Type :=
| PStr (v : string)
| PList (vs : list string).

Record request : Type := mkRequest {
  req_method : string;
  req_url : string;
  req_headers : list (string * string);
  req_params : list (string * param)
}.

Definition to_key_val_list (data : list (string * param)) : list (string * string) :=
  flat_map (fun '(k, vs) =>
              match vs with
              | PStr v => [(k, v)]
              | PList l => map (fun v => (k, v)) l
              end) data.

Definition encode_params (data : list (string * param)) : string :=
  urlencode (to_key_val_list data).

(** [PreparedRequest.prepare_url] strips leading white space from the
    URL, takes it apart with urllib3's [parse_url] (which lower-cases
    scheme and host, removes dot segments from the path and
    percent-encodes what a component may not hold), appends the encoded
    parameters to the query, before any fragment, puts the URL together
    again and re-quotes it.  The model covers the URLs that come out of
    all this as they went in, here called plain: [http://] or [https://],
    a host of lower-case letters, digits, dots and hyphens that starts
    with a letter or a digit, then a slash and a path of slashes and
    unreserved characters in which no segment starts with a dot.  For a
    plain URL the prepared URL is the URL itself, followed by [?] and
    the encoded parameters when there are any (these hold unreserved
    characters, [+], [=], [&] and escapes of other characters only, which
    re-quoting leaves alone).  For any other URL the model gives no
    answer. *)

Definition is_host_char (c : ascii) : bool :=
  let n := nat_of_ascii c in
  ((48 <=? n) && (n <=? 57) || (97 <=? n) && (n <=? 122))%nat
  || (c =? ".")%char || (c =? "-")%char.

Definition plain_host (h : string) : bool :=
  match h with
  | "" => false
  | String c _ =>
      negb (c =? ".")%char && negb (c =? "-")%char && str_forall is_host_char h
  end.

(** [at_start]: whether [p] starts a segment. *)
Fixpoint plain_path_from (at_start : bool) (p : string) : bool :=
  match p with
  | "" => true
  | String c p' =>
      if (c =? "/")%char then plain_path_from true p'
      else is_unreserved c && negb (at_start && (c =? ".")%char)
           && plain_path_from false p'
  end.

Definition plain_url (u : string) : bool :=
  let after_scheme :=
    if startswith "https://" u then Some (str_drop 8 u)
    else if startswith "http://" u then Some (str_drop 7 u)
    else None in
  match after_scheme with
  | Some r =>
      match cut_at "/" r with
      | Some (host, path) => plain_host host && plain_path_from true path
      | None => false
      end
  | None => false
  end.

Definition prepared_url (r : request) : option string :=
  if plain_url (req_url r) then
    let enc_params := encode_params (req_params r) in
    Some (if enc_params =? "" then req_url r else req_url r ++ "?" ++ enc_params)
  else None.

End Py.

(** ** The script *)

Module Upload.

(** *** What the script reads from its surroundings *)

(** The answer to one call of [requests.put]: a response, of which the
    script reads the status code and, on success, the value of
    [json.loads(text)['result']['x_sf']['default']] as [print] shows it
    (an exception when the body has no such field); or no response at
    all. *)
Record response : Type := mkResponse {
  status_code : Z;
  echoed_default : outcome string
}.

Inductive http_result : Type :=
| Responded (r : response)
| NoResponse.

Record World : Type := mkWorld {
  argv : list string;                  (* sys.argv[1:] *)
  script_file : string;                (* __file__ *)
  posixly_correct : bool;              (* POSIXLY_CORRECT is set and not empty *)
  getuser : string;                    (* getpass.getuser() *)
  getcwd : string;                     (* os.getcwd() at start *)
  chdir_ok : string -> bool;           (* os.chdir(path) succeeds *)
  listdir : string -> list string;     (* names in a directory, scan order *)
  sf_api_key : string;                 (* adodbutil.env.sf_api_key *)
  sf_api : nat -> Py.request -> http_result;
                                       (* the answer to the n-th request *)
  prepared_elsewhere : Py.request -> string
                                       (* the URL of a prepared request, for
                                          the URLs [Py.prepared_url] does
                                          not cover *)
}.

(** *** Effects *)

Inductive event : Type :=
| Print (line : string)               (* print(line) *)
| Spawn (command : string)            (* subprocess.call(command, shell=True) *)
| HttpPut (req : Py.request)          (* requests.put(...) *).

(** The global flags, the process's working directory and the number of
    requests sent so far. *)
Record state : Type := mkState {
  dry_run : bool;
  username : string;
  release_path : string;
  skip_upload : bool;
  workdir : string;
  api_calls : nat
}.

Definition M (A : Type) : Type := state -> outcome A * state * list event.

Definition ret {A : Type} (a : A) : M A := fun st => (Ret a, st, []).

Definition bind {A B : Type} (m : M A) (k : A -> M B) : M B :=
  fun st =>
    match m st with
    | (Ret a, st', t) => let '(o, st'', t') := k a st' in (o, st'', (t ++ t')%list)
    | (Exit c, st', t) => (Exit c, st', t)
    | (Raise e, st', t) => (Raise e, st', t)
    end.

Notation "x <- e ;; k" := (bind e (fun x => k))
  (at level 61, e at next level, right associativity).
Notation "e ;; k" := (bind e (fun _ => k))
  (at level 61, right associativity).

Definition lift {A : Type} (o : outcome A) : M A := fun st => (o, st, []).
Definition get : M state := fun st => (Ret st, st, []).
Definition put (st' : state) : M unit := fun _ => (Ret tt, st', []).
Definition emit (e : event) : M unit := fun st => (Ret tt, st, [e]).
Definition print (line : string) : M unit := emit (Print line).
Definition sys_exit {A : Type} (code : Z) : M A := lift (Exit code).
Definition raise {A : Type} (e : exn) : M A := lift (Raise e).

Definition exn_eqb (a b : exn) : bool :=
  match a, b with
  | IndexError, IndexError | ValueError, ValueError
  | AttributeError, AttributeError | OSError, OSError
  | KeyError, KeyError | RequestException, RequestException => true
  | _, _ => false
  end.

(** [try: body except e: handler] *)
Definition try_except {A : Type} (body : M A) (e : exn) (handler : M A) : M A :=
  fun st =>
    match body st with
    | (Raise e', st', t) =>
        if exn_eqb e' e
        then let '(o, st'', t') := handler st' in (o, st'', (t ++ t')%list)
        else (Raise e', st', t)
    | r => r
    end.

(** [for x in l: body], where the body says how it ended. *)
Inductive loop_ctl : Type := Next | Break.

Fixpoint for_each {A : Type} (l : list A) (body : A -> M loop_ctl) : M unit :=
  match l with
  | [] => ret tt
  | x :: l' =>
      c <- body x ;;
      match c with
      | Next => for_each l' body
      | Break => ret tt
      end
  end.

(** *** Module-level constants *)

Definition sf_files : string := "frs.sourceforge.net:/home/frs/project/adodb/".

(** [sf_api_url.format(dir)] *)
Definition sf_api_url (dir : string) : string :=
  "https://sourceforge.net/projects/adodb/files/" ++ dir ++ "/".

(** [rsync_cmd.format(usr=, opt=, src=, dst=)] *)
Definition rsync_cmd (usr opt src dst : string) : string :=
  "rsync -vP --rsh ssh " ++ opt ++ " " ++ src ++ " " ++ usr ++ "@" ++ dst.

Definition options : string := "hu:ns".
Definition long_options : list string := ["help"; "user="; "dry-run"; "skip-upload"].

Definition codes_ok : Z := 200.
Definition codes_unauthorized : Z := 401.

Definition usage_text (prog : string) : string :=
  "Usage: " ++ prog ++ " [options] username [release_path]

    This script will upload the files in the given directory (or the
    current one if unspecified) to SourceForge.

    Parameters:
        release_path            Location of the release files to upload,
                                see buildrelease.py to generate them.
                                Defaults to current directory.

    Options:
        -h | --help             Show this usage message
        -u | --user <name>      SourceForge account (defaults to current user)
        -s | --skip-upload      Do not upload the release files (allows only
                                updating previously uploaded files information)
        -n | --dry-run          Do not upload or update sourceforge
".

(** The pattern of [get_release_version],
    [^adodb-([\d]+\.[\d]+\.[\d]+)(-(alpha|beta|rc)\.[\d]+)?\.zip$],
    with its two top-level groups named. *)

(** [([\d]+\.[\d]+\.[\d]+)] *)
Definition version_group : Py.regex :=
  Py.Group 1
    (Py.Seq Py.Digits1 (Py.Seq (Py.Chr ".")
    (Py.Seq Py.Digits1 (Py.Seq (Py.Chr ".") Py.Digits1)))).

(** [(-(alpha|beta|rc)\.[\d]+)?] *)
Definition suffix_group : Py.regex :=
  Py.Opt (Py.Group 2
    (Py.Seq (Py.Chr "-")
    (Py.Seq (Py.Group 3 (Py.Alt (Py.Lit "alpha")
                        (Py.Alt (Py.Lit "beta") (Py.Lit "rc"))))
    (Py.Seq (Py.Chr ".") Py.Digits1)))).

Definition version_pattern : Py.regex :=
  Py.Seq Py.Bol
  (Py.Seq (Py.Lit "adodb-")
  (Py.Seq version_group
  (Py.Seq suffix_group
  (Py.Seq (Py.Lit ".zip") Py.Eol)))).

(** [sourceforge_target_dir(version)] *)
Definition sourceforge_target_dir (version : string) : outcome string :=
  s0 <-- Py.item (Py.rsplit "." version) 0 ;;
  major_version <-- Py.int s0 ;;
  (* Base directory *)
  let directory :=
    if (major_version =? 5)%Z then "adodb-php5-only/"
    else "adodb" ++ Py.format_int major_version ++ "/" in
  (* Keep only X.Y (discard patch number and pre-release suffix) *)
  s1 <-- Py.item (Py.split "-" version) 0 ;;
  short_version <-- Py.item (Py.rsplit1 "." s1) 0 ;;
  let directory := directory ++ ("adodb-" ++ short_version) in
  Ret directory.

(** The [if]/[elif]/[else] on the extension in the loop of
    [set_sourceforge_file_info]; [None] is the [else] branch. *)
Definition defaults_for (ext : string) : option (list string) :=
  if ext =? ".zip" then Some ["windows"]
  else if ext =? ".gz" then Some ["linux"; "mac"; "bsd"; "solaris"; "others"]
  else None.

(** [headers] of [set_sourceforge_file_info]; the value ends in a double
    quote. *)
Definition headers : list (string * string) :=
  [("Accept", "application/json" ++ Py.str Py.DQUOTE)].

Section Script.

Variable w : World.

Definition glob (pattern : string) : M (list string) :=
  st <- get ;; ret (Py.glob (listdir w (workdir st)) pattern).

(** [os.chdir(path)]; a relative path is taken from the current one. *)
Definition chdir (path : string) : M unit :=
  st <- get ;;
  if chdir_ok w path
  then put (mkState (dry_run st) (username st) (release_path st) (skip_upload st)
                    (Py.path_join (workdir st) path) (api_calls st))
  else raise OSError.

Definition subprocess_call (command : string) : M unit := emit (Spawn command).

Definition requests_put (url : string) (hdrs : list (string * string))
           (params : list (string * Py.param)) : M response :=
  fun st =>
    let req := Py.mkRequest "PUT" url hdrs params in
    let st' := mkState (dry_run st) (username st) (release_path st)
                       (skip_upload st) (workdir st) (S (api_calls st)) in
    match sf_api w (api_calls st) req with
    | Responded r => (Ret r, st', [HttpPut req])
    | NoResponse => (Raise RequestException, st', [HttpPut req])
    end.

(** [req.prepare().url] *)
Definition prepare_url (r : Py.request) : string :=
  match Py.prepared_url r with
  | Some url => url
  | None => prepared_elsewhere w r
  end.

Definition usage : M unit :=
  print (usage_text (Py.basename (script_file w))).

Definition call_rsync (usr opt src dst : string) : M unit :=
  let command := rsync_cmd usr opt src dst in
  (* Create directory if it does not exist *)
  let dst_split := Py.rsplit ":" dst in
  host <- lift (Py.item dst_split 0) ;;
  dst <- lift (Py.item dst_split 1) ;;
  let mkdir := "ssh " ++ usr ++ "@" ++ host ++ " mkdir -p " ++ dst in
  st <- get ;;
  if dry_run st then
    print mkdir ;;
    print command
  else
    subprocess_call mkdir ;;
    subprocess_call command.

Definition get_release_version : M string :=
  zipfile <- try_except
               (names <- glob "adodb-*.zip" ;; lift (Py.item names 0))
               IndexError
               (st <- get ;;
                print ("ERROR: release zip file not found in '"
                       ++ release_path st ++ "'") ;;
                sys_exit 1) ;;
  m <- try_except
         (match Py.re_search version_pattern zipfile with
          | Some m => ret m
          | None => raise AttributeError  (* None.group *)
          end)
         AttributeError
         (print ("ERROR: unable to extract version number from '" ++ zipfile ++ "'
       Only 3 groups of digits separated by periods are allowed") ;;
          sys_exit 1) ;;
  match Py.group m 1 with
  | Some version => ret version
  | None => raise AttributeError  (* a version of None fails at its first use *)
  end.

Fixpoint process_options (opts : list (string * string)) : M unit :=
  match opts with
  | [] => ret tt
  | (opt, val) :: opts' =>
      st <- get ;;
      (if Py.str_in opt ["-h"; "--help"] then
         usage ;;
         sys_exit 0
       else if Py.str_in opt ["-u"; "--user"] then
         put (mkState (dry_run st) val (release_path st) (skip_upload st)
                      (workdir st) (api_calls st))
       else if Py.str_in opt ["-s"; "--skip-upload"] then
         put (mkState (dry_run st) (username st) (release_path st) true
                      (workdir st) (api_calls st))
       else if Py.str_in opt ["-n"; "--dry-run"] then
         print "Dry-run mode - files will not be uploaded or modified" ;;
         put (mkState true (username st) (release_path st) (skip_upload st)
                      (workdir st) (api_calls st))
       else ret tt) ;;
      process_options opts'
  end.

Definition set_release_path (p : string) : M unit :=
  st <- get ;;
  put (mkState (dry_run st) (username st) p (skip_upload st)
               (workdir st) (api_calls st)).

Definition process_command_line : M unit :=
  (* Get command-line options *)
  match Py.gnu_getopt (posixly_correct w) (argv w) options long_options with
  | inr err =>
      print err ;;
      usage ;;
      sys_exit 2
  | inl (opts, args) =>
      (* Default values for flags *)
      st <- get ;;
      put (mkState (dry_run st) (getuser w) (release_path st) (skip_upload st)
                   (workdir st) (api_calls st)) ;;
      process_options opts ;;
      (* Change to release directory, current if not specified *)
      try_except
        (a <- lift (Py.item args 0) ;;
         set_release_path a ;;
         chdir a)
        IndexError
        (st <- get ;; set_release_path (workdir st))
  end.

Definition upload_release_files : M unit :=
  version <- get_release_version ;;
  dir <- lift (sourceforge_target_dir version) ;;
  let target := sf_files ++ dir in
  st <- get ;;
  print "" ;;
  print "Uploading release files..." ;;
  print ("  Source: " ++ release_path st) ;;
  print ("  Target: " ++ target) ;;
  files <- glob "*" ;;
  print ("  Files:  " ++ String.concat ", " files) ;;
  print "" ;;
  call_rsync (username st) "" (Py.path_join (release_path st) "*") target ;;
  print "".

(** The body of the loop of [set_sourceforge_file_info]. *)
Definition update_file_info (base_url : string) (file : string) : M loop_ctl :=
  print ("  " ++ file) ;;
  (* Determine defaults based on file extension *)
  let ext := snd (Py.splitext file) in
  match defaults_for ext with
  | None =>
      print ("WARNING: Unknown extension for file " ++ file) ;;
      ret Next
  | Some defaults =>
      (* SourceForge API request *)
      let url := Py.path_join base_url file in
      let payload := [("default", Py.PList defaults);
                      ("api_key", Py.PStr (sf_api_key w))] in
      st <- get ;;
      if dry_run st then
        let r := Py.mkRequest "PUT" url headers payload in
        print ("    Calling SourceForge Release API: " ++ prepare_url r) ;;
        ret Next
      else
        req <- requests_put url headers payload ;;
        (* Print results *)
        if (status_code req =? codes_ok)%Z then
          result <- lift (echoed_default req) ;;
          print ("    Download default for: " ++ result) ;;
          ret Next
        else
          let err :=
            if (status_code req =? codes_unauthorized)%Z then "access denied"
            else "SourceForge API call failed" in
          print ("ERROR: " ++ err ++ " - check API key") ;;
          ret Break
  end.

Definition set_sourceforge_file_info : M unit :=
  print "Updating uploaded files information" ;;
  version <- get_release_version ;;
  dir <- lift (sourceforge_target_dir version) ;;
  let base_url := sf_api_url dir in
  (* Loop through uploaded files *)
  files <- glob "adodb-*" ;;
  for_each files (update_file_info base_url).

Definition main : M unit :=
  (* Start upload process *)
  print "ADOdb release upload script" ;;
  process_command_line ;;
  st <- get ;;
  (if skip_upload st then print "Skipping upload of release files"
   else upload_release_files) ;;
  set_sourceforge_file_info.

(** The state in which [main] starts: the module-level assignments. *)
Definition initial_state : state :=
  mkState false (getuser w) "" false (getcwd w) 0.

Definition run : outcome unit * state * list event := main initial_state.

Definition trace : list event := snd run.

(** The process's exit status: 0 when [main] returns, the argument of
    [sys.exit], and 1 when an exception reaches the top level. *)
Definition exit_status : Z :=
  match fst (fst run) with
  | Ret _ => 0
  | Exit code => code
  | Raise _ => 1
  end.

End Script.

(** What the events write to standard output. *)
Fixpoint stdout (t : list event) : string :=
  match t with
  | [] => ""
  | Print line :: t' => line ++ Py.str Py.LF ++ stdout t'
  | _ :: t' => stdout t'
  end.

Definition is_print (e : event) : bool :=
  match e with Print _ => true | _ => false end.

Definition is_request (e : event) : bool :=
  match e with HttpPut _ => true | _ => false end.

End Upload.

(** ** The shapes the specification speaks of *)

Module Spec.

(** *** Names and versions *)

(** A pre-release suffix: nothing, or [-<phase>.<n>]. *)
Definition phase (p : string) : Prop := p = "alpha" \/ p = "beta" \/ p = "rc".

Definition prerelease (suf : string) : Prop :=
  suf = "" \/
  exists p n, phase p /\ Py.digits n = true /\ suf = "-" ++ p ++ "." ++ n.

(** A numeral without leading zeros. *)
Definition canonical (s : string) : bool :=
  (s =? "0") || negb (Py.startswith "0" s).

(** [X.Y.Z] *)
Definition triple (X Y Z : string) : string := X ++ "." ++ Y ++ "." ++ Z.

(** [adodb-X.Y.Z<suffix>.zip] *)
Definition archive_name (X Y Z suf : string) : string :=
  "adodb-" ++ triple X Y Z ++ suf ++ ".zip".

(** What [get_release_version] reads off a file name: group 1 of the
    match, if the pattern matches. *)
Definition extracted_version (name : string) : option string :=
  match Py.re_search Upload.version_pattern name with
  | Some m => Py.group m 1
  | None => None
  end.

(** Characters other than [c]. *)
Definition other_than (c : ascii) : ascii -> bool := fun a => negb (a =? c)%char.

(** Where a run of characters of class [p] has to stop. *)
Definition stops (p : ascii -> bool) (r : string) : bool :=
  match r with
  | "" => true
  | String c _ => negb (p c)
  end.

(** The last character of a string. *)
Fixpoint last_char (s : string) : option ascii :=
  match s with
  | "" => None
  | String c "" => Some c
  | String _ s' => last_char s'
  end.

(** Whether [needle] occurs in [hay]. *)
Fixpoint contains (needle hay : string) : bool :=
  Py.startswith needle hay
  || match hay with
     | "" => false
     | String _ hay' => contains needle hay'
     end.

(** *** The matcher, declaratively *)

(** The matcher moves from [st] to [st'] by consuming [a]. *)
Definition step (st st' : Py.mstate) (a : string) : Prop :=
  Py.m_rest st = a ++ Py.m_rest st' /\
  Py.m_pos st' = (Py.m_pos st + String.length a)%nat.

(** When [r] can take the matcher from [st] to [st']. *)
Fixpoint matches (r : Py.regex) (st st' : Py.mstate) : Prop :=
  match r with
  | Py.Eps => st' = st
  | Py.Bol => Py.m_pos st = 0%nat /\ st' = st
  | Py.Eol => Py.at_eol (Py.m_rest st) = true /\ st' = st
  | Py.Chr c => step st st' (Py.str c) /\ Py.m_groups st' = Py.m_groups st
  | Py.Digits1 =>
      exists a, Py.digits a = true /\ step st st' a /\
                Py.m_groups st' = Py.m_groups st
  | Py.Seq r1 r2 => exists mid, matches r1 st mid /\ matches r2 mid st'
  | Py.Alt r1 r2 => matches r1 st st' \/ matches r2 st st'
  | Py.Opt r' => matches r' st st' \/ st' = st
  | Py.Group n r' =>
      exists inner,
        matches r' st inner /\
        st' = Py.mkMstate (Py.m_pos inner) (Py.m_rest inner)
                ((n, Py.str_take (Py.m_pos inner - Py.m_pos st) (Py.m_rest st))
                   :: Py.m_groups inner)
  end.

(** What a pattern without anchors consumes and captures: the text [a]
    and the captures [caps], latest first. *)
Fixpoint sem (r : Py.regex) (a : string) (caps : list (nat * string)) : Prop :=
  match r with
  | Py.Eps => a = "" /\ caps = []
  | Py.Bol | Py.Eol => False
  | Py.Chr c => a = Py.str c /\ caps = []
  | Py.Digits1 => Py.digits a = true /\ caps = []
  | Py.Seq r1 r2 =>
      exists a1 a2 c1 c2,
        a = a1 ++ a2 /\ caps = (c2 ++ c1)%list /\ sem r1 a1 c1 /\ sem r2 a2 c2
  | Py.Alt r1 r2 => sem r1 a caps \/ sem r2 a caps
  | Py.Opt r' => sem r' a caps \/ (a = "" /\ caps = [])
  | Py.Group n r' => exists c, sem r' a c /\ caps = (n, a) :: c
  end.

Fixpoint anchor_free (r : Py.regex) : bool :=
  match r with
  | Py.Bol | Py.Eol => false
  | Py.Eps | Py.Chr _ | Py.Digits1 => true
  | Py.Seq r1 r2 | Py.Alt r1 r2 => anchor_free r1 && anchor_free r2
  | Py.Opt r' | Py.Group _ r' => anchor_free r'
  end.

(** *** Runs *)

Definition outcome_of {A : Type} (r : outcome A * Upload.state * list Upload.event)
  : outcome A := fst (fst r).
Definition state_of {A : Type} (r : outcome A * Upload.state * list Upload.event)
  : Upload.state := snd (fst r).
Definition events_of {A : Type} (r : outcome A * Upload.state * list Upload.event)
  : list Upload.event := snd r.

(** [r] with the events [t] in front of its own. *)
Definition prepend {A : Type} (t : list Upload.event)
           (r : outcome A * Upload.state * list Upload.event)
  : outcome A * Upload.state * list Upload.event :=
  let '(o, s, t') := r in (o, s, (t ++ t')%list).

(** A computation keeps the state property [I] and emits only events of
    kind [E], however it ends. *)
Definition pres {A : Type} (I : Upload.state -> Prop) (E : Upload.event -> bool)
           (m : Upload.M A) : Prop :=
  forall st, I st ->
    I (state_of (m st)) /\ forallb E (events_of (m st)) = true.

Definition in_dry_run (st : Upload.state) : Prop := Upload.dry_run st = true.

Definition not_request (e : Upload.event) : bool := negb (Upload.is_request e).

(** An invariant that looks at the dry-run flag and the request count
    only, and that survives switching dry-run on. *)
Definition flag_stable (I : Upload.state -> Prop) : Prop :=
  forall s d u r k wd,
    I s -> d = true \/ d = Upload.dry_run s ->
    I (Upload.mkState d u r k wd (Upload.api_calls s)).

Definition count_requests (t : list Upload.event) : nat :=
  List.length (filter Upload.is_request t).

(** *** The command line *)

(** Whether one of the option names was given. *)
Definition has_opt (names : list string) (opts : list (string * string)) : bool :=
  existsb (fun o => Py.str_in (fst o) names) opts.

Definition help_opt : list string := ["-h"; "--help"].
Definition user_opt : list string := ["-u"; "--user"].
Definition skip_opt : list string := ["-s"; "--skip-upload"].
Definition dry_opt : list string := ["-n"; "--dry-run"].

(** The result of parsing the command line. *)
Definition parsed (w : Upload.World)
  : Py.getopt_result (list (string * string) * list string) :=
  Py.gnu_getopt (Upload.posixly_correct w) (Upload.argv w)
                Upload.options Upload.long_options.

(** Whether the command line asks for dry-run mode. *)
Definition dry_run_requested (w : Upload.World) : bool :=
  match parsed w with
  | inl (opts, _) => has_opt dry_opt opts
  | inr _ => false
  end.

(** The directory the script works in, the release path it shows, and
    whether it could change to it, for given positional arguments. *)
Definition start_dir (w : Upload.World) (args : list string) : string :=
  match args with
  | [] => Upload.getcwd w
  | a :: _ => Py.path_join (Upload.getcwd w) a
  end.

Definition shown_path (w : Upload.World) (args : list string) : string :=
  match args with
  | [] => Upload.getcwd w
  | a :: _ => a
  end.

Definition chdir_fine (w : Upload.World) (args : list string) : bool :=
  match args with
  | [] => true
  | a :: _ => Upload.chdir_ok w a
  end.

(** The release archives [glob] finds in the working directory. *)
Definition candidates (w : Upload.World) (args : list string) : list string :=
  Py.glob (Upload.listdir w (start_dir w args)) "adodb-*.zip".

Definition not_found_message (path : string) : string :=
  "ERROR: release zip file not found in '" ++ path ++ "'".

Definition unparsable_message (zipfile : string) : string :=
  "ERROR: unable to extract version number from '" ++ zipfile ++ "'
       Only 3 groups of digits separated by periods are allowed".

(** The diagnostic of a failed version resolution, if it fails. *)
Definition data_error (w : Upload.World) (args : list string) : option string :=
  match candidates w args with
  | [] => Some (not_found_message (shown_path w args))
  | zipfile :: _ =>
      match Py.re_search Upload.version_pattern zipfile with
      | None => Some (unparsable_message zipfile)
      | Some _ => None
      end
  end.

Definition banner : string := "ADOdb release upload script".

Definition usage_line (w : Upload.World) : string :=
  Upload.usage_text (Py.basename (Upload.script_file w)).

(** *** The metadata loop *)

(** The request the metadata stage builds for a file and its tags. *)
Definition request_for (w : Upload.World) (base file : string)
           (tags : list string) : Py.request :=
  Py.mkRequest "PUT" (Py.path_join base file) Upload.headers
               [("default", Py.PList tags); ("api_key", Py.PStr (Upload.sf_api_key w))].

(** The state after one more request. *)
Definition bump (st : Upload.state) : Upload.state :=
  Upload.mkState (Upload.dry_run st) (Upload.username st) (Upload.release_path st)
                 (Upload.skip_upload st) (Upload.workdir st)
                 (S (Upload.api_calls st)).

Definition file_line (file : string) : Upload.event := Upload.Print ("  " ++ file).

Definition warning_line (file : string) : Upload.event :=
  Upload.Print ("WARNING: Unknown extension for file " ++ file).

Definition calling_line (w : Upload.World) (r : Py.request) : Upload.event :=
  Upload.Print ("    Calling SourceForge Release API: " ++ Upload.prepare_url w r).

(** The tags a file is updated with in state [st]: printed inside the
    URL in dry-run mode, sent otherwise. *)
Definition tags_used (w : Upload.World) (base file : string) (st : Upload.state)
           (tags : list string) : Prop :=
  let t := events_of (Upload.update_file_info w base file st) in
  if Upload.dry_run st
  then t = [file_line file; calling_line w (request_for w base file tags)]
  else exists t', t = file_line file
                      :: Upload.HttpPut (request_for w base file tags) :: t'.

(** What the metadata loop prints for a file in dry-run mode. *)
Definition dry_lines (w : Upload.World) (base file : string) : list Upload.event :=
  match Upload.defaults_for (snd (Py.splitext file)) with
  | Some tags => [file_line file; calling_line w (request_for w base file tags)]
  | None => [file_line file; warning_line file]
  end.

(** What is asked of a run [r] that starts when [n] requests have been
    sent: after a request that the service answers with a failure status
    comes one diagnostic and nothing else, and the run returns; after one
    it answers with the success status comes the line with the echoed
    tags; after one it does not answer comes nothing. *)
Definition fail_fast (w : Upload.World) (n : nat)
           (r : outcome unit * Upload.state * list Upload.event) : Prop :=
  forall t1 req t2,
    events_of r = (t1 ++ Upload.HttpPut req :: t2)%list ->
    match Upload.sf_api w (n + count_requests t1) req with
    | Upload.Responded resp =>
        if (Upload.status_code resp =? Upload.codes_ok)%Z then
          forall v, Upload.echoed_default resp = Ret v ->
                    exists t3, t2 = Upload.Print ("    Download default for: " ++ v) :: t3
        else
          t2 = [Upload.Print
                  (if (Upload.status_code resp =? Upload.codes_unauthorized)%Z
                   then "ERROR: access denied - check API key"
                   else "ERROR: SourceForge API call failed - check API key")]
          /\ outcome_of r = Ret tt
    | Upload.NoResponse => t2 = []
    end.

(** *** The query string *)

(** One [default] parameter and the [api_key] parameter of the query. *)
Definition default_param (tag : string) : string := "default=" ++ tag.

Definition api_key_param (key : string) : string :=
  "api_key=" ++ Py.quote_plus key.

(** The query string for the tags [tags] and the key [key]. *)
Definition query (tags : list string) (key : string) : string :=
  String.concat "&" (map default_param tags ++ [api_key_param key])%list.

(** The query string up to the key. *)
Definition query_head (tags : list string) : string :=
  String.concat "&" (map default_param tags ++ ["api_key="])%list.

(** Reading one quoted character back. *)
Definition hex_val (c : ascii) : nat :=
  let n := nat_of_ascii c in
  if (n <? 58)%nat then n - 48 else n - 55.

Definition unquote_head (s : string) : option (ascii * string) :=
  match s with
  | "" => None
  | String "+" r => Some (" "%char, r)
  | String "%" (String h1 (String h2 r)) =>
      let b := (16 * hex_val h1 + hex_val h2)%nat in
      if (b <? 128)%nat then Some (ascii_of_nat b, r)
      else match r with
           | String "%" (String h3 (String h4 r')) =>
               let b' := (16 * hex_val h3 + hex_val h4)%nat in
               Some (ascii_of_nat ((b - 192) * 64 + (b' - 128)), r')
           | _ => None
           end
  | String c r => Some (c, r)
  end.

(** *** Worlds *)

(** The same world with another API key. *)
Definition with_key (w : Upload.World) (key : string) : Upload.World :=
  Upload.mkWorld (Upload.argv w) (Upload.script_file w) (Upload.posixly_correct w)
    (Upload.getuser w) (Upload.getcwd w) (Upload.chdir_ok w) (Upload.listdir w)
    key (Upload.sf_api w) (Upload.prepared_elsewhere w).

(** A world for examples: user alice in /home/alice, every directory
    holding [names], every [chdir] succeeding, the service giving the
    [n]-th request the answer [answer n]. *)
Definition example_world (args names : list string) (key : string)
           (answer : nat -> Upload.http_result) : Upload.World :=
  Upload.mkWorld args "scripts/uploadrelease.py" false "alice" "/home/alice"
    (fun _ => true) (fun _ => names) key (fun n _ => answer n) Py.req_url.

Definition answer_status (code : Z) : Upload.http_result :=
  Upload.Responded (Upload.mkResponse code (Ret "['windows']")).

Definition always (code : Z) : nat -> Upload.http_result :=
  fun _ => answer_status code.

(** *** What the options leave behind *)

(** The account the options select: the value of the last user option,
    [u] when there is none. *)
Fixpoint last_user (u : string) (opts : list (string * string)) : string :=
  match opts with
  | [] => u
  | o :: opts' =>
      last_user (if Py.str_in (fst o) user_opt then snd o else u) opts'
  end.

Definition dry_notice : Upload.event :=
  Upload.Print "Dry-run mode - files will not be uploaded or modified".

(** What option processing prints: the notice, once for every dry-run
    option. *)
Definition option_lines (opts : list (string * string)) : list Upload.event :=
  flat_map (fun o => if Py.str_in (fst o) dry_opt then [dry_notice] else []) opts.

(** The state [st] after the options [opts], none of them help. *)
Definition after_opts (st : Upload.state) (opts : list (string * string))
  : Upload.state :=
  Upload.mkState (Upload.dry_run st || has_opt dry_opt opts)
                 (last_user (Upload.username st) opts)
                 (Upload.release_path st)
                 (Upload.skip_upload st || has_opt skip_opt opts)
                 (Upload.workdir st) (Upload.api_calls st).

(** The state in which [process_command_line] leaves the script, for
    options without help and the positional arguments [args]. *)
Definition after_command_line (w : Upload.World) (opts : list (string * string))
           (args : list string) : Upload.state :=
  Upload.mkState (has_opt dry_opt opts)
                 (last_user (Upload.getuser w) opts)
                 (shown_path w args)
                 (has_opt skip_opt opts)
                 (if chdir_fine w args then start_dir w args else Upload.getcwd w)
                 0.

(** *** Target directories *)

(** The text before the first [c]. *)
Fixpoint before (c : ascii) (s : string) : string :=
  match s with
  | "" => ""
  | String a s' => if (a =? c)%char then "" else String a (before c s')
  end.

(** The base directory for the major version written [X]. *)
Definition base_dir (X : string) : string :=
  if (Py.dec_value X =? 5)%Z then "adodb-php5-only"
  else "adodb" ++ Py.format_int (Py.dec_value X).

(** The target directory for the major version written [X] and the short
    version [short]. *)
Definition target_dir (X short : string) : string :=
  base_dir X ++ "/" ++ "adodb-" ++ short.

(** *** Events by kind *)

Definition is_spawn (e : Upload.event) : bool :=
  match e with Upload.Spawn _ => true | _ => false end.

Definition not_spawn (e : Upload.event) : bool := negb (is_spawn e).

Definition count_spawns (t : list Upload.event) : nat :=
  List.length (filter is_spawn t).

(** The requests of a trace, in the order they were sent. *)
Fixpoint requests_of (t : list Upload.event) : list Py.request :=
  match t with
  | [] => []
  | Upload.HttpPut r :: t' => r :: requests_of t'
  | _ :: t' => requests_of t'
  end.

(** A trace in two stages: first no request, then no process. *)
Definition staged (t : list Upload.event) : Prop :=
  exists t1 t2,
    t = (t1 ++ t2)%list
    /\ forallb not_request t1 = true
    /\ forallb not_spawn t2 = true.

(** *** The transfer *)

(** The same state with the dry-run flag set to [d]. *)
Definition set_dry (d : bool) (st : Upload.state) : Upload.state :=
  Upload.mkState d (Upload.username st) (Upload.release_path st)
                 (Upload.skip_upload st) (Upload.workdir st) (Upload.api_calls st).

(** An event as a dry run shows it: a command line is printed instead of
    run. *)
Definition as_print (e : Upload.event) : Upload.event :=
  match e with
  | Upload.Spawn c => Upload.Print c
  | _ => e
  end.

(** What the transfer stage prints and runs in state [st] for the target
    directory [dir]. *)
Definition transfer_block (w : Upload.World) (st : Upload.state) (dir : string)
  : list Upload.event :=
  let run := if Upload.dry_run st then Upload.Print else Upload.Spawn in
  [Upload.Print "";
   Upload.Print "Uploading release files...";
   Upload.Print ("  Source: " ++ Upload.release_path st);
   Upload.Print ("  Target: frs.sourceforge.net:/home/frs/project/adodb/" ++ dir);
   Upload.Print ("  Files:  "
                 ++ String.concat ", "
                      (Py.glob (Upload.listdir w (Upload.workdir st)) "*"));
   Upload.Print "";
   run ("ssh " ++ Upload.username st
        ++ "@frs.sourceforge.net mkdir -p /home/frs/project/adodb/" ++ dir);
   run ("rsync -vP --rsh ssh  " ++ Py.path_join (Upload.release_path st) "*"
        ++ " " ++ Upload.username st
        ++ "@frs.sourceforge.net:/home/frs/project/adodb/" ++ dir);
   Upload.Print ""].

(** *** The metadata stage *)

(** The requests the metadata stage has for the files [files]: one for
    each file with a known extension, in order. *)
Definition planned (w : Upload.World) (base : string) (files : list string)
  : list Py.request :=
  flat_map (fun f =>
              match Upload.defaults_for (snd (Py.splitext f)) with
              | Some tags => [request_for w base f tags]
              | None => []
              end) files.

(** A service that answers every request with the success status and a
    body that holds the echoed tags. *)
Definition service_ok (w : Upload.World) : Prop :=
  forall n req, exists r v,
    Upload.sf_api w n req = Upload.Responded r
    /\ Upload.status_code r = Upload.codes_ok
    /\ Upload.echoed_default r = Ret v.

(** Everything a run prints and does before the metadata loop, for
    options without help, when the release directory can be entered and
    holds an archive of the version [X.Y.Z]. *)
Definition before_loop (w : Upload.World) (opts : list (string * string))
           (args : list string) (dir : string) : list Upload.event :=
  (Upload.Print banner :: option_lines opts
   ++ (if has_opt skip_opt opts
       then [Upload.Print "Skipping upload of release files"]
       else transfer_block w (after_command_line w opts args) dir)
   ++ [Upload.Print "Updating uploaded files information"])%list.

(** *** Runs that get to the metadata loop *)

(** Whether a run gets as far as the metadata loop: the options parse,
    help is not asked for, the release directory can be entered and the
    version resolves. *)
Definition reaches_loop (w : Upload.World) : bool :=
  match parsed w with
  | inl (opts, args) =>
      negb (has_opt help_opt opts) && chdir_fine w args
      && match data_error w args with None => true | Some _ => false end
  | inr _ => false
  end.

(** The files the metadata loop goes through. *)
Definition loop_files (w : Upload.World) : list string :=
  match parsed w with
  | inl (_, args) => Py.glob (Upload.listdir w (start_dir w args)) "adodb-*"
  | inr _ => []
  end.

(** Whether the loop has a request for a file. *)
Definition known (file : string) : bool :=
  match Upload.defaults_for (snd (Py.splitext file)) with
  | Some _ => true
  | None => false
  end.

(** A name made of letters, digits, [-], [.], [_] and [~]. *)
Definition plain_name (file : string) : bool :=
  Py.str_forall Py.is_unreserved file.

(** *** Further invariants of runs *)

(** The invariant that holds of every state. *)
Definition anything : Upload.state -> Prop := fun _ => True.

(** What is asked of a run [r] that starts when [n] requests have been
    sent: a request that the service does not answer, or answers with the
    success status and a body without the echoed tags, is the last event,
    and the exception raised is how the run ends. *)
Definition crash_stop (w : Upload.World) (n : nat)
           (r : outcome unit * Upload.state * list Upload.event) : Prop :=
  forall t1 req t2,
    events_of r = (t1 ++ Upload.HttpPut req :: t2)%list ->
    match Upload.sf_api w (n + count_requests t1) req with
    | Upload.Responded resp =>
        Upload.status_code resp = Upload.codes_ok ->
        forall e, Upload.echoed_default resp = Raise e ->
                  t2 = [] /\ outcome_of r = Raise e
    | Upload.NoResponse => t2 = [] /\ outcome_of r = Raise RequestException
    end.

End Spec.

(** ** Facts about strings *)

Lemma sapp_assoc (a b c : string) : (a ++ b) ++ c = a ++ (b ++ c).
Proof. induction a as [|x a IH]; simpl; [reflexivity | now rewrite IH]. Qed.

Lemma sapp_nil_r (a : string) : a ++ "" = a.
Proof. induction a as [|x a IH]; simpl; [reflexivity | now rewrite IH]. Qed.

Lemma slength_app (a b : string) :
  String.length (a ++ b) = (String.length a + String.length b)%nat.
Proof. induction a as [|x a IH]; simpl; [reflexivity | now rewrite IH]. Qed.

Lemma str_forall_app p (a b : string) :
  Py.str_forall p (a ++ b) = Py.str_forall p a && Py.str_forall p b.
Proof.
  induction a as [|x a IH]; simpl; [reflexivity|].
  now rewrite IH, andb_assoc.
Qed.

Lemma str_forall_impl (p q : ascii -> bool) (s : string) :
  (forall c, p c = true -> q c = true) ->
  Py.str_forall p s = true -> Py.str_forall q s = true.
Proof.
  intros Hpq; induction s as [|c s IH]; simpl; [reflexivity|].
  intros H; apply andb_true_iff in H as [Hc Hs].
  now rewrite (Hpq c Hc), IH.
Qed.

Lemma str_take_app (a b : string) : Py.str_take (String.length a) (a ++ b) = a.
Proof. induction a as [|x a IH]; simpl; [now destruct b | now rewrite IH]. Qed.

Lemma str_drop_app (a b : string) : Py.str_drop (String.length a) (a ++ b) = b.
Proof. induction a as [|x a IH]; simpl; [now destruct b | exact IH]. Qed.

Lemma digit_other_than (c : ascii) :
  Py.is_digit c = false -> forall a, Py.is_digit a = true -> Spec.other_than c a = true.
Proof.
  intros Hc a Ha; unfold Spec.other_than.
  destruct (Ascii.eqb_spec a c) as [->|]; [congruence | reflexivity].
Qed.

Lemma digits_spec (s : string) :
  Py.digits s = true <-> s <> "" /\ Py.str_forall Py.is_digit s = true.
Proof.
  unfold Py.digits; rewrite andb_true_iff, negb_true_iff, String.eqb_neq.
  reflexivity.
Qed.

Lemma digits_other_than (c : ascii) (s : string) :
  Py.is_digit c = false -> Py.digits s = true ->
  Py.str_forall (Spec.other_than c) s = true.
Proof.
  intros Hc Hs; apply digits_spec in Hs as [_ Hs].
  eapply str_forall_impl; [apply digit_other_than, Hc | exact Hs].
Qed.

(** *** [split] *)

Lemma split_not_nil sep s : Py.split sep s <> [].
Proof.
  induction s as [|c s IH]; simpl; [discriminate|].
  destruct (c =? sep)%char; [discriminate|].
  destruct (Py.split sep s); [congruence | discriminate].
Qed.

Lemma split_head sep (a b : string) :
  Py.str_forall (Spec.other_than sep) a = true ->
  Py.split sep (a ++ String sep b) = a :: Py.split sep b.
Proof.
  induction a as [|x a IH]; simpl.
  - intros _. now rewrite Ascii.eqb_refl.
  - intros H; apply andb_true_iff in H as [Hx Ha].
    unfold Spec.other_than in Hx; apply negb_true_iff in Hx; rewrite Hx.
    now rewrite (IH Ha).
Qed.

Lemma split_whole sep (a : string) :
  Py.str_forall (Spec.other_than sep) a = true -> Py.split sep a = [a].
Proof.
  induction a as [|x a IH]; simpl; [reflexivity|].
  intros H; apply andb_true_iff in H as [Hx Ha].
  unfold Spec.other_than in Hx; apply negb_true_iff in Hx; rewrite Hx.
  now rewrite (IH Ha).
Qed.

(** *** [rfind] and [rsplit1] *)

Lemma rfind_from_absent i c (s : string) :
  Py.str_forall (Spec.other_than c) s = true -> Py.rfind_from i c s = (-1)%Z.
Proof.
  revert i; induction s as [|x s IH]; simpl; intros i H; [reflexivity|].
  apply andb_true_iff in H as [Hx Hs].
  unfold Spec.other_than in Hx; apply negb_true_iff in Hx.
  now rewrite (IH _ Hs), Hx.
Qed.

Lemma rfind_from_last i c (a b : string) :
  (0 <= i)%Z -> Py.str_forall (Spec.other_than c) b = true ->
  Py.rfind_from i c (a ++ String c b) = (i + Z.of_nat (String.length a))%Z.
Proof.
  revert i; induction a as [|x a IH]; intros i Hi Hb.
  - simpl. rewrite (rfind_from_absent _ _ _ Hb), Ascii.eqb_refl. simpl. lia.
  - cbn [String.append Py.rfind_from String.length].
    rewrite (IH (i + 1)%Z) by (assumption || lia).
    destruct (Z.leb_spec 0 (i + 1 + Z.of_nat (String.length a))); lia.
Qed.

Lemma rsplit1_last c (a b : string) :
  Py.str_forall (Spec.other_than c) b = true ->
  Py.rsplit1 c (a ++ String c b) = [a; b].
Proof.
  intros Hb; unfold Py.rsplit1, Py.rfind.
  rewrite (rfind_from_last 0 c a b) by (assumption || lia).
  destruct (Z.ltb_spec (0 + Z.of_nat (String.length a)) 0); [lia|].
  rewrite Z.add_0_l, Nat2Z.id, str_take_app.
  replace (String.length a + 1)%nat with (String.length (a ++ String c "")).
  - replace (a ++ String c b) with ((a ++ String c "") ++ b)
      by now rewrite sapp_assoc.
    now rewrite str_drop_app.
  - rewrite slength_app; reflexivity.
Qed.

(** *** [int] on a run of digits *)

Lemma int_digits_run (d : string) :
  Py.str_forall Py.is_digit d = true ->
  forall acc b, d <> "" \/ b = true ->
  Py.int_digits acc b d = Some (Py.dec_value_from acc d).
Proof.
  induction d as [|c d IH]; simpl; intros H acc b Hb.
  - destruct Hb as [Hb | ->]; [congruence | reflexivity].
  - apply andb_true_iff in H as [Hc Hd]. rewrite Hc.
    apply IH; [exact Hd | now right].
Qed.

Lemma digit_not_space c : Py.is_digit c = true -> Py.int_space c = false.
Proof.
  unfold Py.is_digit, Py.int_space; intros H.
  apply andb_true_iff in H as [H1 H2].
  apply Nat.leb_le in H1, H2.
  repeat match goal with
         | |- context [(?a <=? ?b)%nat] => destruct (Nat.leb_spec a b)
         | |- context [(?a =? ?b)%nat] => destruct (Nat.eqb_spec a b)
         end; simpl; try reflexivity; lia.
Qed.

Lemma lstrip_digits (d : string) :
  Py.str_forall Py.is_digit d = true -> Py.lstrip d = d.
Proof.
  destruct d as [|c d]; simpl; [reflexivity|].
  intros H; apply andb_true_iff in H as [Hc _].
  now rewrite (digit_not_space c Hc).
Qed.

Lemma rstrip_digits (d : string) :
  Py.str_forall Py.is_digit d = true -> Py.rstrip d = d.
Proof.
  induction d as [|c d IH]; simpl; [reflexivity|].
  intros H; apply andb_true_iff in H as [Hc Hd].
  rewrite (IH Hd), (digit_not_space c Hc). now destruct d.
Qed.

Lemma int_digits_string (d : string) :
  Py.digits d = true -> Py.int d = Ret (Py.dec_value d).
Proof.
  intros H; apply digits_spec in H as [Hne Hd].
  unfold Py.int. rewrite (lstrip_digits d Hd), (rstrip_digits d Hd).
  assert (Hs : Py.int_signed d = Py.int_digits 0 false d).
  { destruct d as [|c d]; [congruence|].
    simpl in Hd; apply andb_true_iff in Hd as [Hc _].
    unfold Py.int_signed.
    destruct (Ascii.eqb_spec c "+") as [->|]; [discriminate|].
    destruct (Ascii.eqb_spec c "-") as [->|]; [discriminate|].
    destruct c as [[] [] [] [] [] [] [] []]; try reflexivity; congruence. }
  rewrite Hs, (int_digits_run d Hd 0%Z false) by now left.
  reflexivity.
Qed.

(** *** Formatting a parsed number *)

Lemma digits_uint (s : string) :
  Py.str_forall Py.is_digit s = true ->
  exists d, NilEmpty.uint_of_string s = Some d.
Proof.
  induction s as [|c s IH]; cbn [Py.str_forall NilEmpty.uint_of_string].
  - now exists Decimal.Nil.
  - intros H. apply andb_true_iff in H as [Hc Hs].
    destruct (IH Hs) as [d ->].
    destruct c as [[] [] [] [] [] [] [] []]; try discriminate; cbn; eauto.
Qed.

Ltac digit_arith :=
  unfold Py.digit_val;
  match goal with
  | |- context [Z.of_nat ?n] =>
      let v := eval vm_compute in (Z.of_nat n) in change (Z.of_nat n) with v
  end;
  lia.

Lemma of_uint_acc_value (s : string) :
  forall d acc, NilEmpty.uint_of_string s = Some d ->
  Zpos (Pos.of_uint_acc d acc) = Py.dec_value_from (Zpos acc) s.
Proof.
  induction s as [|c s IH];
    cbn [NilEmpty.uint_of_string Py.dec_value_from]; intros d acc H.
  - injection H as <-. reflexivity.
  - destruct (NilEmpty.uint_of_string s) as [d'|] eqn:E.
    2:{ destruct c as [[] [] [] [] [] [] [] []]; discriminate. }
    destruct c as [[] [] [] [] [] [] [] []]; try discriminate; cbn in H;
      injection H as <-; cbn [Pos.of_uint_acc]; rewrite (IH d' _ eq_refl);
      f_equal; digit_arith.
Qed.

Lemma of_uint_value (s : string) :
  forall d, NilEmpty.uint_of_string s = Some d ->
  Z.of_N (Pos.of_uint d) = Py.dec_value s.
Proof.
  unfold Py.dec_value.
  induction s as [|c s IH];
    cbn [NilEmpty.uint_of_string Py.dec_value_from]; intros d H.
  - injection H as <-. reflexivity.
  - destruct (NilEmpty.uint_of_string s) as [d'|] eqn:E.
    2:{ destruct c as [[] [] [] [] [] [] [] []]; discriminate. }
    destruct c as [[] [] [] [] [] [] [] []]; try discriminate; cbn in H;
      injection H as <-; cbn [Pos.of_uint Z.of_N];
      first [ exact (IH d' eq_refl)
            | rewrite (of_uint_acc_value s d' _ E); reflexivity ].
Qed.

(** Formatting the value of a numeral without leading zeros gives the
    numeral back. *)
Lemma format_int_dec_value (X : string) :
  Py.digits X = true -> Spec.canonical X = true ->
  Py.format_int (Py.dec_value X) = X.
Proof.
  intros HX Hc. apply digits_spec in HX as [Hne Hd].
  destruct (digits_uint X Hd) as [d E].
  rewrite <- (of_uint_value X d E). unfold Py.format_int.
  change (Z.of_N (Pos.of_uint d)) with (Z.of_int (Decimal.Pos d)).
  rewrite DecimalZ.to_of. cbn [Decimal.norm].
  assert (Hu : Decimal.unorm d = d /\ d <> Decimal.Nil).
  { destruct X as [|c X]; [congruence|].
    cbn [NilEmpty.uint_of_string] in E.
    destruct (NilEmpty.uint_of_string X) as [d'|] eqn:E'.
    2:{ destruct c as [[] [] [] [] [] [] [] []]; discriminate. }
    unfold Spec.canonical in Hc. apply orb_true_iff in Hc as [Hc | Hc].
    - apply String.eqb_eq in Hc. injection Hc as -> ->.
      cbn in E'. injection E' as <-. cbn in E. injection E as <-. now split.
    - destruct c as [[] [] [] [] [] [] [] []]; try discriminate; cbn in E;
        injection E as <-; now split. }
  destruct Hu as [-> Hnil].
  unfold NilZero.string_of_int, NilZero.string_of_uint.
  destruct d; [congruence | ..]; now apply NilEmpty.sus.
Qed.

(** *** The target directory *)

Lemma triple_cut (X Y Z : string) :
  Spec.triple X Y Z = (X ++ "." ++ Y) ++ String "." Z.
Proof. unfold Spec.triple. now rewrite sapp_assoc. Qed.

Lemma triple_no_dash (X Y Z : string) :
  Py.digits X = true -> Py.digits Y = true -> Py.digits Z = true ->
  Py.str_forall (Spec.other_than "-") (Spec.triple X Y Z) = true.
Proof.
  intros HX HY HZ. unfold Spec.triple.
  rewrite !str_forall_app; cbn [Py.str_forall].
  rewrite !(digits_other_than "-") by (reflexivity || assumption).
  reflexivity.
Qed.

Lemma major_of_version (X rest : string) :
  Py.digits X = true ->
  Py.item (Py.rsplit "." (X ++ "." ++ rest)) 0 = Ret X.
Proof.
  intros HX. unfold Py.rsplit. cbn [String.append].
  rewrite split_head by now apply digits_other_than.
  reflexivity.
Qed.

Lemma short_of_version (X Y Z suf : string) :
  Py.digits X = true -> Py.digits Y = true -> Py.digits Z = true ->
  Spec.prerelease suf ->
  Py.item (Py.split "-" (Spec.triple X Y Z ++ suf)) 0 = Ret (Spec.triple X Y Z).
Proof.
  intros HX HY HZ [-> | (p & n & _ & _ & ->)].
  - rewrite sapp_nil_r, split_whole by now apply triple_no_dash.
    reflexivity.
  - cbn [String.append].
    rewrite split_head by now apply triple_no_dash.
    reflexivity.
Qed.

Lemma target_dir_of_version (X Y Z suf : string) :
  Py.digits X = true -> Py.digits Y = true -> Py.digits Z = true ->
  Spec.prerelease suf ->
  Upload.sourceforge_target_dir (Spec.triple X Y Z ++ suf)
  = Ret ((if (Py.dec_value X =? 5)%Z then "adodb-php5-only"
          else "adodb" ++ Py.format_int (Py.dec_value X))
         ++ "/" ++ "adodb-" ++ X ++ "." ++ Y).
Proof.
  intros HX HY HZ Hsuf. unfold Upload.sourceforge_target_dir.
  replace (Spec.triple X Y Z ++ suf) with (X ++ "." ++ (Y ++ "." ++ Z) ++ suf)
    at 1 by (unfold Spec.triple; now rewrite !sapp_assoc).
  rewrite major_of_version by assumption. cbn [obind].
  rewrite int_digits_string by assumption. cbn [obind].
  rewrite short_of_version by assumption. cbn [obind].
  rewrite triple_cut, rsplit1_last by now apply digits_other_than.
  cbn [Py.item nth_error obind].
  destruct (Py.dec_value X =? 5)%Z; [reflexivity|].
  now rewrite !sapp_assoc.
Qed.

(** C1. For a version [X.Y.Z] with an optional pre-release suffix,
    [sourceforge_target_dir] returns the base segment ["adodb-php5-only"]
    when the major number is 5 and ["adodb"] followed by the major number
    otherwise, then ["/"], then ["adodb-"] followed by [X.Y]: the patch
    number and the suffix are dropped.  The major number is written in
    decimal, which is [X] itself when [X] has no leading zeros. *)
Theorem C1_target_directory (X Y Z suf : string) :
  Py.digits X = true -> Py.digits Y = true -> Py.digits Z = true ->
  Spec.prerelease suf ->
  Upload.sourceforge_target_dir (Spec.triple X Y Z ++ suf)
  = Ret ((if (Py.dec_value X =? 5)%Z then "adodb-php5-only"
          else "adodb" ++ Py.format_int (Py.dec_value X))
         ++ "/" ++ "adodb-" ++ X ++ "." ++ Y)
  /\ (Spec.canonical X = true -> Py.format_int (Py.dec_value X) = X).
Proof.
  intros HX HY HZ Hsuf. split.
  - exact (target_dir_of_version X Y Z suf HX HY HZ Hsuf).
  - now apply format_int_dec_value.
Qed.

Lemma C1_target_directory_witness :
  Upload.sourceforge_target_dir "5.20.9" = Ret "adodb-php5-only/adodb-5.20".
Proof.
  apply (proj1 (C1_target_directory "5" "20" "9" "" eq_refl eq_refl eq_refl
                  (or_introl eq_refl))).
Defined.

Example target_dir_5_20_9 :
  Upload.sourceforge_target_dir "5.20.9" = Ret "adodb-php5-only/adodb-5.20".
Proof. reflexivity. Qed.

Example target_dir_7_3_1 :
  Upload.sourceforge_target_dir "7.3.1" = Ret "adodb7/adodb-7.3".
Proof. reflexivity. Qed.

Example target_dir_7_3_1_beta_2 :
  Upload.sourceforge_target_dir "7.3.1-beta.2" = Ret "adodb7/adodb-7.3".
Proof. reflexivity. Qed.

(** ** The matcher *)

Lemma sapp_eq_nil (a b : string) : a ++ b = "" -> a = "" /\ b = "".
Proof. destruct a; simpl; [now split | discriminate]. Qed.

Lemma many_spec p (s a b : string) :
  In (a, b) (Py.many p s) <-> s = a ++ b /\ Py.str_forall p a = true.
Proof.
  revert a b; induction s as [|c s IH]; intros a b; simpl.
  - split.
    + intros [H | []]; injection H as <- <-; now split.
    + intros [H _]. symmetry in H; apply sapp_eq_nil in H as [-> ->]. now left.
  - destruct (p c) eqn:Hc.
    + rewrite in_app_iff, in_map_iff. split.
      * intros [((a', b') & Heq & Hin) | [H | []]].
        -- injection Heq as <- <-. apply IH in Hin as [-> Ha].
           simpl. now rewrite Hc, Ha.
        -- injection H as <- <-. now split.
      * intros [Heq Ha]. destruct a as [|x a].
        -- simpl in Heq; subst b. right; now left.
        -- simpl in Heq, Ha. injection Heq as <- ->.
           apply andb_true_iff in Ha as [_ Ha].
           left. exists (a, b). split; [reflexivity|]. apply IH. now split.
    + split.
      * intros [H | []]; injection H as <- <-; now split.
      * intros [Heq Ha]. destruct a as [|x a].
        -- simpl in Heq; subst b. now left.
        -- simpl in Heq, Ha. injection Heq as <- ->.
           rewrite Hc in Ha; discriminate.
Qed.

Lemma many1_spec p (s a b : string) :
  In (a, b) (Py.many1 p s) <->
  s = a ++ b /\ a <> "" /\ Py.str_forall p a = true.
Proof.
  destruct s as [|c s]; simpl.
  - split; [intros [] | intros (H & Hne & _)].
    symmetry in H; apply sapp_eq_nil in H as [-> _]. congruence.
  - destruct (p c) eqn:Hc.
    + rewrite in_map_iff. split.
      * intros ((a', b') & Heq & Hin). injection Heq as <- <-.
        apply many_spec in Hin as [-> Ha]. simpl. rewrite Hc, Ha.
        repeat split; discriminate.
      * intros (Heq & Hne & Ha). destruct a as [|x a]; [congruence|].
        simpl in Heq, Ha. injection Heq as <- ->.
        apply andb_true_iff in Ha as [_ Ha].
        exists (a, b). split; [reflexivity|]. apply many_spec. now split.
    + split; [intros [] | intros (Heq & Hne & Ha)].
      destruct a as [|x a]; [congruence|].
      simpl in Heq, Ha. injection Heq as <- ->.
      rewrite Hc in Ha; discriminate.
Qed.

Lemma mstate_eq (st st' : Py.mstate) :
  Py.m_pos st = Py.m_pos st' -> Py.m_rest st = Py.m_rest st' ->
  Py.m_groups st = Py.m_groups st' -> st = st'.
Proof. destruct st, st'; simpl; intros -> -> ->; reflexivity. Qed.

Lemma in_singleton {A : Type} (x y : A) : In x [y] <-> x = y.
Proof. simpl; split; [intros [H | []]; now symmetry | now left]. Qed.

(** The matcher lists exactly the states the pattern can reach. *)
Lemma rmatch_spec (r : Py.regex) :
  forall st st', In st' (Py.rmatch r st) <-> Spec.matches r st st'.
Proof.
  induction r as [| | | c | | r1 IH1 r2 IH2 | r1 IH1 r2 IH2 | r IH | n r IH];
    intros st st'; cbn [Py.rmatch Spec.matches].
  - apply in_singleton.
  - destruct (Nat.eqb_spec (Py.m_pos st) 0) as [E | E].
    + rewrite in_singleton. tauto.
    + simpl. tauto.
  - destruct (Py.at_eol (Py.m_rest st)).
    + rewrite in_singleton. tauto.
    + simpl. split; [tauto | intros [H _]; discriminate].
  - unfold Spec.step, Py.str. destruct (Py.m_rest st) as [|a rest] eqn:Hr.
    + simpl. split; [tauto | intros [[H _] _]; discriminate].
    + destruct (Ascii.eqb_spec a c) as [-> | Hac].
      * rewrite in_singleton. split.
        -- intros ->. simpl. repeat split. lia.
        -- intros [[H1 H2] H3]. simpl in H1, H2. injection H1 as H1.
           apply mstate_eq; simpl; [lia | congruence | congruence].
      * simpl. split; [tauto | intros [[H _] _]].
        simpl in H. congruence.
  - rewrite in_map_iff. unfold Spec.step. split.
    + intros ((a, b) & <- & Hin). apply many1_spec in Hin as (Heq & Hne & Ha).
      exists a. simpl. repeat split; [|assumption].
      apply digits_spec; now split.
    + intros (a & Hd & [H1 H2] & H3). apply digits_spec in Hd as [Hne Ha].
      exists (a, Py.m_rest st'). split.
      * apply mstate_eq; simpl; congruence.
      * apply many1_spec. now repeat split.
  - rewrite in_flat_map. split.
    + intros (mid & H1 & H2). exists mid. split; [apply IH1 | apply IH2]; assumption.
    + intros (mid & H1 & H2). exists mid. split; [apply IH1 | apply IH2]; assumption.
  - rewrite in_app_iff, IH1, IH2. tauto.
  - rewrite in_app_iff, IH, in_singleton. tauto.
  - rewrite in_map_iff. split.
    + intros (inner & <- & Hin). exists inner. split; [now apply IH | reflexivity].
    + intros (inner & Hin & ->). exists inner. split; [reflexivity | now apply IH].
Qed.

Lemma step_refl st : Spec.step st st "".
Proof. unfold Spec.step; simpl; split; [reflexivity | lia]. Qed.

Lemma step_trans st mid st' a b :
  Spec.step st mid a -> Spec.step mid st' b -> Spec.step st st' (a ++ b).
Proof.
  unfold Spec.step; intros [H1 H2] [H3 H4]; split.
  - now rewrite H1, H3, sapp_assoc.
  - rewrite H4, H2, slength_app; lia.
Qed.

Lemma step_cut st st' a b g :
  Spec.step st st' (a ++ b) ->
  exists mid, Spec.step st mid a /\ Spec.step mid st' b /\ Py.m_groups mid = g.
Proof.
  unfold Spec.step; intros [H1 H2].
  exists (Py.mkMstate (Py.m_pos st + String.length a) (b ++ Py.m_rest st') g).
  simpl. rewrite H1, H2, sapp_assoc, slength_app.
  repeat split; lia.
Qed.

Lemma step_nil st st' : Spec.step st st' "" -> Py.m_groups st' = Py.m_groups st -> st' = st.
Proof.
  unfold Spec.step; simpl; intros [H1 H2] H3.
  apply mstate_eq; [lia | congruence | congruence].
Qed.

Lemma step_capture st st' a :
  Spec.step st st' a ->
  Py.str_take (Py.m_pos st' - Py.m_pos st) (Py.m_rest st) = a.
Proof.
  unfold Spec.step; intros [-> ->].
  replace (Py.m_pos st + String.length a - Py.m_pos st)%nat
    with (String.length a) by lia.
  apply str_take_app.
Qed.

(** Without anchors, a match is a piece of text consumed and captures
    pushed on the ones already made. *)
Lemma matches_sem (r : Py.regex) :
  Spec.anchor_free r = true ->
  forall st st',
    Spec.matches r st st' <->
    exists a caps, Spec.sem r a caps /\ Spec.step st st' a /\
                   Py.m_groups st' = (caps ++ Py.m_groups st)%list.
Proof.
  induction r as [| | | c | | r1 IH1 r2 IH2 | r1 IH1 r2 IH2 | r IH | n r IH];
    cbn [Spec.anchor_free Spec.matches Spec.sem]; intros Haf st st';
    try discriminate.
  - split.
    + intros ->. exists "", []. split; [now split|].
      split; [apply step_refl | reflexivity].
    + intros (a & caps & [-> ->] & Hst & Hg). now apply step_nil.
  - split.
    + intros [Hs Hg]. exists (Py.str c), [].
      split; [split; reflexivity | split; assumption].
    + intros (a & caps & [-> ->] & Hs & Hg). split; assumption.
  - split.
    + intros (a & Hd & Hs & Hg). exists a, [].
      split; [split; [assumption | reflexivity] | split; assumption].
    + intros (a & caps & [Hd ->] & Hs & Hg). exists a.
      split; [assumption | split; assumption].
  - apply andb_true_iff in Haf as [Haf1 Haf2]. split.
    + intros (mid & H1 & H2).
      apply (IH1 Haf1) in H1 as (a1 & c1 & Hs1 & Hst1 & Hg1).
      apply (IH2 Haf2) in H2 as (a2 & c2 & Hs2 & Hst2 & Hg2).
      exists (a1 ++ a2), (c2 ++ c1)%list. split; [|split].
      * exists a1, a2, c1, c2. split; [reflexivity|].
        split; [reflexivity|]. split; assumption.
      * eapply step_trans; eassumption.
      * now rewrite Hg2, Hg1, app_assoc.
    + intros (a & caps & (a1 & a2 & c1 & c2 & -> & -> & Hs1 & Hs2) & Hst & Hg).
      destruct (step_cut st st' a1 a2 (c1 ++ Py.m_groups st)%list Hst)
        as (mid & Hst1 & Hst2 & Hgm).
      exists mid. split.
      * apply (IH1 Haf1). exists a1, c1.
        split; [assumption | split; assumption].
      * apply (IH2 Haf2). exists a2, c2.
        split; [assumption | split; [assumption|]].
        now rewrite Hg, Hgm, app_assoc.
  - apply andb_true_iff in Haf as [Haf1 Haf2].
    rewrite (IH1 Haf1), (IH2 Haf2). split.
    + intros [(a & caps & H & Hr) | (a & caps & H & Hr)];
        exists a, caps; (split; [|exact Hr]); [now left | now right].
    + intros (a & caps & [H | H] & Hr); [left | right]; exists a, caps; now split.
  - rewrite (IH Haf). split.
    + intros [(a & caps & H & Hr) | ->].
      * exists a, caps. split; [now left | exact Hr].
      * exists "", []. split; [now right | split; [apply step_refl | reflexivity]].
    + intros (a & caps & [H | [-> ->]] & Hst & Hg).
      * left. exists a, caps. split; [assumption | split; assumption].
      * right. now apply step_nil.
  - split.
    + intros (inner & Hin & ->).
      apply (IH Haf) in Hin as (a & c & Hs & Hst & Hg).
      exists a, ((n, a) :: c). simpl. split; [|split].
      * exists c. now split.
      * exact Hst.
      * now rewrite (step_capture _ _ _ Hst), Hg.
    + intros (a & caps & (c & Hs & ->) & Hst & Hg).
      exists (Py.mkMstate (Py.m_pos st') (Py.m_rest st') (c ++ Py.m_groups st)%list).
      split.
      * apply (IH Haf). exists a, c.
        split; [assumption | split; [exact Hst | reflexivity]].
      * apply mstate_eq; simpl; try reflexivity.
        rewrite Hg. simpl. f_equal. f_equal.
        symmetry. now apply (step_capture st st' a).
Qed.

(** *** The pattern of [get_release_version] *)

Ltac break :=
  repeat match goal with
         | H : exists _, _ |- _ => destruct H
         | H : _ /\ _ |- _ => destruct H
         end.

Lemma sem_lit (s a : string) caps :
  s <> "" -> (Spec.sem (Py.Lit s) a caps <-> a = s /\ caps = []).
Proof.
  revert a caps; induction s as [|c s IH]; intros a caps Hne; [congruence|].
  destruct s as [|d s].
  - simpl. reflexivity.
  - change (Py.Lit (String c (String d s)))
      with (Py.Seq (Py.Chr c) (Py.Lit (String d s))).
    cbn [Spec.sem]. split.
    + intros (a1 & a2 & c1 & c2 & -> & -> & [-> ->] & H).
      apply IH in H as [-> ->]; [|discriminate]. now split.
    + intros [-> ->]. exists (Py.str c), (String d s), [], [].
      repeat split. apply IH; [discriminate | now split].
Qed.

Lemma sem_version_group (a : string) caps :
  Spec.sem Upload.version_group a caps <->
  exists X Y Z, Py.digits X = true /\ Py.digits Y = true /\ Py.digits Z = true /\
                a = Spec.triple X Y Z /\ caps = [(1%nat, a)].
Proof.
  unfold Upload.version_group, Spec.triple. cbn [Spec.sem]. split.
  - intros H. break. subst. simpl.
    eexists _, _, _. repeat split; eassumption.
  - intros (X & Y & Z & HX & HY & HZ & -> & ->).
    exists []. split; [|reflexivity].
    exists X, ("." ++ Y ++ "." ++ Z), [], []. repeat split; [assumption|].
    exists ".", (Y ++ "." ++ Z), [], []. repeat split.
    exists Y, ("." ++ Z), [], []. repeat split; [assumption|].
    exists ".", Z, [], []. now repeat split.
Qed.

Lemma sem_phase (a : string) caps :
  Spec.sem (Py.Alt (Py.Lit "alpha") (Py.Alt (Py.Lit "beta") (Py.Lit "rc"))) a caps
  <-> Spec.phase a /\ caps = [].
Proof.
  cbn [Spec.sem]. rewrite !sem_lit by discriminate. unfold Spec.phase. tauto.
Qed.

Lemma sem_suffix_group (a : string) caps :
  Spec.sem Upload.suffix_group a caps <->
  (a = "" /\ caps = []) \/
  (exists p n, Spec.phase p /\ Py.digits n = true /\ a = "-" ++ p ++ "." ++ n /\
               caps = [(2%nat, a); (3%nat, p)]).
Proof.
  unfold Upload.suffix_group. cbn [Spec.sem]. split.
  - intros [(c & (a1 & a2 & c1 & c2 & -> & -> & [-> ->] &
                  (a3 & a4 & c3 & c4 & -> & -> & (c5 & Hp & ->) &
                   (a5 & a6 & c6 & c7 & -> & -> & [-> ->] & [Hn ->]))) & ->) | H].
    + apply sem_phase in Hp as [Hp ->]. right.
      exists a3, a6. now repeat split.
    + now left.
  - intros [H | (p & n & Hp & Hn & -> & ->)]; [now right | left].
    exists [(3%nat, p)]. split; [|reflexivity].
    exists "-", (p ++ "." ++ n), [], [(3%nat, p)]. repeat split.
    exists p, ("." ++ n), [(3%nat, p)], []. repeat split.
    + exists []. split; [|reflexivity]. apply sem_phase. now split.
    + exists ".", n, [], []. now repeat split.
Qed.

Lemma at_eol_spec (rest : string) :
  Py.at_eol rest = true <-> rest = "" \/ rest = Py.str Py.LF.
Proof. unfold Py.at_eol. now rewrite orb_true_iff, !String.eqb_eq. Qed.

(** Every state the pattern reaches on [name] shows that [name] is an
    archive name, possibly followed by one line feed, and holds its
    version as group 1. *)
Lemma version_pattern_sound (name : string) (m : Py.mstate) :
  Spec.matches Upload.version_pattern (Py.mkMstate 0 name []) m ->
  exists X Y Z suf nl,
    Py.digits X = true /\ Py.digits Y = true /\ Py.digits Z = true /\
    Spec.prerelease suf /\ (nl = "" \/ nl = Py.str Py.LF) /\
    name = Spec.archive_name X Y Z suf ++ nl /\
    Py.group m 1 = Some (Spec.triple X Y Z).
Proof.
  unfold Upload.version_pattern. cbn [Spec.matches].
  intros (m0 & [_ ->] & m1 & H1 & m2 & H2 & m3 & H3 & m4 & H4 & Heol & ->).
  apply matches_sem in H1 as (a1 & c1 & S1 & [R1 _] & G1); [|reflexivity].
  apply matches_sem in H2 as (a2 & c2 & S2 & [R2 _] & G2); [|reflexivity].
  apply matches_sem in H3 as (a3 & c3 & S3 & [R3 _] & G3); [|reflexivity].
  apply matches_sem in H4 as (a4 & c4 & S4 & [R4 _] & G4); [|reflexivity].
  apply sem_lit in S1 as [-> ->]; [|discriminate].
  apply sem_lit in S4 as [-> ->]; [|discriminate].
  apply sem_version_group in S2 as (X & Y & Z & HX & HY & HZ & -> & ->).
  apply at_eol_spec in Heol.
  simpl in R1. unfold Py.group. rewrite G4, G3, G2, G1.
  exists X, Y, Z, a3, (Py.m_rest m4).
  assert (Hname : name = Spec.archive_name X Y Z a3 ++ Py.m_rest m4).
  { unfold Spec.archive_name. rewrite R1, R2, R3, R4.
    now rewrite !sapp_assoc. }
  apply sem_suffix_group in S3 as [[-> ->] | (p & n & Hp & Hn & -> & ->)].
  - repeat split; try assumption. now left.
  - repeat split; try assumption. right. now exists p, n.
Qed.

Lemma version_pattern_complete (X Y Z suf nl : string) :
  Py.digits X = true -> Py.digits Y = true -> Py.digits Z = true ->
  Spec.prerelease suf -> nl = "" \/ nl = Py.str Py.LF ->
  exists m,
    Spec.matches Upload.version_pattern
      (Py.mkMstate 0 (Spec.archive_name X Y Z suf ++ nl) []) m.
Proof.
  intros HX HY HZ Hsuf Hnl.
  assert (Hs : exists c3, Spec.sem Upload.suffix_group suf c3).
  { destruct Hsuf as [-> | (p & n & Hp & Hn & ->)].
    - exists []. apply sem_suffix_group. now left.
    - eexists. apply sem_suffix_group. right. exists p, n. now repeat split. }
  destruct Hs as [c3 Hs].
  set (t := Spec.triple X Y Z).
  set (g2 := [(1%nat, t)]).
  set (m1 := Py.mkMstate 6 (t ++ suf ++ ".zip" ++ nl) []).
  set (m2 := Py.mkMstate (6 + String.length t) (suf ++ ".zip" ++ nl) g2).
  set (m3 := Py.mkMstate (6 + String.length t + String.length suf)
                         (".zip" ++ nl) (c3 ++ g2)%list).
  set (m4 := Py.mkMstate (6 + String.length t + String.length suf + 4)
                         nl (c3 ++ g2)%list).
  exists m4. unfold Upload.version_pattern. cbn [Spec.matches].
  eexists. split; [split; reflexivity|].
  exists m1. split.
  { apply matches_sem; [reflexivity|]. exists "adodb-", [].
    split; [now apply sem_lit|]. split; [|reflexivity].
    split; [|reflexivity]. unfold Spec.archive_name; simpl.
    now rewrite !sapp_assoc. }
  exists m2. split.
  { apply matches_sem; [reflexivity|]. exists t, g2.
    split; [apply sem_version_group; now exists X, Y, Z|].
    split; [|reflexivity]. split; reflexivity. }
  exists m3. split.
  { apply matches_sem; [reflexivity|]. exists suf, c3.
    split; [assumption|]. split; [|reflexivity]. split; reflexivity. }
  exists m4. split.
  { apply matches_sem; [reflexivity|]. exists ".zip", [].
    split; [now apply sem_lit|]. split; [|reflexivity]. split; reflexivity. }
  split; [|reflexivity]. now apply at_eol_spec.
Qed.

(** A run of characters of one class, stopped by something else, is cut
    out of a string in one way only. *)
Lemma span_unique p (a1 a2 r1 r2 : string) :
  Py.str_forall p a1 = true -> Py.str_forall p a2 = true ->
  Spec.stops p r1 = true -> Spec.stops p r2 = true ->
  a1 ++ r1 = a2 ++ r2 -> a1 = a2 /\ r1 = r2.
Proof.
  revert a2; induction a1 as [|x a1 IH]; intros [|y a2]; simpl;
    intros H1 H2 S1 S2 E.
  - now split.
  - subst r1. simpl in S1. apply andb_true_iff in H2 as [Hy _].
    rewrite Hy in S1; discriminate.
  - subst r2. simpl in S2. apply andb_true_iff in H1 as [Hx _].
    rewrite Hx in S2; discriminate.
  - injection E as -> E.
    apply andb_true_iff in H1 as [_ H1]. apply andb_true_iff in H2 as [_ H2].
    destruct (IH a2 H1 H2 S1 S2 E) as [-> ->]. now split.
Qed.

Lemma digits_forall (d : string) :
  Py.digits d = true -> Py.str_forall Py.is_digit d = true.
Proof. intros H; now apply digits_spec in H. Qed.

Lemma prerelease_stops (suf rest : string) :
  Spec.prerelease suf -> Spec.stops Py.is_digit (suf ++ ".zip" ++ rest) = true.
Proof. intros [-> | (p & n & _ & _ & ->)]; reflexivity. Qed.

Lemma archive_name_unique (X Y Z suf nl X' Y' Z' suf' nl' : string) :
  Py.digits X = true -> Py.digits Y = true -> Py.digits Z = true ->
  Py.digits X' = true -> Py.digits Y' = true -> Py.digits Z' = true ->
  Spec.prerelease suf -> Spec.prerelease suf' ->
  Spec.archive_name X Y Z suf ++ nl = Spec.archive_name X' Y' Z' suf' ++ nl' ->
  Spec.triple X Y Z = Spec.triple X' Y' Z'.
Proof.
  intros HX HY HZ HX' HY' HZ' Hs Hs' E.
  unfold Spec.archive_name, Spec.triple in E.
  rewrite !sapp_assoc in E. cbn [String.append] in E.
  injection E as E.
  apply span_unique with (p := Py.is_digit) in E as [-> E];
    try (now apply digits_forall); try reflexivity.
  injection E as E.
  apply span_unique with (p := Py.is_digit) in E as [-> E];
    try (now apply digits_forall); try reflexivity.
  injection E as E.
  apply span_unique with (p := Py.is_digit) in E as [-> E];
    try (now apply digits_forall); try (now apply prerelease_stops).
  reflexivity.
Qed.

(** [^] can only match where the search starts. *)
Lemma search_from_bol (r : Py.regex) (pos : nat) (s : string) :
  Py.search_from (Py.Seq Py.Bol r) (S pos) s = None.
Proof.
  revert pos; induction s as [|c s IH]; intros pos; simpl; [reflexivity|].
  apply IH.
Qed.

Lemma re_search_version_pattern (name : string) :
  Py.re_search Upload.version_pattern name
  = hd_error (Py.rmatch Upload.version_pattern (Py.mkMstate 0 name [])).
Proof.
  unfold Py.re_search.
  destruct name as [|c name]; cbn [Py.search_from].
  - now destruct (Py.rmatch _ _).
  - destruct (Py.rmatch _ _); [|reflexivity].
    apply search_from_bol.
Qed.

Lemma hd_error_in {A : Type} (l : list A) (x : A) : hd_error l = Some x -> In x l.
Proof. destruct l; simpl; [discriminate | intros [= ->]; now left]. Qed.

Lemma re_search_sound (name : string) (m : Py.mstate) :
  Py.re_search Upload.version_pattern name = Some m ->
  Spec.matches Upload.version_pattern (Py.mkMstate 0 name []) m.
Proof.
  rewrite re_search_version_pattern. intros H.
  now apply rmatch_spec, hd_error_in.
Qed.

Lemma re_search_complete (name : string) (m : Py.mstate) :
  Spec.matches Upload.version_pattern (Py.mkMstate 0 name []) m ->
  exists m', Py.re_search Upload.version_pattern name = Some m'.
Proof.
  rewrite re_search_version_pattern. intros H. apply rmatch_spec in H.
  destruct (Py.rmatch _ _) as [|m' l]; [destruct H | now exists m'].
Qed.

(** The version read off an archive name, with or without a final line
    feed. *)
Lemma extracted_version_archive (X Y Z suf nl : string) :
  Py.digits X = true -> Py.digits Y = true -> Py.digits Z = true ->
  Spec.prerelease suf -> nl = "" \/ nl = Py.str Py.LF ->
  exists m,
    Py.re_search Upload.version_pattern (Spec.archive_name X Y Z suf ++ nl) = Some m
    /\ Py.group m 1 = Some (Spec.triple X Y Z).
Proof.
  intros HX HY HZ Hsuf Hnl.
  destruct (version_pattern_complete X Y Z suf nl HX HY HZ Hsuf Hnl) as [m0 Hm0].
  destruct (re_search_complete _ _ Hm0) as [m Hm].
  exists m. split; [exact Hm|].
  apply re_search_sound, version_pattern_sound in Hm
    as (X' & Y' & Z' & suf' & nl' & HX' & HY' & HZ' & Hsuf' & _ & E & ->).
  f_equal. symmetry.
  now apply (archive_name_unique X Y Z suf nl X' Y' Z' suf' nl').
Qed.

Lemma extracted_version_sound (name v : string) :
  Spec.extracted_version name = Some v ->
  exists X Y Z suf nl,
    Py.digits X = true /\ Py.digits Y = true /\ Py.digits Z = true /\
    Spec.prerelease suf /\ (nl = "" \/ nl = Py.str Py.LF) /\
    name = Spec.archive_name X Y Z suf ++ nl /\ v = Spec.triple X Y Z.
Proof.
  unfold Spec.extracted_version.
  destruct (Py.re_search _ _) as [m|] eqn:Hm; [|discriminate].
  intros Hv.
  apply re_search_sound, version_pattern_sound in Hm
    as (X & Y & Z & suf & nl & HX & HY & HZ & Hsuf & Hnl & E & Hg).
  exists X, Y, Z, suf, nl. repeat split; try assumption. congruence.
Qed.

(** *** [fnmatch] with the patterns of the script *)

Lemma fnmatch_star (p s : string) :
  Py.fnmatch (String "*" p) s
  = Py.fnmatch p s
    || match s with
       | "" => false
       | String _ s' => Py.fnmatch (String "*" p) s'
       end.
Proof. destruct s; reflexivity. Qed.

Lemma fnmatch_any (s : string) : Py.fnmatch "*" s = true.
Proof.
  induction s as [|c s IH]; [reflexivity|].
  rewrite fnmatch_star, IH. apply orb_true_r.
Qed.

Lemma last_char_cons (c : ascii) (s : string) :
  s <> "" -> Spec.last_char (String c s) = Spec.last_char s.
Proof. destruct s; [congruence | reflexivity]. Qed.

Lemma last_char_app (a b : string) :
  b <> "" -> Spec.last_char (a ++ b) = Spec.last_char b.
Proof.
  intros Hb; induction a as [|x a IH]; [reflexivity|].
  cbn [String.append]. rewrite last_char_cons; [exact IH|].
  intros E; apply sapp_eq_nil in E as [_ E]; congruence.
Qed.

Lemma fnmatch_dot_zip (s : string) : Py.fnmatch ".zip" s = true -> s = ".zip".
Proof.
  intros H.
  do 4 (destruct s as [|? s]; [discriminate|];
        cbn [Py.fnmatch] in H; apply andb_true_iff in H as [E H];
        apply Ascii.eqb_eq in E; subst).
  cbn [Py.fnmatch] in H. apply String.eqb_eq in H. now subst.
Qed.

Lemma fnmatch_star_zip (s : string) :
  Py.fnmatch "*.zip" s = true -> Spec.last_char s = Some "p"%char.
Proof.
  induction s as [|c s IH]; rewrite fnmatch_star; intros H.
  - discriminate.
  - apply orb_true_iff in H as [H | H].
    + apply fnmatch_dot_zip in H. now rewrite H.
    + destruct s as [|d s]; [discriminate|].
      rewrite last_char_cons by discriminate. now apply IH.
Qed.

Lemma fnmatch_zip_last (name : string) :
  Py.fnmatch "adodb-*.zip" name = true -> Spec.last_char name = Some "p"%char.
Proof.
  intros H.
  do 6 (destruct name as [|? name]; [discriminate|];
        cbn [Py.fnmatch] in H; apply andb_true_iff in H as [_ H]).
  apply fnmatch_star_zip in H.
  destruct name as [|d s]; [discriminate|].
  now rewrite !last_char_cons by discriminate.
Qed.

Lemma archive_then_lf_last (X Y Z suf : string) :
  Spec.last_char (Spec.archive_name X Y Z suf ++ Py.str Py.LF) = Some Py.LF.
Proof. now rewrite last_char_app by discriminate. Qed.

Lemma archive_last (X Y Z suf : string) :
  Spec.last_char (Spec.archive_name X Y Z suf) = Some "p"%char.
Proof.
  unfold Spec.archive_name.
  rewrite <- !sapp_assoc. now rewrite last_char_app by discriminate.
Qed.

Lemma sapp_inv_head (a x y : string) : a ++ x = a ++ y -> x = y.
Proof. induction a as [|c a IH]; simpl; [auto | intros [= H]; auto]. Qed.

Lemma sapp_inv_tail (a b c : string) : a ++ c = b ++ c -> a = b.
Proof.
  revert b. induction a as [|x a IH]; intros [|y b] H; cbn in H.
  - reflexivity.
  - exfalso. apply (f_equal String.length) in H.
    cbn in H. rewrite slength_app in H. lia.
  - exfalso. apply (f_equal String.length) in H.
    cbn in H. rewrite slength_app in H. lia.
  - injection H as -> H. f_equal. now apply IH.
Qed.

Lemma fnmatch_star_suffix (p body : string) :
  Py.fnmatch p p = true -> Py.fnmatch (String "*" p) (body ++ p) = true.
Proof.
  intros Hp. induction body as [|c body IH].
  - cbn [String.append]. rewrite fnmatch_star, Hp. reflexivity.
  - cbn [String.append]. rewrite fnmatch_star, IH. apply orb_true_r.
Qed.

Lemma fnmatch_adodb_zip (body : string) :
  Py.fnmatch "adodb-*.zip" ("adodb-" ++ body ++ ".zip") = true.
Proof.
  change (Py.fnmatch "*.zip" (body ++ ".zip") = true).
  now apply fnmatch_star_suffix.
Qed.

Lemma archive_body (X Y Z suf body : string) :
  "adodb-" ++ body ++ ".zip" = Spec.archive_name X Y Z suf ->
  body = Spec.triple X Y Z ++ suf.
Proof.
  unfold Spec.archive_name. intros H. apply sapp_inv_head in H.
  rewrite <- sapp_assoc in H. now apply sapp_inv_tail in H.
Qed.

(** C2. On an archive name [adodb-X.Y.Z.zip] or
    [adodb-X.Y.Z-<phase>.<n>.zip] the pattern matches and group 1 is
    exactly [X.Y.Z].  On every other name [adodb-<body>.zip], whatever the
    body is (another phase label, no number, more or fewer components),
    the pattern does not match; the same holds of every other name that
    [glob('adodb-*.zip')] can return.  Besides, a name on which the
    pattern matches at all is an archive name, possibly followed by one
    line feed, before which [$] matches too, and group 1 is its
    [X.Y.Z]. *)
Theorem C2_archive_pattern (name : string) :
  (forall X Y Z suf,
      Py.digits X = true -> Py.digits Y = true -> Py.digits Z = true ->
      Spec.prerelease suf -> name = Spec.archive_name X Y Z suf ->
      Spec.extracted_version name = Some (Spec.triple X Y Z))
  /\ (forall body,
         name = "adodb-" ++ body ++ ".zip" ->
         (forall X Y Z suf,
             Py.digits X = true -> Py.digits Y = true -> Py.digits Z = true ->
             Spec.prerelease suf -> body <> Spec.triple X Y Z ++ suf) ->
         Py.re_search Upload.version_pattern name = None)
  /\ (Py.fnmatch "adodb-*.zip" name = true ->
      (forall X Y Z suf,
          Py.digits X = true -> Py.digits Y = true -> Py.digits Z = true ->
          Spec.prerelease suf -> name <> Spec.archive_name X Y Z suf) ->
      Py.re_search Upload.version_pattern name = None)
  /\ (forall m, Py.re_search Upload.version_pattern name = Some m ->
        exists X Y Z suf,
          Py.digits X = true /\ Py.digits Y = true /\ Py.digits Z = true /\
          Spec.prerelease suf /\
          (name = Spec.archive_name X Y Z suf \/
           name = Spec.archive_name X Y Z suf ++ Py.str Py.LF) /\
          Py.group m 1 = Some (Spec.triple X Y Z)).
Proof.
  assert (Hglob : Py.fnmatch "adodb-*.zip" name = true ->
            (forall X Y Z suf,
                Py.digits X = true -> Py.digits Y = true -> Py.digits Z = true ->
                Spec.prerelease suf -> name <> Spec.archive_name X Y Z suf) ->
            Py.re_search Upload.version_pattern name = None).
  { intros Hglob Hnot.
    destruct (Py.re_search _ _) as [m|] eqn:Hm; [exfalso | reflexivity].
    apply re_search_sound, version_pattern_sound in Hm
      as (X & Y & Z & suf & nl & HX & HY & HZ & Hsuf & Hnl & E & Hg).
    destruct Hnl as [-> | ->].
    + rewrite sapp_nil_r in E. now apply (Hnot X Y Z suf).
    + apply fnmatch_zip_last in Hglob.
      rewrite E, archive_then_lf_last in Hglob. discriminate. }
  split; [|split; [|split]].
  - intros X Y Z suf HX HY HZ Hsuf ->. unfold Spec.extracted_version.
    destruct (extracted_version_archive X Y Z suf "" HX HY HZ Hsuf)
      as (m & Hm & Hg); [now left|].
    rewrite sapp_nil_r in Hm. now rewrite Hm.
  - intros body -> Hnot. apply Hglob; [apply fnmatch_adodb_zip|].
    intros X Y Z suf HX HY HZ Hsuf E.
    apply archive_body in E. now apply (Hnot X Y Z suf).
  - exact Hglob.
  - intros m Hm.
    apply re_search_sound, version_pattern_sound in Hm
      as (X & Y & Z & suf & nl & HX & HY & HZ & Hsuf & Hnl & E & Hg).
    exists X, Y, Z, suf. repeat split; try assumption.
    destruct Hnl as [-> | ->]; [left | right]; [|exact E].
    now rewrite sapp_nil_r in E.
Qed.

(** A body of two components only is not a version. *)
Lemma two_parts_not_a_version (X Y Z suf : string) :
  Py.digits X = true -> Py.digits Y = true -> Py.digits Z = true ->
  Spec.prerelease suf -> "5.22" <> Spec.triple X Y Z ++ suf.
Proof.
  intros HX HY HZ Hsuf E. unfold Spec.triple in E.
  rewrite !sapp_assoc in E.
  destruct (span_unique Py.is_digit "5" X ".22" ("." ++ Y ++ "." ++ Z ++ suf))
    as [<- E1]; try reflexivity; [now apply digits_forall | exact E |].
  injection E1 as E1.
  destruct (span_unique Py.is_digit "22" Y "" ("." ++ Z ++ suf))
    as [_ E2]; try reflexivity; [now apply digits_forall | exact E1 |].
  discriminate.
Qed.

Lemma C2_archive_pattern_witness :
  Spec.extracted_version "adodb-5.22.7-rc.1.zip" = Some "5.22.7"
  /\ Spec.extracted_version "adodb-5.22.7.zip" = Some "5.22.7"
  /\ Py.re_search Upload.version_pattern "adodb-5.22.zip" = None.
Proof.
  split; [|split].
  - apply (proj1 (C2_archive_pattern _) "5" "22" "7" "-rc.1");
      try reflexivity.
    right. exists "rc", "1". repeat split. right; right; reflexivity.
  - apply (proj1 (C2_archive_pattern _) "5" "22" "7" ""); try reflexivity.
    left; reflexivity.
  - apply (proj1 (proj2 (C2_archive_pattern _)) "5.22"); [reflexivity|].
    exact two_parts_not_a_version.
Defined.

(** The line feed that [$] lets pass: such a name is not one that
    [glob('adodb-*.zip')] returns. *)
Example version_pattern_line_feed :
  Spec.extracted_version ("adodb-1.2.3.zip" ++ Py.str Py.LF) = Some "1.2.3"
  /\ Py.fnmatch "adodb-*.zip" ("adodb-1.2.3.zip" ++ Py.str Py.LF) = false.
Proof. split; reflexivity. Qed.

(** ** [gnu_getopt] always has rounds enough *)

Lemma do_shorts_length opts optstring shortopts args opts' args' :
  Py.do_shorts opts optstring shortopts args = inl (opts', args') ->
  (List.length args' <= List.length args)%nat.
Proof.
  revert opts; induction optstring as [|c s IH]; intros opts; cbn [Py.do_shorts].
  - intros [= _ <-]. lia.
  - destruct (Py.short_has_arg c shortopts) as [[|] | err]; [| apply IH | discriminate].
    destruct (s =? "").
    + destruct args as [|a args]; [discriminate|]. intros [= _ <-]. cbn. lia.
    + intros [= _ <-]. lia.
Qed.

Lemma do_longs_length opts opt longopts args opts' args' :
  Py.do_longs opts opt longopts args = inl (opts', args') ->
  (List.length args' <= List.length args)%nat.
Proof.
  unfold Py.do_longs.
  destruct (Py.cut_at "=" opt) as [[l r]|];
    (destruct (Py.long_has_args _ longopts) as [[[|] name] | err];
     [| | discriminate]).
  - intros [= _ <-]. lia.
  - discriminate.
  - destruct args as [|a args]; [discriminate|]. intros [= _ <-]. cbn. lia.
  - intros [= _ <-]. lia.
Qed.

(** The result does not depend on the number of rounds allowed, once that
    is at least the number of arguments: the loop ends because the
    arguments run out. *)
Lemma gnu_getopt_loop_fuel (fuel fuel' : nat) first shortopts longopts
      opts prog_args args :
  (List.length args <= fuel)%nat -> (List.length args <= fuel')%nat ->
  Py.gnu_getopt_loop fuel first shortopts longopts opts prog_args args
  = Py.gnu_getopt_loop fuel' first shortopts longopts opts prog_args args.
Proof.
  revert fuel' opts prog_args args.
  induction fuel as [|fuel IH]; intros fuel' opts prog_args args H H'.
  - destruct args; [|cbn in H; lia]. now destruct fuel'.
  - destruct args as [|a rest]; [now destruct fuel'|].
    destruct fuel' as [|fuel']; [cbn in H'; lia|].
    cbn [Py.gnu_getopt_loop]. cbn [List.length] in H, H'.
    destruct (a =? "--"); [reflexivity|].
    destruct (Py.str_take 2 a =? "--").
    { destruct (Py.do_longs opts _ longopts rest) as [[opts' args'] | err] eqn:E;
        [|reflexivity].
      apply do_longs_length in E. apply IH; lia. }
    destruct ((Py.str_take 1 a =? "-") && negb (a =? "-")).
    { destruct (Py.do_shorts opts _ shortopts rest) as [[opts' args'] | err] eqn:E;
        [|reflexivity].
      apply do_shorts_length in E. apply IH; lia. }
    destruct first; [reflexivity|]. apply IH; lia.
Qed.

(** ** Runs of the script *)

Section Runs.

Variable w : Upload.World.

Import Upload.

Lemma pres_ret {A} I E (a : A) : Spec.pres I E (ret a).
Proof. intros st H; now split. Qed.

Lemma pres_lift {A} I E (o : outcome A) : Spec.pres I E (lift o).
Proof. intros st H; now split. Qed.

Lemma pres_emit I E (e : event) : E e = true -> Spec.pres I E (emit e).
Proof. intros He st H; split; [exact H | simpl; now rewrite He]. Qed.

Lemma pres_print I (line : string) : Spec.pres I is_print (print line).
Proof. now apply pres_emit. Qed.

Lemma pres_put (I : state -> Prop) E (s : state) : I s -> Spec.pres I E (put s).
Proof. intros Hs st H; now split. Qed.

Lemma pres_bind {A B} I E (m : M A) (k : A -> M B) :
  Spec.pres I E m -> (forall a, Spec.pres I E (k a)) -> Spec.pres I E (bind m k).
Proof.
  intros Hm Hk st H. specialize (Hm st H). unfold bind.
  destruct (m st) as [[o s1] t1]. cbn in Hm. destruct Hm as [Hs1 Ht1].
  destruct o as [a | c | e]; [|now split | now split].
  specialize (Hk a s1 Hs1). destruct (k a s1) as [[o2 s2] t2].
  cbn in Hk |- *. destruct Hk as [Hs2 Ht2].
  split; [exact Hs2 | now rewrite forallb_app, Ht1, Ht2].
Qed.

Lemma pres_bind_get {B} (I : state -> Prop) E (k : state -> M B) :
  (forall s, I s -> Spec.pres I E (k s)) -> Spec.pres I E (bind get k).
Proof.
  intros Hk st H. unfold bind, get.
  specialize (Hk st H st H). destruct (k st st) as [[o2 s2] t2]. exact Hk.
Qed.

Lemma pres_try {A} I E (m h : M A) (e : exn) :
  Spec.pres I E m -> Spec.pres I E h -> Spec.pres I E (try_except m e h).
Proof.
  intros Hm Hh st H. specialize (Hm st H). unfold try_except.
  destruct (m st) as [[o s1] t1]. cbn in Hm. destruct Hm as [Hs1 Ht1].
  destruct o as [a | c | e']; [now split | now split |].
  destruct (exn_eqb e' e); [|now split].
  specialize (Hh s1 Hs1). destruct (h s1) as [[o2 s2] t2].
  cbn in Hh |- *. destruct Hh as [Hs2 Ht2].
  split; [exact Hs2 | now rewrite forallb_app, Ht1, Ht2].
Qed.

Lemma pres_for_each {A} I E (l : list A) (body : A -> M loop_ctl) :
  (forall x, Spec.pres I E (body x)) -> Spec.pres I E (for_each l body).
Proof.
  intros Hb; induction l as [|x l IH]; cbn [for_each].
  - apply pres_ret.
  - apply pres_bind; [apply Hb|]. intros [|]; [exact IH | apply pres_ret].
Qed.

Lemma pres_weaken {A} I (E E' : event -> bool) (m : M A) :
  (forall e, E e = true -> E' e = true) -> Spec.pres I E m -> Spec.pres I E' m.
Proof.
  intros HE Hm st H. destruct (Hm st H) as [Hs Ht]. split; [exact Hs|].
  rewrite forallb_forall in Ht |- *. auto.
Qed.

Ltac pres_step_with on_print :=
  lazymatch goal with
  | |- Spec.pres _ _ (ret _) => apply pres_ret
  | |- Spec.pres _ _ (lift _) => apply pres_lift
  | |- Spec.pres _ _ (sys_exit _) => apply pres_lift
  | |- Spec.pres _ _ (raise _) => apply pres_lift
  | |- Spec.pres _ _ (print _) => on_print
  | |- Spec.pres _ _ (bind get _) => apply pres_bind_get; intros ? ?
  | |- Spec.pres _ _ (bind _ _) => apply pres_bind; [|intros ?]
  end.

Ltac pres_step := pres_step_with ltac:(apply pres_print).

(** *** What every stage before the metadata loop keeps *)

Section Stages.

Variable I : state -> Prop.
Variable E : event -> bool.
Hypothesis I_stable : Spec.flag_stable I.
Hypothesis E_print : forall line, E (Print line) = true.
Hypothesis E_spawn :
  forall s, I s -> dry_run s = false -> forall c, E (Spawn c) = true.

Lemma pres_print' (line : string) : Spec.pres I E (print line).
Proof. apply pres_emit, E_print. Qed.

Ltac step := pres_step_with ltac:(apply pres_print').

Lemma pres_usage : Spec.pres I E (usage w).
Proof. apply pres_print'. Qed.

Lemma pres_glob (pattern : string) : Spec.pres I E (glob w pattern).
Proof. unfold glob. repeat step. Qed.

Lemma pres_set_release_path (p : string) : Spec.pres I E (set_release_path p).
Proof.
  unfold set_release_path. step. apply pres_put, I_stable; [assumption | now right].
Qed.

Lemma pres_chdir (path : string) : Spec.pres I E (chdir w path).
Proof.
  unfold chdir. step. destruct (chdir_ok w path).
  - apply pres_put, I_stable; [assumption | now right].
  - apply pres_lift.
Qed.

Lemma pres_call_rsync (usr opt src dst : string) :
  Spec.pres I E (call_rsync usr opt src dst).
Proof.
  unfold call_rsync. do 3 step. destruct (dry_run s) eqn:Hd.
  - repeat step.
  - unfold subprocess_call.
    apply pres_bind; [|intros ?]; apply pres_emit; now apply (E_spawn s).
Qed.

Lemma pres_get_release_version : Spec.pres I E (get_release_version w).
Proof.
  unfold get_release_version. step.
  - apply pres_try.
    + step; [apply pres_glob | step].
    + repeat step.
  - step.
    + apply pres_try.
      * destruct (Py.re_search _ _); step.
      * repeat step.
    + destruct (Py.group _ _); step.
Qed.

Lemma pres_process_options (opts : list (string * string)) :
  Spec.pres I E (process_options w opts).
Proof.
  induction opts as [|[opt val] opts IH]; cbn [process_options]; [step|].
  step. step; [|exact IH].
  destruct (Py.str_in opt _).
  { step; [apply pres_usage | step]. }
  destruct (Py.str_in opt _).
  { apply pres_put, I_stable; [assumption | now right]. }
  destruct (Py.str_in opt _).
  { apply pres_put, I_stable; [assumption | now right]. }
  destruct (Py.str_in opt _); [|step].
  step; [step|]. apply pres_put, I_stable; [assumption | now left].
Qed.

Lemma pres_process_command_line : Spec.pres I E (process_command_line w).
Proof.
  unfold process_command_line.
  destruct (Py.gnu_getopt _ _ _ _) as [[opts args] | err].
  - step. step.
    { apply pres_put, I_stable; [assumption | now right]. }
    step; [apply pres_process_options|].
    apply pres_try.
    + step; [step|]. step; [apply pres_set_release_path | apply pres_chdir].
    + step. apply pres_set_release_path.
  - step; [step|]. step; [apply pres_usage | step].
Qed.

Lemma pres_upload_release_files : Spec.pres I E (upload_release_files w).
Proof.
  unfold upload_release_files.
  step; [apply pres_get_release_version|].
  do 2 step. do 4 (step; [step|]).
  step; [apply pres_glob|]. do 2 (step; [step|]).
  step; [apply pres_call_rsync | step].
Qed.

End Stages.

(** *** Dry-run mode *)

Lemma in_dry_run_stable : Spec.flag_stable Spec.in_dry_run.
Proof.
  intros s d u r k wd H [-> | ->]; unfold Spec.in_dry_run; simpl; auto.
Qed.

Lemma in_dry_run_spawn :
  forall s, Spec.in_dry_run s -> dry_run s = false ->
            forall c, is_print (Spawn c) = true.
Proof. unfold Spec.in_dry_run; intros; congruence. Qed.

Lemma quiet_update_file_info (base file : string) :
  Spec.pres Spec.in_dry_run is_print (update_file_info w base file).
Proof.
  unfold update_file_info. pres_step; [pres_step|].
  destruct (defaults_for _); [|repeat pres_step].
  pres_step. rewrite H. repeat pres_step.
Qed.

Lemma quiet_set_sourceforge_file_info :
  Spec.pres Spec.in_dry_run is_print (set_sourceforge_file_info w).
Proof.
  unfold set_sourceforge_file_info. pres_step; [pres_step|].
  pres_step.
  { apply pres_get_release_version; auto using in_dry_run_stable. }
  pres_step; [pres_step|]. pres_step.
  { apply pres_glob; auto. }
  apply pres_for_each. intros x. apply quiet_update_file_info.
Qed.

(** Once dry-run mode is on, whatever is left of [main] only prints. *)
Lemma quiet_after_options :
  Spec.pres Spec.in_dry_run is_print
    (st <- get ;;
     (if skip_upload st then print "Skipping upload of release files"
      else upload_release_files w) ;;
     set_sourceforge_file_info w).
Proof.
  pres_step. pres_step; [|apply quiet_set_sourceforge_file_info].
  destruct (skip_upload s); [pres_step|].
  apply pres_upload_release_files;
    first [reflexivity | apply in_dry_run_spawn].
Qed.

(** *** Computing runs *)

Ltac sproj :=
  cbn [dry_run username release_path skip_upload workdir api_calls
       Spec.prepend app].

Lemma prepend_nil {A} (r : outcome A * state * list event) : Spec.prepend [] r = r.
Proof. now destruct r as [[o s] t]. Qed.

Lemma events_prepend {A} t (r : outcome A * state * list event) :
  Spec.events_of (Spec.prepend t r) = (t ++ Spec.events_of r)%list.
Proof. now destruct r as [[o s] t']. Qed.

Lemma outcome_prepend {A} t (r : outcome A * state * list event) :
  Spec.outcome_of (Spec.prepend t r) = Spec.outcome_of r.
Proof. now destruct r as [[o s] t']. Qed.

Lemma state_prepend {A} t (r : outcome A * state * list event) :
  Spec.state_of (Spec.prepend t r) = Spec.state_of r.
Proof. now destruct r as [[o s] t']. Qed.

Lemma bind_ret_run {A B} (m : M A) (k : A -> M B) st a st1 t1 :
  m st = (Ret a, st1, t1) -> bind m k st = Spec.prepend t1 (k a st1).
Proof. intros H. unfold bind. now rewrite H. Qed.

Lemma bind_exit_run {A B} (m : M A) (k : A -> M B) st c st1 t1 :
  m st = (Exit c, st1, t1) -> bind m k st = (Exit c, st1, t1).
Proof. intros H. unfold bind. now rewrite H. Qed.

Lemma bind_raise_run {A B} (m : M A) (k : A -> M B) st e st1 t1 :
  m st = (Raise e, st1, t1) -> bind m k st = (Raise e, st1, t1).
Proof. intros H. unfold bind. now rewrite H. Qed.

Lemma bind_get_run {B} (k : state -> M B) st : bind get k st = k st st.
Proof. rewrite (bind_ret_run get k st st st []) by reflexivity. apply prepend_nil. Qed.

Lemma bind_print_run {B} (line : string) (k : unit -> M B) st :
  bind (print line) k st = Spec.prepend [Print line] (k tt st).
Proof. now apply bind_ret_run. Qed.

Lemma str_in_true (x : string) (l : list string) :
  Py.str_in x l = true <-> In x l.
Proof.
  unfold Py.str_in. rewrite existsb_exists. split.
  - intros (y & Hy & E). apply String.eqb_eq in E. now subst.
  - intros H. exists x. split; [exact H | apply String.eqb_refl].
Qed.

(** *** Option processing *)

(** With no help option, every option is processed: the flags end up set
    if they were, or if their option was given. *)
Lemma process_options_run (opts : list (string * string)) :
  Spec.has_opt Spec.help_opt opts = false ->
  forall st, exists u t,
    process_options w opts st
    = (Ret tt,
       mkState (dry_run st || Spec.has_opt Spec.dry_opt opts) u (release_path st)
               (skip_upload st || Spec.has_opt Spec.skip_opt opts)
               (workdir st) (api_calls st),
       t)
    /\ forallb is_print t = true.
Proof.
  induction opts as [|[opt val] opts IH]; intros Hh st.
  - exists (username st), []. cbn. rewrite !orb_false_r. now destruct st.
  - cbn [Spec.has_opt existsb fst] in Hh |- *.
    apply orb_false_iff in Hh as [Hh Hh'].
    cbn [process_options]. rewrite bind_get_run.
    unfold Spec.help_opt in Hh. rewrite Hh.
    destruct (Py.str_in opt ["-u"; "--user"]) eqn:Eu.
    { apply str_in_true in Eu. 
      destruct (IH Hh' (mkState (dry_run st) val (release_path st) (skip_upload st)
                               (workdir st) (api_calls st))) as (u & t & Hrun & Ht).
      exists u, t. split; [|exact Ht].
      erewrite bind_ret_run by reflexivity. rewrite Hrun. cbn.
      destruct Eu as [<- | [<- | []]]; reflexivity. }
    destruct (Py.str_in opt ["-s"; "--skip-upload"]) eqn:Es.
    { apply str_in_true in Es.
      destruct (IH Hh' (mkState (dry_run st) (username st) (release_path st) true
                               (workdir st) (api_calls st))) as (u & t & Hrun & Ht).
      exists u, t. split; [|exact Ht].
      erewrite bind_ret_run by reflexivity. rewrite Hrun. cbn.
      destruct Es as [<- | [<- | []]]; cbn; now rewrite orb_true_r. }
    destruct (Py.str_in opt ["-n"; "--dry-run"]) eqn:En.
    { destruct (IH Hh' (mkState true (username st) (release_path st) (skip_upload st)
                               (workdir st) (api_calls st))) as (u & t & Hrun & Ht).
      exists u, (Print "Dry-run mode - files will not be uploaded or modified" :: t).
      split; [|exact Ht].
      erewrite bind_ret_run by reflexivity. rewrite Hrun. sproj.
      unfold Spec.has_opt, Spec.skip_opt, Spec.dry_opt. rewrite Es, En. cbn [orb].
      now rewrite orb_true_r. }
    destruct (IH Hh' st) as (u & t & Hrun & Ht).
    exists u, t. split; [|exact Ht].
    erewrite bind_ret_run by reflexivity. rewrite Hrun. sproj.
    unfold Spec.has_opt, Spec.skip_opt, Spec.dry_opt. now rewrite Es, En.
Qed.

(** With a help option, processing stops at the first one: usage is the
    last thing printed and the exit status is 0. *)
Lemma process_options_help (opts : list (string * string)) :
  Spec.has_opt Spec.help_opt opts = true ->
  forall st, exists st' t,
    process_options w opts st = (Exit 0, st', (t ++ [Print (Spec.usage_line w)])%list)
    /\ forallb is_print t = true.
Proof.
  induction opts as [|[opt val] opts IH]; intros Hh st; [discriminate|].
  cbn [Spec.has_opt existsb fst] in Hh.
  cbn [process_options]. rewrite bind_get_run.
  destruct (Py.str_in opt Spec.help_opt) eqn:Eh.
  { exists st, []. unfold Spec.help_opt in Eh. rewrite Eh. now split. }
  cbn [orb] in Hh. unfold Spec.help_opt in Eh. rewrite Eh.
  assert (Hstep : forall (m : M unit) st1 t1,
             m st = (Ret tt, st1, t1) -> forallb is_print t1 = true ->
             exists st' t,
               bind m (fun _ => process_options w opts) st
               = (Exit 0, st', (t ++ [Print (Spec.usage_line w)])%list)
               /\ forallb is_print t = true).
  { intros m st1 t1 Hm Ht1. destruct (IH Hh st1) as (st' & t & Hrun & Ht).
    exists st', (t1 ++ t)%list. split.
    - rewrite (bind_ret_run _ _ _ _ _ _ Hm), Hrun. cbn. now rewrite app_assoc.
    - now rewrite forallb_app, Ht1, Ht. }
  destruct (Py.str_in opt ["-u"; "--user"]); [now eapply Hstep|].
  destruct (Py.str_in opt ["-s"; "--skip-upload"]); [now eapply Hstep|].
  destruct (Py.str_in opt ["-n"; "--dry-run"]); now eapply Hstep.
Qed.

(** *** The command line *)

Lemma process_command_line_run (opts : list (string * string)) (args : list string) :
  Spec.parsed w = inl (opts, args) ->
  Spec.has_opt Spec.help_opt opts = false ->
  Spec.chdir_fine w args = true ->
  exists u t,
    process_command_line w (initial_state w)
    = (Ret tt,
       mkState (Spec.has_opt Spec.dry_opt opts) u (Spec.shown_path w args)
               (Spec.has_opt Spec.skip_opt opts) (Spec.start_dir w args) 0,
       t)
    /\ forallb is_print t = true.
Proof.
  intros Hp Hh Hc. unfold process_command_line.
  unfold Spec.parsed in Hp. rewrite Hp. rewrite bind_get_run.
  erewrite bind_ret_run by reflexivity. rewrite prepend_nil.
  destruct (process_options_run opts Hh
              (mkState (dry_run (initial_state w)) (getuser w)
                       (release_path (initial_state w))
                       (skip_upload (initial_state w))
                       (workdir (initial_state w))
                       (api_calls (initial_state w))))
    as (u & t & Hrun & Ht).
  rewrite (bind_ret_run _ _ _ _ _ _ Hrun). sproj. cbn [initial_state orb] .
  exists u, (t ++ [])%list. split; [|now rewrite app_nil_r].
  destruct args as [|a args]; [reflexivity|].
  cbn [Spec.chdir_fine] in Hc.
  unfold try_except, bind, lift, set_release_path, chdir, get, put, Py.item.
  cbn [nth_error]. sproj. rewrite Hc. reflexivity.
Qed.

Lemma process_command_line_help (opts : list (string * string)) (args : list string) :
  Spec.parsed w = inl (opts, args) ->
  Spec.has_opt Spec.help_opt opts = true ->
  exists st' t,
    process_command_line w (initial_state w)
    = (Exit 0, st', (t ++ [Print (Spec.usage_line w)])%list)
    /\ forallb is_print t = true.
Proof.
  intros Hp Hh. unfold process_command_line.
  unfold Spec.parsed in Hp. rewrite Hp. rewrite bind_get_run.
  erewrite bind_ret_run by reflexivity. rewrite prepend_nil.
  destruct (process_options_help opts Hh
              (mkState (dry_run (initial_state w)) (getuser w)
                       (release_path (initial_state w))
                       (skip_upload (initial_state w))
                       (workdir (initial_state w))
                       (api_calls (initial_state w))))
    as (st' & t & Hrun & Ht).
  exists st', t. split; [|exact Ht].
  now rewrite (bind_exit_run _ _ _ _ _ _ Hrun).
Qed.

Lemma process_command_line_error (err : string) :
  Spec.parsed w = inr err ->
  process_command_line w (initial_state w)
  = (Exit 2, initial_state w, [Print err; Print (Spec.usage_line w)]).
Proof.
  intros Hp. unfold process_command_line.
  unfold Spec.parsed in Hp. now rewrite Hp.
Qed.

(** *** Version resolution *)

Lemma get_release_version_found st zipfile l m v :
  Py.glob (listdir w (workdir st)) "adodb-*.zip" = zipfile :: l ->
  Py.re_search version_pattern zipfile = Some m ->
  Py.group m 1 = Some v ->
  get_release_version w st = (Ret v, st, []).
Proof.
  intros Hg Hm Hv.
  unfold get_release_version, glob, try_except.
  unfold bind, get, ret, lift, Py.item. cbv beta iota. rewrite Hg. cbn [nth_error]. rewrite Hm. cbv beta iota.
  rewrite Hv. reflexivity.
Qed.

Lemma get_release_version_fails st args msg :
  workdir st = Spec.start_dir w args ->
  release_path st = Spec.shown_path w args ->
  Spec.data_error w args = Some msg ->
  get_release_version w st = (Exit 1, st, [Print msg]).
Proof.
  intros Hw Hr. unfold Spec.data_error, Spec.candidates. rewrite <- Hw, <- Hr.
  unfold get_release_version, glob, try_except.
  unfold bind, get, ret, lift, Py.item. cbv beta iota.
  destruct (Py.glob _ _) as [|zipfile l]; cbn [nth_error].
  - intros [= <-]. reflexivity.
  - destruct (Py.re_search _ _); [discriminate|]. intros [= <-]. reflexivity.
Qed.

(** *** One round of the metadata loop *)

Lemma update_skip (base file : string) st :
  defaults_for (snd (Py.splitext file)) = None ->
  update_file_info w base file st
  = (Ret Next, st, [Spec.file_line file; Spec.warning_line file]).
Proof.
  intros H. unfold update_file_info. rewrite H. reflexivity.
Qed.

Lemma update_dry (base file : string) (tags : list string) st :
  defaults_for (snd (Py.splitext file)) = Some tags ->
  dry_run st = true ->
  update_file_info w base file st
  = (Ret Next, st,
     [Spec.file_line file; Spec.calling_line w (Spec.request_for w base file tags)]).
Proof.
  intros H Hd. unfold update_file_info. rewrite H.
  rewrite bind_print_run, bind_get_run, Hd. reflexivity.
Qed.

Lemma update_live (base file : string) (tags : list string) st :
  defaults_for (snd (Py.splitext file)) = Some tags ->
  dry_run st = false ->
  update_file_info w base file st
  = let req := Spec.request_for w base file tags in
    match sf_api w (api_calls st) req with
    | Responded r =>
        if (status_code r =? codes_ok)%Z then
          match echoed_default r with
          | Ret v =>
              (Ret Next, Spec.bump st,
               [Spec.file_line file; HttpPut req;
                Print ("    Download default for: " ++ v)])
          | Exit c => (Exit c, Spec.bump st, [Spec.file_line file; HttpPut req])
          | Raise e => (Raise e, Spec.bump st, [Spec.file_line file; HttpPut req])
          end
        else
          (Ret Break, Spec.bump st,
           [Spec.file_line file; HttpPut req;
            Print (if (status_code r =? codes_unauthorized)%Z
                   then "ERROR: access denied - check API key"
                   else "ERROR: SourceForge API call failed - check API key")])
    | NoResponse =>
        (Raise RequestException, Spec.bump st, [Spec.file_line file; HttpPut req])
    end.
Proof.
  intros H Hd. unfold update_file_info. rewrite H.
  rewrite bind_print_run, bind_get_run, Hd.
  unfold bind, requests_put, Spec.request_for. cbv zeta.
  destruct (sf_api w _ _) as [r|]; [|reflexivity].
  destruct (status_code r =? codes_ok)%Z.
  - destruct (echoed_default r); reflexivity.
  - destruct (status_code r =? codes_unauthorized)%Z; reflexivity.
Qed.

Lemma for_each_cons {A} (x : A) (l : list A) (body : A -> M loop_ctl) st :
  for_each (x :: l) body st
  = match body x st with
    | (Ret Next, st', t) => Spec.prepend t (for_each l body st')
    | (Ret Break, st', t) => (Ret tt, st', t)
    | (Exit c, st', t) => (Exit c, st', t)
    | (Raise e, st', t) => (Raise e, st', t)
    end.
Proof.
  cbn [for_each]. unfold bind.
  destruct (body x st) as [[[[|] | c | e] st'] t]; try reflexivity.
  cbn. now rewrite app_nil_r.
Qed.

(** After the options, the dry-run flag is set exactly when its option
    was given, whether or not the release directory can be entered. *)
Lemma process_command_line_dry (opts : list (string * string)) (args : list string) :
  Spec.parsed w = inl (opts, args) ->
  Spec.has_opt Spec.help_opt opts = false ->
  dry_run (Spec.state_of (process_command_line w (initial_state w)))
  = Spec.has_opt Spec.dry_opt opts.
Proof.
  intros Hp Hh. unfold process_command_line.
  unfold Spec.parsed in Hp. rewrite Hp. rewrite bind_get_run.
  erewrite bind_ret_run by reflexivity. rewrite prepend_nil.
  destruct (process_options_run opts Hh
              (mkState (dry_run (initial_state w)) (getuser w)
                       (release_path (initial_state w))
                       (skip_upload (initial_state w))
                       (workdir (initial_state w))
                       (api_calls (initial_state w))))
    as (u & t & Hrun & Ht).
  rewrite (bind_ret_run _ _ _ _ _ _ Hrun), state_prepend.
  destruct args as [|a args]; [reflexivity|].
  unfold try_except, bind, lift, set_release_path, chdir, get, put, Py.item.
  cbn [nth_error]. sproj. destruct (chdir_ok w a); reflexivity.
Qed.

(** In dry-run mode the whole run only prints. *)
Lemma main_quiet :
  Spec.dry_run_requested w = true -> forallb is_print (trace w) = true.
Proof.
  unfold Spec.dry_run_requested. intros Hdry.
  destruct (Spec.parsed w) as [[opts args] | err] eqn:Hp; [|discriminate].
  unfold trace, run, main. rewrite bind_print_run.
  change (snd ?r) with (Spec.events_of r). rewrite events_prepend.
  cbn [app forallb is_print andb].
  assert (Hpcl : Spec.pres (fun _ => True) is_print (process_command_line w)).
  { apply pres_process_command_line; [now intros ? | reflexivity]. }
  destruct (Hpcl (initial_state w) Logic.I) as [_ Ht1].
  destruct (process_command_line w (initial_state w)) as [[o st1] t1] eqn:Hr.
  cbn [Spec.events_of snd] in Ht1.
  destruct o as [[] | c | e].
  - rewrite (bind_ret_run _ _ _ _ _ _ Hr), events_prepend, forallb_app, Ht1.
    cbn [andb].
    assert (Hd1 : Spec.in_dry_run st1).
    { destruct (Spec.has_opt Spec.help_opt opts) eqn:Hh.
      - destruct (process_command_line_help opts args Hp Hh) as (st' & t & Hrun & _).
        rewrite Hrun in Hr. discriminate.
      - pose proof (process_command_line_dry opts args Hp Hh) as Hd.
        rewrite Hr in Hd. cbn in Hd. unfold Spec.in_dry_run. congruence. }
    exact (proj2 (quiet_after_options st1 Hd1)).
  - now rewrite (bind_exit_run _ _ _ _ _ _ Hr).
  - now rewrite (bind_raise_run _ _ _ _ _ _ Hr).
Qed.

(** *** The transfer *)

Lemma call_rsync_run (usr opt src dst host path : string) (more : list string) st :
  Py.rsplit ":" dst = host :: path :: more ->
  call_rsync usr opt src dst st
  = (Ret tt, st,
     let mkdir := "ssh " ++ usr ++ "@" ++ host ++ " mkdir -p " ++ path in
     let command := rsync_cmd usr opt src dst in
     if dry_run st then [Print mkdir; Print command]
     else [Spawn mkdir; Spawn command]).
Proof.
  intros Hs. unfold call_rsync. rewrite Hs.
  unfold bind, lift, Py.item, get. cbn [nth_error]. cbv beta iota zeta.
  destruct (dry_run st); reflexivity.
Qed.

(** *** A run that ends on a data error *)

Lemma main_data_error (opts : list (string * string)) (args : list string)
      (msg : string) :
  Spec.parsed w = inl (opts, args) ->
  Spec.has_opt Spec.help_opt opts = false ->
  Spec.chdir_fine w args = true ->
  Spec.data_error w args = Some msg ->
  exists st t,
    run w = (Exit 1, st,
             (Print Spec.banner :: t ++
              (if Spec.has_opt Spec.skip_opt opts
               then [Print "Skipping upload of release files";
                     Print "Updating uploaded files information"]
               else []) ++ [Print msg])%list)
    /\ forallb is_print t = true.
Proof.
  intros Hp Hh Hc Hd.
  destruct (process_command_line_run opts args Hp Hh Hc) as (u & t & Hrun & Ht).
  set (st1 := mkState _ _ _ _ _ _) in Hrun.
  exists st1, t. split; [|exact Ht].
  unfold run, main. rewrite bind_print_run.
  rewrite (bind_ret_run _ _ _ _ _ _ Hrun), bind_get_run.
  replace (skip_upload st1) with (Spec.has_opt Spec.skip_opt opts) by reflexivity.
  assert (Hv : get_release_version w st1 = (Exit 1, st1, [Print msg])).
  { now apply (get_release_version_fails st1 args). }
  destruct (Spec.has_opt Spec.skip_opt opts).
  - rewrite bind_print_run. unfold set_sourceforge_file_info.
    rewrite bind_print_run, (bind_exit_run _ _ _ _ _ _ Hv). reflexivity.
  - unfold upload_release_files at 1.
    erewrite bind_exit_run; [|erewrite bind_exit_run; [reflexivity | exact Hv]].
    reflexivity.
Qed.

End Runs.

(** ** Exit codes *)

(** C4. The tool exits with status 2, after printing the error and the
    usage text, when option parsing fails; with status 0, usage being the
    last thing printed, when help is asked for; and with status 1, a
    diagnostic being the last thing printed, when no file matches the
    archive pattern or the first candidate's name does not parse. *)
Theorem C4_exit_codes (w : Upload.World) :
  (forall err,
      Spec.parsed w = inr err ->
      Upload.exit_status w = 2%Z /\
      Upload.trace w = [Upload.Print Spec.banner; Upload.Print err;
                        Upload.Print (Spec.usage_line w)])
  /\ (forall opts args,
         Spec.parsed w = inl (opts, args) ->
         Spec.has_opt Spec.help_opt opts = true ->
         Upload.exit_status w = 0%Z /\
         exists t, Upload.trace w = (t ++ [Upload.Print (Spec.usage_line w)])%list
                   /\ forallb Upload.is_print t = true)
  /\ (forall opts args msg,
         Spec.parsed w = inl (opts, args) ->
         Spec.has_opt Spec.help_opt opts = false ->
         Spec.chdir_fine w args = true ->
         Spec.data_error w args = Some msg ->
         Upload.exit_status w = 1%Z /\
         exists t, Upload.trace w = (t ++ [Upload.Print msg])%list
                   /\ forallb Upload.is_print t = true).
Proof.
  split; [|split].
  - intros err Hp. unfold Upload.exit_status, Upload.trace, Upload.run, Upload.main.
    rewrite bind_print_run.
    rewrite (bind_exit_run _ _ _ _ _ _ (process_command_line_error w err Hp)).
    now split.
  - intros opts args Hp Hh.
    destruct (process_command_line_help w opts args Hp Hh) as (st' & t & Hrun & Ht).
    unfold Upload.exit_status, Upload.trace, Upload.run, Upload.main.
    rewrite bind_print_run, (bind_exit_run _ _ _ _ _ _ Hrun).
    split; [reflexivity|].
    exists (Upload.Print Spec.banner :: t). now split.
  - intros opts args msg Hp Hh Hc Hd.
    destruct (main_data_error w opts args msg Hp Hh Hc Hd) as (st & t & Hrun & Ht).
    unfold Upload.exit_status, Upload.trace. rewrite Hrun.
    split; [reflexivity|]. cbn [snd].
    exists (Upload.Print Spec.banner :: t ++
            (if Spec.has_opt Spec.skip_opt opts
             then [Upload.Print "Skipping upload of release files";
                   Upload.Print "Updating uploaded files information"]
             else []))%list.
    split.
    + cbn [app]. now rewrite <- app_assoc.
    + cbn [forallb Upload.is_print andb]. rewrite forallb_app, Ht.
      destruct (Spec.has_opt Spec.skip_opt opts); reflexivity.
Qed.

Lemma C4_exit_codes_witness :
  Upload.exit_status (Spec.example_world ["--frobnicate"] [] "k" (Spec.always 200)) = 2%Z
  /\ Upload.exit_status (Spec.example_world ["-n"; "--help"] [] "k" (Spec.always 200)) = 0%Z
  /\ Upload.exit_status (Spec.example_world ["-s"] ["README.md"] "k" (Spec.always 200)) = 1%Z
  /\ Upload.exit_status
       (Spec.example_world [] ["adodb-5.22.zip"] "k" (Spec.always 200)) = 1%Z.
Proof.
  split; [|split; [|split]].
  - apply (proj1 (C4_exit_codes _) "option --frobnicate not recognized").
    reflexivity.
  - apply (proj1 (proj2 (C4_exit_codes _)) [("-n", ""); ("--help", "")] []);
      reflexivity.
  - apply (proj2 (proj2 (C4_exit_codes _)) [("-s", "")] []
             (Spec.not_found_message "/home/alice")); reflexivity.
  - apply (proj2 (proj2 (C4_exit_codes _)) [] []
             (Spec.unparsable_message "adodb-5.22.zip")); reflexivity.
Defined.

(** C9. With skip-upload set, the transfer stage is left out and the
    metadata stage resolves the version itself: when no local file matches
    the archive pattern, or the first candidate's name does not parse, the
    tool prints the diagnostic right after the metadata stage's heading and
    exits with status 1, having sent no request and spawned no process. *)
Theorem C9_skip_upload_still_resolves (w : Upload.World)
        (opts : list (string * string)) (args : list string) (msg : string) :
  Spec.parsed w = inl (opts, args) ->
  Spec.has_opt Spec.help_opt opts = false ->
  Spec.has_opt Spec.skip_opt opts = true ->
  Spec.chdir_fine w args = true ->
  Spec.data_error w args = Some msg ->
  Upload.exit_status w = 1%Z
  /\ forallb Upload.is_print (Upload.trace w) = true
  /\ exists t,
       Upload.trace w
       = (t ++ [Upload.Print "Skipping upload of release files";
                Upload.Print "Updating uploaded files information";
                Upload.Print msg])%list.
Proof.
  intros Hp Hh Hs Hc Hd.
  destruct (main_data_error w opts args msg Hp Hh Hc Hd) as (st & t & Hrun & Ht).
  unfold Upload.exit_status, Upload.trace. rewrite Hrun, Hs. cbn [fst snd].
  split; [reflexivity|]. split.
  - cbn [forallb Upload.is_print andb]. now rewrite forallb_app, Ht.
  - exists (Upload.Print Spec.banner :: t). reflexivity.
Qed.

Lemma C9_skip_upload_still_resolves_witness :
  let w := Spec.example_world ["--skip-upload"; "release"] ["adodb-5.22.7.tar.gz"]
                              "k" (Spec.always 200) in
  Upload.exit_status w = 1%Z
  /\ forallb Upload.is_print (Upload.trace w) = true
  /\ exists t,
       Upload.trace w
       = (t ++ [Upload.Print "Skipping upload of release files";
                Upload.Print "Updating uploaded files information";
                Upload.Print (Spec.not_found_message "release")])%list.
Proof.
  apply (C9_skip_upload_still_resolves _ [("--skip-upload", "")] ["release"]);
    reflexivity.
Defined.

(** ** The metadata loop *)

(** In dry-run mode the metadata loop goes through all the files and
    leaves the state alone. *)
Lemma for_each_dry (w : Upload.World) (base : string) (files : list string)
      (st : Upload.state) :
  Upload.dry_run st = true ->
  Upload.for_each files (Upload.update_file_info w base) st
  = (Ret tt, st, flat_map (Spec.dry_lines w base) files).
Proof.
  intros Hd. induction files as [|f files IH]; [reflexivity|].
  rewrite for_each_cons. cbn [flat_map]. unfold Spec.dry_lines at 1.
  destruct (Upload.defaults_for (snd (Py.splitext f))) as [tags|] eqn:Ht.
  - rewrite (update_dry w base f tags st Ht Hd), IH. reflexivity.
  - rewrite (update_skip w base f st Ht), IH. reflexivity.
Qed.

Lemma split_after_print t1 req t2 line rest :
  Upload.Print line :: rest = (t1 ++ Upload.HttpPut req :: t2)%list ->
  exists t1', t1 = Upload.Print line :: t1'
              /\ rest = (t1' ++ Upload.HttpPut req :: t2)%list.
Proof.
  destruct t1 as [|e t1]; simpl; intros H; [discriminate|].
  injection H as <- H. now exists t1.
Qed.

Lemma split_at_request t1 req t2 r rest :
  Upload.HttpPut r :: rest = (t1 ++ Upload.HttpPut req :: t2)%list ->
  (t1 = [] /\ req = r /\ t2 = rest)
  \/ exists t1', t1 = Upload.HttpPut r :: t1'
                 /\ rest = (t1' ++ Upload.HttpPut req :: t2)%list.
Proof.
  destruct t1 as [|e t1]; simpl; intros H.
  - injection H as <- <-. now left.
  - injection H as <- H. right. now exists t1.
Qed.

Lemma no_request_in_nil t1 req t2 :
  [] <> (t1 ++ Upload.HttpPut req :: t2)%list.
Proof. destruct t1; discriminate. Qed.

Lemma loop_fail_fast_at (w : Upload.World) (base : string) (files : list string)
        (st : Upload.state) (t1 t2 : list Upload.event) (req : Py.request) :
  Upload.dry_run st = false ->
  Spec.events_of (Upload.for_each files (Upload.update_file_info w base) st)
  = (t1 ++ Upload.HttpPut req :: t2)%list ->
  match Upload.sf_api w (Upload.api_calls st + Spec.count_requests t1) req with
  | Upload.Responded r =>
      if (Upload.status_code r =? Upload.codes_ok)%Z then
        forall v, Upload.echoed_default r = Ret v ->
                  exists t3, t2 = Upload.Print ("    Download default for: " ++ v) :: t3
      else
        t2 = [Upload.Print
                (if (Upload.status_code r =? Upload.codes_unauthorized)%Z
                 then "ERROR: access denied - check API key"
                 else "ERROR: SourceForge API call failed - check API key")]
        /\ Spec.outcome_of
             (Upload.for_each files (Upload.update_file_info w base) st) = Ret tt
  | Upload.NoResponse => t2 = []
  end.
Proof.
  revert st t1. induction files as [|f files IH]; intros st t1 Hd H.
  { cbn in H. now apply no_request_in_nil in H. }
  rewrite for_each_cons in H |- *.
  destruct (Upload.defaults_for (snd (Py.splitext f))) as [tags|] eqn:Hx.
  2:{ rewrite update_skip in H |- * by assumption.
      rewrite events_prepend in H. rewrite outcome_prepend. cbn [app] in H.
      apply split_after_print in H as (t1' & -> & H).
      apply split_after_print in H as (t1'' & -> & H).
      exact (IH st t1'' Hd H). }
  rewrite (update_live w base f tags st Hx Hd) in H |- *. cbv zeta in H |- *.
  assert (Hlater : forall t1' line,
             Spec.events_of
               (Upload.for_each files (Upload.update_file_info w base) (Spec.bump st))
             = (t1' ++ Upload.HttpPut req :: t2)%list ->
             match Upload.sf_api w
                     (Upload.api_calls st
                      + Spec.count_requests
                          (Spec.file_line f
                             :: Upload.HttpPut (Spec.request_for w base f tags)
                             :: Upload.Print line :: t1')) req with
             | Upload.Responded r =>
                 if (Upload.status_code r =? Upload.codes_ok)%Z then
                   forall v, Upload.echoed_default r = Ret v ->
                     exists t3,
                       t2 = Upload.Print ("    Download default for: " ++ v) :: t3
                 else
                   t2 = [Upload.Print
                           (if (Upload.status_code r =? Upload.codes_unauthorized)%Z
                            then "ERROR: access denied - check API key"
                            else "ERROR: SourceForge API call failed - check API key")]
                   /\ Spec.outcome_of
                        (Upload.for_each files (Upload.update_file_info w base)
                                         (Spec.bump st)) = Ret tt
             | Upload.NoResponse => t2 = []
             end).
  { intros t1' line H'. specialize (IH (Spec.bump st) t1' Hd H').
    unfold Spec.count_requests in *. cbn [filter Upload.is_request Spec.file_line length].
    rewrite Nat.add_succ_r. exact IH. }
  destruct (Upload.sf_api w (Upload.api_calls st) _) as [r|] eqn:Hapi.
  - destruct (Upload.status_code r =? Upload.codes_ok)%Z eqn:Hok.
    + destruct (Upload.echoed_default r) as [v | c | e] eqn:He.
      * rewrite events_prepend in H. rewrite outcome_prepend. cbn [app] in H.
        apply split_after_print in H as (t1' & -> & H).
        apply split_at_request in H as [(-> & -> & ->) | (t1'' & -> & H)].
        -- cbn. rewrite Nat.add_0_r, Hapi, Hok.
           intros v' Hv'. rewrite He in Hv'. injection Hv' as <-. now eexists.
        -- apply split_after_print in H as (t1''' & -> & H).
           now apply Hlater.
      * cbn in H. apply split_after_print in H as (t1' & -> & H).
        apply split_at_request in H as [(-> & -> & ->) | (t1'' & -> & H)].
        -- cbn. rewrite Nat.add_0_r, Hapi, Hok. intros v' Hv'. congruence.
        -- now apply no_request_in_nil in H.
      * cbn in H. apply split_after_print in H as (t1' & -> & H).
        apply split_at_request in H as [(-> & -> & ->) | (t1'' & -> & H)].
        -- cbn. rewrite Nat.add_0_r, Hapi, Hok. intros v' Hv'. congruence.
        -- now apply no_request_in_nil in H.
    + cbn in H. apply split_after_print in H as (t1' & -> & H).
      apply split_at_request in H as [(-> & -> & ->) | (t1'' & -> & H)].
      * cbn. rewrite Nat.add_0_r, Hapi, Hok. now split.
      * apply split_after_print in H as (t1''' & -> & H).
        now apply no_request_in_nil in H.
  - cbn in H. apply split_after_print in H as (t1' & -> & H).
    apply split_at_request in H as [(-> & -> & ->) | (t1'' & -> & H)].
    + cbn. now rewrite Nat.add_0_r, Hapi.
    + now apply no_request_in_nil in H.
Qed.

Lemma loop_fail_fast (w : Upload.World) (base : string) (files : list string)
      (st : Upload.state) :
  Spec.fail_fast w (Upload.api_calls st)
    (Upload.for_each files (Upload.update_file_info w base) st).
Proof.
  destruct (Upload.dry_run st) eqn:Hd.
  - rewrite for_each_dry by exact Hd. intros t1 req t2 H. exfalso.
    cbn [Spec.events_of snd] in H.
    assert (Hin : In (Upload.HttpPut req)
                     (flat_map (Spec.dry_lines w base) files)).
    { rewrite H. apply in_or_app. right. now left. }
    apply in_flat_map in Hin as (f & _ & Hin). unfold Spec.dry_lines in Hin.
    destruct (Upload.defaults_for _); cbn in Hin;
      destruct Hin as [Hin | [Hin | []]]; discriminate.
  - intros t1 req t2 H. now apply loop_fail_fast_at.
Qed.

Lemma forallb_not_request_split (T L t1 t2 : list Upload.event) (req : Py.request) :
  forallb Spec.not_request T = true ->
  (T ++ L)%list = (t1 ++ Upload.HttpPut req :: t2)%list ->
  exists t1', t1 = (T ++ t1')%list
              /\ L = (t1' ++ Upload.HttpPut req :: t2)%list
              /\ Spec.count_requests t1 = Spec.count_requests t1'.
Proof.
  revert t1. induction T as [|e T IH]; intros t1 HT H.
  - now exists t1.
  - cbn [forallb] in HT. apply andb_true_iff in HT as [He HT].
    destruct t1 as [|e1 t1]; cbn [app] in H; injection H as -> H.
    + discriminate.
    + destruct (IH t1 HT H) as (t1' & -> & HL & Hc).
      exists t1'. split; [reflexivity|]. split; [exact HL|].
      unfold Spec.count_requests in *. cbn [app filter].
      unfold Spec.not_request in He. apply negb_true_iff in He.
      now rewrite He.
Qed.

Lemma fail_fast_quiet (w : Upload.World) (n : nat)
      (r : outcome unit * Upload.state * list Upload.event) :
  forallb Spec.not_request (Spec.events_of r) = true -> Spec.fail_fast w n r.
Proof.
  intros Hq t1 req t2 H. exfalso. rewrite H, forallb_app in Hq.
  apply andb_true_iff in Hq as [_ Hq]. discriminate.
Qed.

Lemma fail_fast_prepend (w : Upload.World) (n : nat) (T : list Upload.event)
      (r : outcome unit * Upload.state * list Upload.event) :
  forallb Spec.not_request T = true ->
  Spec.fail_fast w n r -> Spec.fail_fast w n (Spec.prepend T r).
Proof.
  intros HT Hr t1 req t2 H. rewrite events_prepend in H.
  destruct (forallb_not_request_split T _ t1 t2 req HT H) as (t1' & -> & HL & Hc).
  rewrite Hc, outcome_prepend. exact (Hr t1' req t2 HL).
Qed.

Lemma fail_fast_bind {A} (w : Upload.World) (n : nat) (m : Upload.M A)
      (k : A -> Upload.M unit) (st : Upload.state) :
  Spec.pres (fun s => Upload.api_calls s = n) Spec.not_request m ->
  Upload.api_calls st = n ->
  (forall a st1, Upload.api_calls st1 = n -> Spec.fail_fast w n (k a st1)) ->
  Spec.fail_fast w n (Upload.bind m k st).
Proof.
  intros Hm Hst Hk. destruct (Hm st Hst) as [Hs1 Ht1].
  destruct (m st) as [[o st1] t1] eqn:Hr. cbn in Hs1, Ht1.
  destruct o as [a | c | e].
  - rewrite (bind_ret_run _ _ _ _ _ _ Hr). apply fail_fast_prepend; auto.
  - rewrite (bind_exit_run _ _ _ _ _ _ Hr). now apply fail_fast_quiet.
  - rewrite (bind_raise_run _ _ _ _ _ _ Hr). now apply fail_fast_quiet.
Qed.

Lemma calls_stable (n : nat) : Spec.flag_stable (fun s => Upload.api_calls s = n).
Proof. intros s d u r k wd H _. exact H. Qed.

Ltac calm := first [apply calls_stable | reflexivity | intros; reflexivity].

Lemma main_fail_fast (w : Upload.World) : Spec.fail_fast w 0 (Upload.run w).
Proof.
  unfold Upload.run, Upload.main.
  apply fail_fast_bind; [now apply pres_emit | reflexivity |].
  intros _ st1 H1.
  apply fail_fast_bind; [apply pres_process_command_line; calm | exact H1 |].
  intros _ st2 H2. rewrite bind_get_run.
  apply fail_fast_bind; [| exact H2 |].
  { destruct (Upload.skip_upload st2); [now apply pres_emit|].
    apply pres_upload_release_files; calm. }
  intros _ st3 H3. unfold Upload.set_sourceforge_file_info.
  apply fail_fast_bind; [now apply pres_emit | exact H3 |].
  intros _ st4 H4.
  apply fail_fast_bind; [apply pres_get_release_version; calm | exact H4 |].
  intros version st5 H5.
  apply fail_fast_bind; [apply pres_lift | exact H5 |].
  intros dir st6 H6.
  apply fail_fast_bind; [apply pres_glob | exact H6 |].
  intros files st7 H7. rewrite <- H7. apply loop_fail_fast.
Qed.

(** C3. Take any request the tool sends.  If the service answers it with
    a status other than success, the only thing that follows is one
    diagnostic, "access denied" for the unauthorized status and
    "SourceForge API call failed" for every other one, and the tool is
    done: no later file gets a request.  If the service answers with the
    success status, the next thing printed is the tag set it echoed. *)
Theorem C3_fail_fast (w : Upload.World) (t1 t2 : list Upload.event)
        (req : Py.request) :
  Upload.trace w = (t1 ++ Upload.HttpPut req :: t2)%list ->
  match Upload.sf_api w (Spec.count_requests t1) req with
  | Upload.Responded r =>
      if (Upload.status_code r =? Upload.codes_ok)%Z then
        forall v, Upload.echoed_default r = Ret v ->
                  exists t3, t2 = Upload.Print ("    Download default for: " ++ v) :: t3
      else
        t2 = [Upload.Print
                (if (Upload.status_code r =? Upload.codes_unauthorized)%Z
                 then "ERROR: access denied - check API key"
                 else "ERROR: SourceForge API call failed - check API key")]
        /\ Upload.exit_status w = 0%Z
  | Upload.NoResponse => t2 = []
  end.
Proof.
  intros H. pose proof (main_fail_fast w t1 req t2 H) as Hff.
  cbn [Nat.add] in Hff.
  destruct (Upload.sf_api w _ req) as [r|]; [|exact Hff].
  destruct (Upload.status_code r =? Upload.codes_ok)%Z; [exact Hff|].
  destruct Hff as [Ht2 Ho]. split; [exact Ht2|].
  unfold Upload.exit_status. unfold Spec.outcome_of in Ho. now rewrite Ho.
Qed.

Lemma C3_fail_fast_witness :
  let w := Spec.example_world []
             ["adodb-5.22.7.zip"; "adodb-5.22.7.tar.gz"; "adodb-5.22.7-rc.1.zip"] "k"
             (fun n => Spec.answer_status (if (n =? 0)%nat then 200 else 401)) in
  let base := Upload.sf_api_url "adodb-php5-only/adodb-5.22" in
  exists t1,
    Upload.trace w
    = (t1 ++ [Upload.HttpPut (Spec.request_for w base "adodb-5.22.7.tar.gz"
                                ["linux"; "mac"; "bsd"; "solaris"; "others"]);
              Upload.Print "ERROR: access denied - check API key"])%list
    /\ Spec.count_requests t1 = 1%nat
    /\ Upload.exit_status w = 0%Z.
Proof.
  intros w base.
  set (t1 := firstn 15 (Upload.trace w)).
  exists t1. split; [reflexivity|]. split; [reflexivity|].
  exact (proj2 (C3_fail_fast w t1
                  [Upload.Print "ERROR: access denied - check API key"]
                  (Spec.request_for w base "adodb-5.22.7.tar.gz"
                     ["linux"; "mac"; "bsd"; "solaris"; "others"])
                  eq_refl)).
Defined.

(** *** Extensions *)

Lemma splitext_suffix (c : ascii) (stem e : string) :
  c <> "."%char ->
  Py.str_forall (Spec.other_than "/") (String c stem ++ "." ++ e) = true ->
  Py.str_forall (Spec.other_than ".") e = true ->
  Py.splitext (String c stem ++ "." ++ e) = (String c stem, "." ++ e).
Proof.
  intros Hc Hslash Hdot. unfold Py.splitext, Py.rfind.
  rewrite (rfind_from_absent 0 "/" _ Hslash).
  change (String c stem ++ "." ++ e) with (String c stem ++ String "." e).
  rewrite (rfind_from_last 0 "." (String c stem) e) by (assumption || lia).
  cbn [String.length]. rewrite Z.add_0_l.
  replace (-1 + 1)%Z with 0%Z by reflexivity.
  rewrite Z.sub_0_r, Nat2Z.id. change (Z.to_nat 0) with 0%nat.
  destruct (Z.ltb_spec (-1) (Z.of_nat (S (String.length stem)))); [|lia].
  assert (Hne : (String c "" =? ".") = false).
  { apply String.eqb_neq. congruence. }
  cbn [Py.splitext_scan Py.char_at Py.str_drop String.append Py.str_take].
  rewrite Hne. cbn [negb andb].
  rewrite str_take_app.
  change (String c (stem ++ String "." e)) with (String c stem ++ String "." e).
  replace (S (String.length stem)) with (String.length (String c stem)) by reflexivity.
  now rewrite str_drop_app.
Qed.

(** C5. In the metadata loop a file whose extension is [.zip] is updated
    with the tags [windows], one whose extension is [.gz] with [linux],
    [mac], [bsd], [solaris], [others]; for any other extension the file's
    line and a warning are printed and the loop goes on with the next file,
    in the same state.  For a name [adodb-<stem>.<e>] without a slash, [e]
    without a dot, the extension is [.<e>]. *)
Theorem C5_extension_tags (w : Upload.World) (base file : string)
        (rest : list string) (st : Upload.state) :
  let ext := snd (Py.splitext file) in
  (ext = ".zip" -> Spec.tags_used w base file st ["windows"])
  /\ (ext = ".gz" ->
      Spec.tags_used w base file st ["linux"; "mac"; "bsd"; "solaris"; "others"])
  /\ (ext <> ".zip" -> ext <> ".gz" ->
      Upload.for_each (file :: rest) (Upload.update_file_info w base) st
      = Spec.prepend [Spec.file_line file; Spec.warning_line file]
          (Upload.for_each rest (Upload.update_file_info w base) st))
  /\ (forall stem e,
         file = "adodb-" ++ stem ++ "." ++ e ->
         Py.str_forall (Spec.other_than "/") file = true ->
         Py.str_forall (Spec.other_than ".") e = true ->
         ext = "." ++ e).
Proof.
  intros ext.
  assert (Hused : forall tags,
             Upload.defaults_for ext = Some tags -> Spec.tags_used w base file st tags).
  { intros tags Ht. unfold Spec.tags_used.
    destruct (Upload.dry_run st) eqn:Hd.
    - now rewrite (update_dry w base file tags st Ht Hd).
    - rewrite (update_live w base file tags st Ht Hd). cbv zeta.
      destruct (Upload.sf_api w _ _) as [r|]; [|now eexists].
      destruct (Upload.status_code r =? Upload.codes_ok)%Z; [|now eexists].
      destruct (Upload.echoed_default r); now eexists. }
  split; [|split; [|split]].
  - intros E. apply Hused. now rewrite E.
  - intros E. apply Hused. now rewrite E.
  - intros Hz Hg. rewrite for_each_cons, update_skip; [reflexivity|].
    unfold Upload.defaults_for. fold ext.
    apply String.eqb_neq in Hz, Hg. now rewrite Hz, Hg.
  - intros stem e -> Hslash Hdot. unfold ext.
    change ("adodb-" ++ stem ++ "." ++ e)
      with (String "a" ("dodb-" ++ stem) ++ "." ++ e) in Hslash |- *.
    rewrite splitext_suffix; [reflexivity | discriminate | | assumption].
    exact Hslash.
Qed.

Lemma C5_extension_tags_witness :
  let w := Spec.example_world [] [] "k" (Spec.always 200) in
  let base := Upload.sf_api_url "adodb-php5-only/adodb-5.22" in
  Spec.tags_used w base "adodb-5.22.7.zip" (Upload.initial_state w) ["windows"]
  /\ Spec.tags_used w base "adodb-5.22.7.tar.gz" (Upload.initial_state w)
       ["linux"; "mac"; "bsd"; "solaris"; "others"]
  /\ Upload.for_each ["adodb-5.22.7.txt"; "adodb-5.22.7.zip"]
       (Upload.update_file_info w base) (Upload.initial_state w)
     = Spec.prepend [Spec.file_line "adodb-5.22.7.txt";
                     Spec.warning_line "adodb-5.22.7.txt"]
         (Upload.for_each ["adodb-5.22.7.zip"]
            (Upload.update_file_info w base) (Upload.initial_state w)).
Proof.
  intros w base. split; [|split].
  - apply (proj1 (C5_extension_tags w base "adodb-5.22.7.zip" []
                    (Upload.initial_state w))). reflexivity.
  - apply (proj1 (proj2 (C5_extension_tags w base "adodb-5.22.7.tar.gz" []
                           (Upload.initial_state w)))). reflexivity.
  - apply (proj1 (proj2 (proj2 (C5_extension_tags w base "adodb-5.22.7.txt"
                                   ["adodb-5.22.7.zip"] (Upload.initial_state w)))));
      discriminate.
Defined.

(** ** Dry-run mode *)

(** C6. When the command line asks for dry-run mode, every event of the
    run is a print: no process is spawned and no request is sent.  The
    transfer prints the directory-creation and the copy command lines it
    would otherwise run, and the metadata stage prints, for each file it
    would update, the URL of the request it would otherwise send. *)
Theorem C6_dry_run_only_prints (w : Upload.World) :
  (Spec.dry_run_requested w = true ->
   forallb Upload.is_print (Upload.trace w) = true)
  /\ (forall usr opt src dst host path more st,
         Py.rsplit ":" dst = host :: path :: more ->
         Upload.call_rsync usr opt src dst st
         = (Ret tt, st,
            let mkdir := "ssh " ++ usr ++ "@" ++ host ++ " mkdir -p " ++ path in
            let command := Upload.rsync_cmd usr opt src dst in
            if Upload.dry_run st
            then [Upload.Print mkdir; Upload.Print command]
            else [Upload.Spawn mkdir; Upload.Spawn command]))
  /\ (forall base file tags st,
         Upload.defaults_for (snd (Py.splitext file)) = Some tags ->
         Spec.tags_used w base file st tags
         /\ (Upload.dry_run st = true ->
             Upload.update_file_info w base file st
             = (Ret Upload.Next, st,
                [Spec.file_line file;
                 Spec.calling_line w (Spec.request_for w base file tags)]))).
Proof.
  split; [|split].
  - apply main_quiet.
  - intros usr opt src dst host path more st Hs. now apply (call_rsync_run usr opt src dst host path more).
  - intros base file tags st Ht. split.
    + unfold Spec.tags_used. destruct (Upload.dry_run st) eqn:Hd.
      * now rewrite (update_dry w base file tags st Ht Hd).
      * rewrite (update_live w base file tags st Ht Hd). cbv zeta.
        destruct (Upload.sf_api w _ _) as [r|]; [|now eexists].
        destruct (Upload.status_code r =? Upload.codes_ok)%Z; [|now eexists].
        destruct (Upload.echoed_default r); now eexists.
    + intros Hd. now apply update_dry.
Qed.

Lemma C6_dry_run_only_prints_witness :
  let w := Spec.example_world ["--dry-run"; "release"]
             ["adodb-5.22.7.zip"; "adodb-5.22.7.tar.gz"; "notes.txt"]
             "k" (Spec.always 200) in
  forallb Upload.is_print (Upload.trace w) = true
  /\ In (Upload.Print
           "ssh alice@frs.sourceforge.net mkdir -p /home/frs/project/adodb/adodb-php5-only/adodb-5.22")
        (Upload.trace w)
  /\ In (Spec.calling_line w
           (Spec.request_for w (Upload.sf_api_url "adodb-php5-only/adodb-5.22")
                             "adodb-5.22.7.zip" ["windows"]))
        (Upload.trace w).
Proof.
  intros w. split; [|split].
  - apply (proj1 (C6_dry_run_only_prints w)). reflexivity.
  - cbv. tauto.
  - cbv. tauto.
Defined.

(** ** The request headers *)

Lemma update_requests (w : Upload.World) (base file : string) (st : Upload.state)
      (req : Py.request) :
  In (Upload.HttpPut req) (Spec.events_of (Upload.update_file_info w base file st)) ->
  exists tags,
    Upload.defaults_for (snd (Py.splitext file)) = Some tags
    /\ Upload.dry_run st = false
    /\ req = Spec.request_for w base file tags.
Proof.
  destruct (Upload.defaults_for (snd (Py.splitext file))) as [tags|] eqn:Ht.
  - destruct (Upload.dry_run st) eqn:Hd.
    + rewrite (update_dry w base file tags st Ht Hd). cbn.
      intros [H | [H | []]]; discriminate.
    + rewrite (update_live w base file tags st Ht Hd). cbv zeta.
      intros Hin. exists tags. split; [reflexivity|]. split; [reflexivity|].
      destruct (Upload.sf_api w _ _) as [r|].
      * destruct (Upload.status_code r =? Upload.codes_ok)%Z;
          [destruct (Upload.echoed_default r)|]; cbn in Hin;
          repeat (destruct Hin as [Hin | Hin]; try discriminate; try tauto);
          congruence.
      * cbn in Hin.
        repeat (destruct Hin as [Hin | Hin]; try discriminate; try tauto);
          congruence.
  - rewrite (update_skip w base file st Ht). cbn.
    intros [H | [H | []]]; discriminate.
Qed.

(** C8 (what the code does). Every request of the metadata loop carries
    one header, Accept, and its value is [application/json] followed by a
    double quote, which is not [application/json]. *)
Theorem C8_accept_header_value :
  (forall w base file st req,
      In (Upload.HttpPut req)
         (Spec.events_of (Upload.update_file_info w base file st)) ->
      Py.req_headers req = [("Accept", "application/json" ++ Py.str Py.DQUOTE)])
  /\ "application/json" ++ Py.str Py.DQUOTE <> "application/json"
  /\ (let w := Spec.example_world [] ["adodb-5.22.7.zip"] "k" (Spec.always 200) in
      Upload.trace w
      = [Upload.Print Spec.banner;
         Upload.Print ""; Upload.Print "Uploading release files...";
         Upload.Print "  Source: /home/alice";
         Upload.Print
           "  Target: frs.sourceforge.net:/home/frs/project/adodb/adodb-php5-only/adodb-5.22";
         Upload.Print "  Files:  adodb-5.22.7.zip";
         Upload.Print "";
         Upload.Spawn
           "ssh alice@frs.sourceforge.net mkdir -p /home/frs/project/adodb/adodb-php5-only/adodb-5.22";
         Upload.Spawn
           "rsync -vP --rsh ssh  /home/alice/* alice@frs.sourceforge.net:/home/frs/project/adodb/adodb-php5-only/adodb-5.22";
         Upload.Print "";
         Upload.Print "Updating uploaded files information";
         Upload.Print "  adodb-5.22.7.zip";
         Upload.HttpPut
           (Py.mkRequest "PUT"
              "https://sourceforge.net/projects/adodb/files/adodb-php5-only/adodb-5.22/adodb-5.22.7.zip"
              [("Accept", "application/json" ++ Py.str Py.DQUOTE)]
              [("default", Py.PList ["windows"]); ("api_key", Py.PStr "k")]);
         Upload.Print "    Download default for: ['windows']"]).
Proof.
  split; [|split].
  - intros w base file st req Hin.
    apply update_requests in Hin as (tags & _ & _ & ->). reflexivity.
  - discriminate.
  - reflexivity.
Qed.

(** ** The request URL *)

Lemma defaults_for_cases (ext : string) (tags : list string) :
  Upload.defaults_for ext = Some tags ->
  tags = ["windows"] \/ tags = ["linux"; "mac"; "bsd"; "solaris"; "others"].
Proof.
  unfold Upload.defaults_for.
  destruct (ext =? ".zip"); [intros [= <-]; now left|].
  destruct (ext =? ".gz"); [intros [= <-]; now right | discriminate].
Qed.

Lemma encode_params_query (w : Upload.World) (base file ext : string)
      (tags : list string) :
  Upload.defaults_for ext = Some tags ->
  Py.encode_params (Py.req_params (Spec.request_for w base file tags))
  = Spec.query tags (Upload.sf_api_key w).
Proof.
  intros H. apply defaults_for_cases in H as [-> | ->]; reflexivity.
Qed.

Lemma prepare_url_plain (w : Upload.World) (base file ext : string)
      (tags : list string) :
  Upload.defaults_for ext = Some tags ->
  Py.plain_url (Py.path_join base file) = true ->
  Upload.prepare_url w (Spec.request_for w base file tags)
  = Py.path_join base file ++ "?" ++ Spec.query tags (Upload.sf_api_key w).
Proof.
  intros H Hp. unfold Upload.prepare_url, Py.prepared_url.
  cbn [Py.req_url Spec.request_for]. rewrite Hp.
  apply defaults_for_cases in H as [-> | ->]; reflexivity.
Qed.

(** C7 (as amended). For every file the metadata loop updates, the
    request is made with the parameter [default] once per tag of the
    file's tag set, in order, and the parameter [api_key]; form-encoded
    they read [default=<tag>] for each tag and [api_key=<key>] with the
    key quoted, joined by [&].  The parameter is named [default], without
    brackets.  When the file's URL is plain, that is, made only of what
    the preparation of a request leaves as it is, the URL of the prepared
    request, which a dry run prints, is the file's URL, a question mark
    and the encoded parameters. *)
Theorem C7_query_parameters (w : Upload.World) (base file : string)
        (st : Upload.state) (tags : list string) :
  Upload.defaults_for (snd (Py.splitext file)) = Some tags ->
  Spec.tags_used w base file st tags
  /\ Py.to_key_val_list (Py.req_params (Spec.request_for w base file tags))
     = (map (fun t => ("default", t)) tags ++ [("api_key", Upload.sf_api_key w)])%list
  /\ Py.encode_params (Py.req_params (Spec.request_for w base file tags))
     = String.concat "&"
         (map Spec.default_param tags
          ++ [Spec.api_key_param (Upload.sf_api_key w)])%list
  /\ (Py.plain_url (Py.path_join base file) = true ->
      Upload.prepare_url w (Spec.request_for w base file tags)
      = Py.path_join base file ++ "?"
        ++ String.concat "&"
             (map Spec.default_param tags
              ++ [Spec.api_key_param (Upload.sf_api_key w)])%list).
Proof.
  intros Ht. split; [|split; [|split]].
  - unfold Spec.tags_used. destruct (Upload.dry_run st) eqn:Hd.
    + now rewrite (update_dry w base file tags st Ht Hd).
    + rewrite (update_live w base file tags st Ht Hd). cbv zeta.
      destruct (Upload.sf_api w _ _) as [r|]; [|now eexists].
      destruct (Upload.status_code r =? Upload.codes_ok)%Z; [|now eexists].
      destruct (Upload.echoed_default r); now eexists.
  - reflexivity.
  - exact (encode_params_query w base file _ tags Ht).
  - exact (prepare_url_plain w base file _ tags Ht).
Qed.

Lemma C7_query_parameters_witness :
  let w := Spec.example_world ["-n"] ["adodb-5.22.7.tar.gz"] "s3cr3t key"
                              (Spec.always 200) in
  let base := Upload.sf_api_url "adodb-php5-only/adodb-5.22" in
  let req := Spec.request_for w base "adodb-5.22.7.tar.gz"
               ["linux"; "mac"; "bsd"; "solaris"; "others"] in
  Py.encode_params (Py.req_params req)
  = "default=linux&default=mac&default=bsd&default=solaris&default=others&api_key=s3cr3t+key"
  /\ Upload.prepare_url w req
     = "https://sourceforge.net/projects/adodb/files/adodb-php5-only/adodb-5.22/adodb-5.22.7.tar.gz?default=linux&default=mac&default=bsd&default=solaris&default=others&api_key=s3cr3t+key".
Proof.
  intros w base req. split.
  - exact (proj1 (proj2 (proj2 (C7_query_parameters w base "adodb-5.22.7.tar.gz"
                                  (Upload.initial_state w)
                                  ["linux"; "mac"; "bsd"; "solaris"; "others"]
                                  eq_refl)))).
  - exact (proj2 (proj2 (proj2 (C7_query_parameters w base "adodb-5.22.7.tar.gz"
                                  (Upload.initial_state w)
                                  ["linux"; "mac"; "bsd"; "solaris"; "others"]
                                  eq_refl))) eq_refl).
Defined.

(** The specification names the parameter [default[]]: no such text
    occurs in the URL of a request, here the one a dry run prints for a
    zip archive. *)
Lemma C7_query_parameters_counterexample :
  let w := Spec.example_world ["-n"] ["adodb-5.22.7.zip"] "k" (Spec.always 200) in
  In (Upload.Print
        "    Calling SourceForge Release API: https://sourceforge.net/projects/adodb/files/adodb-php5-only/adodb-5.22/adodb-5.22.7.zip?default=windows&api_key=k")
     (Upload.trace w)
  /\ Spec.contains "default[]=" (Upload.stdout (Upload.trace w)) = false
  /\ Spec.contains "default=windows" (Upload.stdout (Upload.trace w)) = true.
Proof.
  intros w. split; [|split].
  - cbv. tauto.
  - vm_compute. reflexivity.
  - vm_compute. reflexivity.
Qed.

(** ** The API key in the output *)

Lemma unquote_head_quote (c : ascii) (r : string) :
  Spec.unquote_head (Py.quote_char c ++ r) = Some (c, r).
Proof.
  destruct c as [[] [] [] [] [] [] [] []]; reflexivity.
Qed.

Lemma quote_plus_inj (k1 k2 : string) :
  Py.quote_plus k1 = Py.quote_plus k2 -> k1 = k2.
Proof.
  revert k2; induction k1 as [|c1 k1 IH]; intros [|c2 k2]; cbn [Py.quote_plus];
    intros H.
  - reflexivity.
  - apply (f_equal Spec.unquote_head) in H.
    rewrite unquote_head_quote in H. discriminate.
  - apply (f_equal Spec.unquote_head) in H.
    rewrite unquote_head_quote in H. discriminate.
  - apply (f_equal Spec.unquote_head) in H.
    rewrite !unquote_head_quote in H. injection H as -> H.
    now rewrite (IH k2 H).
Qed.

Lemma quote_char_no_lf (c : ascii) :
  Py.str_forall (Spec.other_than Py.LF) (Py.quote_char c) = true.
Proof.
  destruct c as [[] [] [] [] [] [] [] []]; reflexivity.
Qed.

Lemma quote_plus_no_lf (k : string) :
  Py.str_forall (Spec.other_than Py.LF) (Py.quote_plus k) = true.
Proof.
  induction k as [|c k IH]; [reflexivity|].
  cbn [Py.quote_plus]. now rewrite str_forall_app, quote_char_no_lf, IH.
Qed.

Lemma concat_last (sep : string) (l : list string) (x y : string) :
  String.concat sep (l ++ [x ++ y]) = String.concat sep (l ++ [x]) ++ y.
Proof.
  induction l as [|a l IH]; [reflexivity|].
  cbn [app]. destruct l as [|b l].
  - cbn. now rewrite !sapp_assoc.
  - cbn [app String.concat] in IH |- *. now rewrite IH, !sapp_assoc.
Qed.

Lemma query_split (tags : list string) (key : string) :
  Spec.query tags key = Spec.query_head tags ++ Py.quote_plus key.
Proof. unfold Spec.query, Spec.query_head, Spec.api_key_param. apply concat_last. Qed.

Lemma stdout_app (t1 t2 : list Upload.event) :
  Upload.stdout (t1 ++ t2) = Upload.stdout t1 ++ Upload.stdout t2.
Proof.
  induction t1 as [|[line | c | r] t1 IH]; cbn [app Upload.stdout];
    [reflexivity | | exact IH | exact IH].
  now rewrite IH, !sapp_assoc.
Qed.

(** The line with the URL, as a text before the key, the quoted key and a
    line feed. *)
Lemma calling_stdout (w : Upload.World) (base file ext : string)
      (tags : list string) :
  Upload.defaults_for ext = Some tags ->
  Py.plain_url (Py.path_join base file) = true ->
  exists A, forall key,
    Upload.stdout [Spec.file_line file;
                   Spec.calling_line (Spec.with_key w key)
                     (Spec.request_for (Spec.with_key w key) base file tags)]
    = A ++ Py.quote_plus key ++ Py.str Py.LF.
Proof.
  intros Ht Hp.
  exists (("  " ++ file) ++ Py.str Py.LF
          ++ "    Calling SourceForge Release API: "
          ++ Py.path_join base file ++ "?" ++ Spec.query_head tags).
  intros key. cbn [Upload.stdout Spec.file_line Spec.calling_line].
  rewrite (prepare_url_plain (Spec.with_key w key) base file ext tags Ht Hp).
  cbn [Upload.sf_api_key Spec.with_key]. rewrite query_split.
  rewrite sapp_nil_r. rewrite !sapp_assoc. reflexivity.
Qed.

Lemma dry_output_differs (w : Upload.World) (base : string) (files : list string)
      (k1 k2 : string) :
  k1 <> k2 ->
  (forall f, In f files -> Upload.defaults_for (snd (Py.splitext f)) <> None ->
             Py.plain_url (Py.path_join base f) = true) ->
  (exists f, In f files /\ Upload.defaults_for (snd (Py.splitext f)) <> None) ->
  Upload.stdout (flat_map (Spec.dry_lines (Spec.with_key w k1) base) files)
  <> Upload.stdout (flat_map (Spec.dry_lines (Spec.with_key w k2) base) files).
Proof.
  intros Hk. induction files as [|f files IH]; intros Hplain (f0 & Hin & Hdef) Heq.
  { destruct Hin. }
  cbn [flat_map] in Heq. rewrite !stdout_app in Heq.
  unfold Spec.dry_lines at 1 3 in Heq.
  destruct (Upload.defaults_for (snd (Py.splitext f))) as [tags|] eqn:Ht.
  - assert (Hp : Py.plain_url (Py.path_join base f) = true).
    { apply Hplain; [now left | congruence]. }
    destruct (calling_stdout w base f _ tags Ht Hp) as [A HA].
    rewrite !HA, !sapp_assoc in Heq.
    apply sapp_inv_head in Heq.
    apply span_unique with (p := Spec.other_than Py.LF) in Heq as [Heq _];
      try apply quote_plus_no_lf; try reflexivity.
    now apply quote_plus_inj in Heq.
  - apply sapp_inv_head in Heq. apply IH; [| |exact Heq].
    + intros f' Hf'. apply Hplain. now right.
    + destruct Hin as [<- | Hin]; [congruence | now exists f0].
Qed.

(** The lines themselves differ as soon as one file with a known
    extension has a plain URL. *)
Lemma dry_lines_differ (w : Upload.World) (base : string) (files : list string)
      (k1 k2 z : string) :
  k1 <> k2 ->
  In z files ->
  Upload.defaults_for (snd (Py.splitext z)) <> None ->
  Py.plain_url (Py.path_join base z) = true ->
  flat_map (Spec.dry_lines (Spec.with_key w k1) base) files
  <> flat_map (Spec.dry_lines (Spec.with_key w k2) base) files.
Proof.
  intros Hk Hin Hdef Hp. induction files as [|f files IH]; [destruct Hin|].
  cbn [flat_map]. unfold Spec.dry_lines at 1 3.
  destruct (Upload.defaults_for (snd (Py.splitext f))) as [tags|] eqn:Ht;
    cbn [app]; intros Heq.
  - assert (Hline : Upload.prepare_url (Spec.with_key w k1)
                      (Spec.request_for (Spec.with_key w k1) base f tags)
                    = Upload.prepare_url (Spec.with_key w k2)
                        (Spec.request_for (Spec.with_key w k2) base f tags)
                    /\ flat_map (Spec.dry_lines (Spec.with_key w k1) base) files
                       = flat_map (Spec.dry_lines (Spec.with_key w k2) base) files).
    { injection Heq. intros; now split. }
    destruct Hline as [Hline Hrest].
    destruct Hin as [-> | Hin]; [|now apply IH].
    rewrite !(prepare_url_plain _ base z _ tags Ht Hp) in Hline.
    cbn [Upload.sf_api_key Spec.with_key] in Hline.
    rewrite !query_split in Hline.
    assert (Hq : forall a b c x y : string,
               a ++ b ++ c ++ x = a ++ b ++ c ++ y -> x = y).
    { intros a b c x y H. now do 3 apply sapp_inv_head in H. }
    apply Hq in Hline. now apply quote_plus_inj in Hline.
  - assert (Hrest : flat_map (Spec.dry_lines (Spec.with_key w k1) base) files
                    = flat_map (Spec.dry_lines (Spec.with_key w k2) base) files).
    { now injection Heq. }
    destruct Hin as [-> | Hin]; [congruence | now apply IH].
Qed.

Lemma fnmatch_zip_prefix (name : string) :
  Py.fnmatch "adodb-*.zip" name = true -> Py.fnmatch "adodb-*" name = true.
Proof.
  intros H.
  do 6 (destruct name as [|? name]; [discriminate|];
        cbn [Py.fnmatch] in H |- *;
        let E := fresh "E" in
        apply andb_true_iff in H as [E H]; rewrite E; cbn [andb]).
  apply fnmatch_any.
Qed.

Lemma glob_zip_in_loop (listing : list string) (z : string) :
  In z (Py.glob listing "adodb-*.zip") -> In z (Py.glob listing "adodb-*").
Proof.
  unfold Py.glob. cbn [Py.ishidden Py.startswith Ascii.eqb Bool.eqb andb].
  rewrite !filter_In. intros [Hin Hm]. split; [exact Hin|].
  now apply fnmatch_zip_prefix.
Qed.

Lemma triple_other_than (c : ascii) (X Y Z : string) :
  Py.is_digit c = false -> c <> "."%char ->
  Py.digits X = true -> Py.digits Y = true -> Py.digits Z = true ->
  Py.str_forall (Spec.other_than c) (Spec.triple X Y Z) = true.
Proof.
  intros Hc Hdot HX HY HZ. unfold Spec.triple.
  rewrite !str_forall_app; cbn [Py.str_forall].
  rewrite !(digits_other_than c) by assumption.
  unfold Spec.other_than.
  destruct (Ascii.eqb_spec "." c) as [E|]; [congruence | reflexivity].
Qed.

Lemma prerelease_no_slash (suf : string) :
  Spec.prerelease suf -> Py.str_forall (Spec.other_than "/") suf = true.
Proof.
  intros [-> | (p & n & Hp & Hn & ->)]; [reflexivity|].
  rewrite !str_forall_app; cbn [Py.str_forall].
  rewrite (digits_other_than "/" n) by (reflexivity || assumption).
  destruct Hp as [-> | [-> | ->]]; reflexivity.
Qed.

Lemma archive_extension (X Y Z suf : string) :
  Py.digits X = true -> Py.digits Y = true -> Py.digits Z = true ->
  Spec.prerelease suf ->
  snd (Py.splitext (Spec.archive_name X Y Z suf)) = ".zip".
Proof.
  intros HX HY HZ Hsuf. unfold Spec.archive_name.
  replace ("adodb-" ++ Spec.triple X Y Z ++ suf ++ ".zip")
    with (String "a" ("dodb-" ++ Spec.triple X Y Z ++ suf) ++ "." ++ "zip")
    by (cbn [String.append]; now rewrite !sapp_assoc).
  rewrite splitext_suffix; [reflexivity | discriminate | | reflexivity].
  cbn [String.append Py.str_forall]. rewrite !str_forall_app.
  rewrite triple_other_than, prerelease_no_slash by (assumption || discriminate || reflexivity).
  reflexivity.
Qed.

Lemma archive_in_loop (listing : list string) (z : string) (l : list string)
      (m : Py.mstate) :
  Py.glob listing "adodb-*.zip" = z :: l ->
  Py.re_search Upload.version_pattern z = Some m ->
  In z (Py.glob listing "adodb-*")
  /\ Upload.defaults_for (snd (Py.splitext z)) = Some ["windows"].
Proof.
  intros Hg Hm.
  assert (Hin : In z (Py.glob listing "adodb-*.zip")) by (rewrite Hg; now left).
  split; [now apply glob_zip_in_loop|].
  assert (Hfn : Py.fnmatch "adodb-*.zip" z = true).
  { unfold Py.glob in Hin. apply filter_In in Hin. tauto. }
  apply re_search_sound, version_pattern_sound in Hm
    as (X & Y & Z & suf & nl & HX & HY & HZ & Hsuf & Hnl & E & _).
  destruct Hnl as [-> | ->].
  - rewrite sapp_nil_r in E. subst z. now rewrite archive_extension.
  - apply fnmatch_zip_last in Hfn.
    rewrite E, archive_then_lf_last in Hfn. discriminate.
Qed.

(** *** A dry run that reaches the metadata loop *)

Lemma sf_target_split (dir : string) :
  exists path more,
    Py.rsplit ":" (Upload.sf_files ++ dir) = "frs.sourceforge.net" :: path :: more.
Proof.
  unfold Upload.sf_files, Py.rsplit.
  change ("frs.sourceforge.net:/home/frs/project/adodb/" ++ dir)
    with ("frs.sourceforge.net" ++ String ":" ("/home/frs/project/adodb/" ++ dir)).
  rewrite split_head by reflexivity.
  destruct (Py.split ":" ("/home/frs/project/adodb/" ++ dir)) as [|path more] eqn:E.
  - now apply split_not_nil in E.
  - now exists path, more.
Qed.

Lemma prepend_prepend {A} t1 t2 (r : outcome A * Upload.state * list Upload.event) :
  Spec.prepend t1 (Spec.prepend t2 r) = Spec.prepend (t1 ++ t2) r.
Proof. destruct r as [[o s] t]. cbn. now rewrite app_assoc. Qed.

Lemma upload_release_files_ok (w : Upload.World) (st : Upload.state)
      (v dir : string) :
  Upload.get_release_version w st = (Ret v, st, []) ->
  Upload.sourceforge_target_dir v = Ret dir ->
  exists t, Upload.upload_release_files w st = (Ret tt, st, t).
Proof.
  intros Hv Hdir.
  destruct (sf_target_split dir) as (path & more & Hs).
  unfold Upload.upload_release_files.
  rewrite (bind_ret_run _ _ _ _ _ _ Hv), prepend_nil, Hdir.
  erewrite bind_ret_run by reflexivity. rewrite prepend_nil, bind_get_run.
  rewrite !bind_print_run.
  erewrite (bind_ret_run (Upload.glob w "*")) by reflexivity.
  rewrite prepend_nil, !bind_print_run.
  erewrite bind_ret_run by (eapply call_rsync_run; exact Hs).
  rewrite !prepend_prepend. eexists. reflexivity.
Qed.

(** ** The command line, in full *)

Section CommandLine.

Variable w : Upload.World.

Import Upload.

Ltac fields :=
  cbn [dry_run username release_path skip_upload workdir api_calls
       Spec.prepend app].

Lemma after_opts_nil (st : state) : Spec.after_opts st [] = st.
Proof.
  unfold Spec.after_opts. cbn. rewrite !orb_false_r. now destruct st.
Qed.

(** Options before the first help option are processed one after the
    other; what comes after them starts from the state they leave. *)
Lemma process_options_prefix (pre rest : list (string * string)) :
  Spec.has_opt Spec.help_opt pre = false ->
  forall st,
    process_options w (pre ++ rest) st
    = Spec.prepend (Spec.option_lines pre)
        (process_options w rest (Spec.after_opts st pre)).
Proof.
  induction pre as [|[opt val] pre IH]; intros Hh st.
  - cbn [app Spec.option_lines flat_map]. now rewrite after_opts_nil, prepend_nil.
  - cbn [Spec.has_opt existsb fst] in Hh.
    apply orb_false_iff in Hh as [Hh Hh'].
    cbn [app process_options]. rewrite bind_get_run.
    unfold Spec.help_opt in Hh. rewrite Hh.
    assert (Hu : forall l, Py.str_in opt l = true ->
                 forall l', (forall x, In x l -> Py.str_in x l' = false) ->
                 Py.str_in opt l' = false).
    { intros l Hl l' Hd. apply str_in_true in Hl. now apply Hd. }
    destruct (Py.str_in opt ["-u"; "--user"]) eqn:Eu.
    { assert (Es : Py.str_in opt ["-s"; "--skip-upload"] = false).
      { apply (Hu _ Eu). intros x [<- | [<- | []]]; reflexivity. }
      assert (En : Py.str_in opt ["-n"; "--dry-run"] = false).
      { apply (Hu _ Eu). intros x [<- | [<- | []]]; reflexivity. }
      erewrite bind_ret_run by reflexivity.
      rewrite prepend_nil, (IH Hh').
      unfold Spec.after_opts, Spec.option_lines, Spec.has_opt.
      cbn [existsb flat_map Spec.last_user fst snd]. fields.
      unfold Spec.user_opt, Spec.skip_opt, Spec.dry_opt.
      rewrite Eu, Es, En. reflexivity. }
    destruct (Py.str_in opt ["-s"; "--skip-upload"]) eqn:Es.
    { assert (En : Py.str_in opt ["-n"; "--dry-run"] = false).
      { apply (Hu _ Es). intros x [<- | [<- | []]]; reflexivity. }
      erewrite bind_ret_run by reflexivity.
      rewrite prepend_nil, (IH Hh').
      unfold Spec.after_opts, Spec.option_lines, Spec.has_opt.
      cbn [existsb flat_map Spec.last_user fst snd]. fields.
      unfold Spec.user_opt, Spec.skip_opt, Spec.dry_opt.
      rewrite Eu, Es, En. cbn [orb app]. now rewrite orb_true_r. }
    destruct (Py.str_in opt ["-n"; "--dry-run"]) eqn:En.
    { erewrite bind_ret_run by reflexivity.
      rewrite (IH Hh'), prepend_prepend.
      unfold Spec.after_opts, Spec.option_lines, Spec.has_opt.
      cbn [existsb flat_map Spec.last_user fst snd]. fields.
      unfold Spec.user_opt, Spec.skip_opt, Spec.dry_opt.
      rewrite Eu, Es, En. cbn [orb app]. now rewrite orb_true_r. }
    erewrite bind_ret_run by reflexivity.
    rewrite prepend_nil, (IH Hh').
    unfold Spec.after_opts, Spec.option_lines, Spec.has_opt.
    cbn [existsb flat_map Spec.last_user fst snd]. fields.
    unfold Spec.user_opt, Spec.skip_opt, Spec.dry_opt.
    rewrite Eu, Es, En. reflexivity.
Qed.

Lemma process_options_all (opts : list (string * string)) (st : state) :
  Spec.has_opt Spec.help_opt opts = false ->
  process_options w opts st
  = (Ret tt, Spec.after_opts st opts, Spec.option_lines opts).
Proof.
  intros Hh. rewrite <- (app_nil_r opts) at 1.
  rewrite (process_options_prefix opts [] Hh). cbn. now rewrite app_nil_r.
Qed.

Lemma process_command_line_all (opts : list (string * string))
      (args : list string) :
  Spec.parsed w = inl (opts, args) ->
  Spec.has_opt Spec.help_opt opts = false ->
  process_command_line w (initial_state w)
  = ((if Spec.chdir_fine w args then Ret tt else Raise OSError),
     Spec.after_command_line w opts args, Spec.option_lines opts).
Proof.
  intros Hp Hh. unfold process_command_line.
  unfold Spec.parsed in Hp. rewrite Hp. rewrite bind_get_run.
  erewrite bind_ret_run by reflexivity. rewrite prepend_nil.
  erewrite bind_ret_run by (apply process_options_all; exact Hh).
  unfold Spec.after_opts, Spec.after_command_line, initial_state. fields.
  cbn [orb].
  destruct args as [|a args].
  - cbn. now rewrite app_nil_r.
  - unfold try_except, bind, lift, set_release_path, chdir, get, put, Py.item.
    cbn [nth_error Spec.chdir_fine Spec.shown_path Spec.start_dir]. fields.
    destruct (chdir_ok w a); cbn; now rewrite app_nil_r.
Qed.

End CommandLine.

(** ** Target directories, in general *)

Lemma split_first (c : ascii) (s : string) :
  exists more, Py.split c s = Spec.before c s :: more.
Proof.
  induction s as [|a s [more IH]]; cbn [Py.split Spec.before].
  - now exists [].
  - destruct (a =? c)%char; [now eexists|]. rewrite IH. now eexists.
Qed.

Lemma before_app (c : ascii) (a b : string) :
  Py.str_forall (Spec.other_than c) a = true ->
  Spec.before c (a ++ String c b) = a.
Proof.
  induction a as [|x a IH]; cbn [Py.str_forall String.append Spec.before].
  - now rewrite Ascii.eqb_refl.
  - unfold Spec.other_than at 1. intros H. apply andb_true_iff in H as [Hx Ha].
    apply negb_true_iff in Hx. now rewrite Hx, IH.
Qed.

Lemma before_whole (c : ascii) (a : string) :
  Py.str_forall (Spec.other_than c) a = true -> Spec.before c a = a.
Proof.
  induction a as [|x a IH]; cbn [Py.str_forall Spec.before]; [reflexivity|].
  unfold Spec.other_than at 1. intros H. apply andb_true_iff in H as [Hx Ha].
  apply negb_true_iff in Hx. now rewrite Hx, IH.
Qed.

Lemma rsplit1_first (c : ascii) (s : string) :
  exists short more, Py.rsplit1 c s = short :: more.
Proof.
  unfold Py.rsplit1. destruct (Py.rfind c s <? 0)%Z; now eexists; eexists.
Qed.

Lemma int_outcome (s : string) :
  (exists n, Py.int s = Ret n) \/ Py.int s = Raise ValueError.
Proof.
  unfold Py.int. destruct (Py.int_signed _); [left; now eexists | now right].
Qed.

Lemma uint_string_class (p : ascii -> bool) (d : Decimal.uint) :
  (forall c, Py.is_digit c = true -> p c = true) ->
  Py.str_forall p (NilEmpty.string_of_uint d) = true.
Proof.
  intros Hp. induction d; cbn [NilEmpty.string_of_uint Py.str_forall];
    [reflexivity | rewrite IHd, Hp by reflexivity; reflexivity ..].
Qed.

Lemma format_int_class (c : ascii) (z : Z) :
  Py.is_digit c = false -> c <> "-"%char ->
  Py.str_forall (Spec.other_than c) (Py.format_int z) = true.
Proof.
  intros Hc Hm. unfold Py.format_int.
  assert (Hu : forall d, Py.str_forall (Spec.other_than c)
                           (NilZero.string_of_uint d) = true).
  { intros d. unfold NilZero.string_of_uint.
    destruct d; try (apply uint_string_class; now apply digit_other_than).
    cbn. unfold Spec.other_than. destruct (Ascii.eqb_spec "0" c); [|reflexivity].
    subst c. discriminate. }
  assert (Hd : Spec.other_than c "-" = true).
  { unfold Spec.other_than. apply negb_true_iff, Ascii.eqb_neq. congruence. }
  destruct (Z.to_int z) as [d | d]; cbn [NilZero.string_of_int Py.str_forall].
  - apply Hu.
  - now rewrite Hd, Hu.
Qed.

Lemma target_dir_class (c : ascii) (X short : string) :
  Py.is_digit c = false ->
  Py.str_forall (Spec.other_than c) "adodb-php5-only/" = true ->
  Py.str_forall (Spec.other_than c) short = true ->
  Py.str_forall (Spec.other_than c) (Spec.target_dir X short) = true.
Proof.
  intros Hc Hfix Hs. unfold Spec.target_dir, Spec.base_dir.
  assert (Hm : c <> "-"%char).
  { intros ->. discriminate. }
  destruct (Py.dec_value X =? 5)%Z.
  - rewrite !str_forall_app, Hs. cbn in Hfix |- *.
    repeat (apply andb_true_iff in Hfix as [? Hfix]).
    repeat (apply andb_true_iff; split); assumption.
  - rewrite !str_forall_app, Hs, (format_int_class c _ Hc Hm).
    cbn in Hfix |- *.
    repeat (apply andb_true_iff in Hfix as [? Hfix]).
    repeat (apply andb_true_iff; split); assumption.
Qed.

Lemma target_dir_triple (X Y Z suf : string) :
  Py.digits X = true -> Py.digits Y = true -> Py.digits Z = true ->
  Spec.prerelease suf ->
  Upload.sourceforge_target_dir (Spec.triple X Y Z ++ suf)
  = Ret (Spec.target_dir X (X ++ "." ++ Y)).
Proof. exact (target_dir_of_version X Y Z suf). Qed.

(** X1. [sourceforge_target_dir] ignores whatever follows the first dash
    of a version that has a dot before it: cutting the version at that
    dash gives the same directory, whatever the suffix is. *)
Theorem X1_target_dir_ignores_suffix (a b s : string) :
  Py.str_forall (Spec.other_than ".") a = true ->
  Py.str_forall (Spec.other_than "-") a = true ->
  Py.str_forall (Spec.other_than "-") b = true ->
  Upload.sourceforge_target_dir (a ++ "." ++ b ++ "-" ++ s)
  = Upload.sourceforge_target_dir (a ++ "." ++ b).
Proof.
  intros Hdot Ha Hb. unfold Upload.sourceforge_target_dir, Py.rsplit.
  cbn [String.append].
  rewrite !(split_head "." a) by assumption. cbn [Py.item nth_error obind].
  destruct (Py.int a) as [n | c | e]; cbn [obind]; [|reflexivity ..].
  assert (Hab : Py.str_forall (Spec.other_than "-") (a ++ String "." b) = true).
  { rewrite str_forall_app, Ha. cbn. exact Hb. }
  replace (a ++ String "." (b ++ String "-" s))
    with ((a ++ String "." b) ++ String "-" s)
    by (rewrite sapp_assoc; reflexivity).
  rewrite (split_head "-" (a ++ String "." b) s Hab).
  rewrite (split_whole "-" (a ++ String "." b) Hab). reflexivity.
Qed.

Lemma X1_target_dir_ignores_suffix_witness :
  Upload.sourceforge_target_dir "7.3.1-2024.snapshot-x"
  = Upload.sourceforge_target_dir "7.3.1".
Proof.
  apply (X1_target_dir_ignores_suffix "7" "3.1" "2024.snapshot-x"); reflexivity.
Defined.

(** X2. [sourceforge_target_dir] drops the last dot-separated component
    and nothing else.  For a version without a dash made of the digits
    [X], further components [R] (none, or a text starting with a dot) and
    a last component [Z], the directory is the base for [X], a slash, and
    [adodb-] followed by [X] and [R].  So a version of two parts loses its
    minor number, and one of four parts keeps three. *)
Theorem X2_target_dir_drops_last_component (X R Z : string) :
  Py.digits X = true ->
  R = "" \/ Py.startswith "." R = true ->
  Py.str_forall (Spec.other_than "-") R = true ->
  Py.str_forall (Spec.other_than "-") Z = true ->
  Py.str_forall (Spec.other_than ".") Z = true ->
  Upload.sourceforge_target_dir (X ++ R ++ "." ++ Z)
  = Ret (Spec.target_dir X (X ++ R)).
Proof.
  intros HX HR HRd HZd HZ. unfold Upload.sourceforge_target_dir.
  assert (Hmajor : Py.item (Py.rsplit "." (X ++ R ++ "." ++ Z)) 0 = Ret X).
  { destruct HR as [-> | HR].
    - apply major_of_version, HX.
    - destruct R as [|c R']; [discriminate|]. cbn [Py.startswith] in HR.
      apply andb_true_iff in HR as [HR _]. apply Ascii.eqb_eq in HR. subst c.
      apply (major_of_version X (R' ++ "." ++ Z) HX). }
  rewrite Hmajor. cbn [obind].
  rewrite int_digits_string by assumption. cbn [obind].
  assert (Hwhole : Py.str_forall (Spec.other_than "-") (X ++ R ++ "." ++ Z) = true).
  { rewrite !str_forall_app, HRd, HZd.
    rewrite (digits_other_than "-" X) by (reflexivity || assumption).
    reflexivity. }
  rewrite split_whole by assumption. cbn [Py.item nth_error obind].
  replace (X ++ R ++ "." ++ Z) with ((X ++ R) ++ String "." Z)
    by (rewrite sapp_assoc; reflexivity).
  rewrite rsplit1_last by assumption. cbn [Py.item nth_error obind].
  unfold Spec.target_dir, Spec.base_dir.
  destruct (Py.dec_value X =? 5)%Z; [reflexivity|].
  now rewrite !sapp_assoc.
Qed.

Lemma X2_target_dir_drops_last_component_witness :
  Upload.sourceforge_target_dir "7.3" = Ret "adodb7/adodb-7"
  /\ Upload.sourceforge_target_dir "5.22.7.1" = Ret "adodb-php5-only/adodb-5.22.7".
Proof.
  split.
  - apply (X2_target_dir_drops_last_component "7" "" "3");
      first [reflexivity | now left].
  - apply (X2_target_dir_drops_last_component "5" ".22.7" "1");
      first [reflexivity | now right].
Defined.

(** X3. [sourceforge_target_dir] fails in one way only: it raises
    [ValueError] exactly when the text before the first dot of the version
    is not an integer literal for [int]; on every other version it returns
    a directory.  It never raises [IndexError]. *)
Theorem X3_target_dir_errors (version : string) :
  (Upload.sourceforge_target_dir version = Raise ValueError
   <-> Py.int (Spec.before "." version) = Raise ValueError)
  /\ ((exists dir, Upload.sourceforge_target_dir version = Ret dir)
      \/ Upload.sourceforge_target_dir version = Raise ValueError).
Proof.
  unfold Upload.sourceforge_target_dir, Py.rsplit.
  destruct (split_first "." version) as [more ->].
  destruct (split_first "-" version) as [more' ->].
  cbn [Py.item nth_error obind].
  destruct (rsplit1_first "." (Spec.before "-" version)) as (short & more'' & ->).
  cbn [Py.item nth_error obind].
  destruct (int_outcome (Spec.before "." version)) as [[n ->] | ->]; cbn [obind].
  - split; [split; discriminate | left; now eexists].
  - split; [now split | now right].
Qed.

(** ** Version resolution and the transfer, in full *)

Lemma glob_matches (listing : list string) (pattern z : string) :
  In z (Py.glob listing pattern) -> Py.fnmatch pattern z = true.
Proof.
  unfold Py.glob. intros H. now apply filter_In in H as [_ H].
Qed.

Lemma glob_listed (listing : list string) (pattern z : string) :
  In z (Py.glob listing pattern) -> In z listing.
Proof.
  unfold Py.glob. intros H. apply filter_In in H as [H _].
  destruct (Py.ishidden pattern); [exact H|]. now apply filter_In in H as [H _].
Qed.

Lemma version_resolution (w : Upload.World) (st : Upload.state) :
  match Py.glob (Upload.listdir w (Upload.workdir st)) "adodb-*.zip" with
  | [] =>
      Upload.get_release_version w st
      = (Exit 1, st,
         [Upload.Print (Spec.not_found_message (Upload.release_path st))])
  | zipfile :: _ =>
      (exists X Y Z suf,
          Py.digits X = true /\ Py.digits Y = true /\ Py.digits Z = true /\
          Spec.prerelease suf /\ zipfile = Spec.archive_name X Y Z suf /\
          Upload.get_release_version w st = (Ret (Spec.triple X Y Z), st, []))
      \/ ((forall X Y Z suf,
              Py.digits X = true -> Py.digits Y = true -> Py.digits Z = true ->
              Spec.prerelease suf -> zipfile <> Spec.archive_name X Y Z suf)
          /\ Upload.get_release_version w st
             = (Exit 1, st, [Upload.Print (Spec.unparsable_message zipfile)]))
  end.
Proof.
  destruct (Py.glob _ _) as [|z l] eqn:Hg.
  - unfold Upload.get_release_version, Upload.glob, Upload.try_except.
    unfold Upload.bind, Upload.get, Upload.ret, Upload.lift, Py.item.
    cbv beta iota. rewrite Hg. reflexivity.
  - assert (Hz : Py.fnmatch "adodb-*.zip" z = true).
    { apply (glob_matches (Upload.listdir w (Upload.workdir st))).
      rewrite Hg. now left. }
    destruct (Py.re_search Upload.version_pattern z) as [m|] eqn:Hm.
    + left.
      destruct (version_pattern_sound z m (re_search_sound z m Hm))
        as (X & Y & Z & suf & nl & HX & HY & HZ & Hsuf & Hnl & Hname & Hv).
      exists X, Y, Z, suf.
      assert (Hnil : nl = "").
      { destruct Hnl as [-> | ->]; [reflexivity|]. exfalso.
        apply fnmatch_zip_last in Hz.
        rewrite Hname, archive_then_lf_last in Hz. discriminate. }
      subst nl. rewrite sapp_nil_r in Hname.
      repeat (split; [assumption|]).
      now apply (get_release_version_found w st z l m).
    + right. split.
      * intros X Y Z suf HX HY HZ Hsuf ->.
        destruct (extracted_version_archive X Y Z suf "" HX HY HZ Hsuf)
          as (m & Hm' & _); [now left|].
        rewrite sapp_nil_r in Hm'. congruence.
      * unfold Upload.get_release_version, Upload.glob, Upload.try_except.
        unfold Upload.bind, Upload.get, Upload.ret, Upload.lift, Py.item.
        cbv beta iota. rewrite Hg. cbn [nth_error]. rewrite Hm. reflexivity.
Qed.

(** X4. [get_release_version] looks at the first name [glob] finds for
    [adodb-*.zip] and at nothing else.  With no such name it prints that
    no release zip file was found in the release path and exits with
    status 1.  When the first name is [adodb-X.Y.Z.zip], with an optional
    pre-release suffix, it returns [X.Y.Z], prints nothing and leaves the
    state alone.  For any other first name it prints that the version
    cannot be extracted from that name and exits with status 1.  It never
    raises. *)
Theorem X4_version_resolution (w : Upload.World) (st : Upload.state) :
  match Py.glob (Upload.listdir w (Upload.workdir st)) "adodb-*.zip" with
  | [] =>
      Upload.get_release_version w st
      = (Exit 1, st,
         [Upload.Print (Spec.not_found_message (Upload.release_path st))])
  | zipfile :: _ =>
      (exists X Y Z suf,
          Py.digits X = true /\ Py.digits Y = true /\ Py.digits Z = true /\
          Spec.prerelease suf /\ zipfile = Spec.archive_name X Y Z suf /\
          Upload.get_release_version w st = (Ret (Spec.triple X Y Z), st, []))
      \/ ((forall X Y Z suf,
              Py.digits X = true -> Py.digits Y = true -> Py.digits Z = true ->
              Spec.prerelease suf -> zipfile <> Spec.archive_name X Y Z suf)
          /\ Upload.get_release_version w st
             = (Exit 1, st, [Upload.Print (Spec.unparsable_message zipfile)]))
  end.
Proof. exact (version_resolution w st). Qed.

Lemma get_release_version_archive (w : Upload.World) (st : Upload.state)
      (X Y Z suf : string) (l : list string) :
  Py.glob (Upload.listdir w (Upload.workdir st)) "adodb-*.zip"
  = Spec.archive_name X Y Z suf :: l ->
  Py.digits X = true -> Py.digits Y = true -> Py.digits Z = true ->
  Spec.prerelease suf ->
  Upload.get_release_version w st = (Ret (Spec.triple X Y Z), st, []).
Proof.
  intros Hg HX HY HZ Hsuf.
  destruct (extracted_version_archive X Y Z suf "" HX HY HZ Hsuf)
    as (m & Hm & Hv); [now left|].
  rewrite sapp_nil_r in Hm.
  exact (get_release_version_found w st _ l m _ Hg Hm Hv).
Qed.

Lemma sf_target_pieces (dir : string) :
  Py.str_forall (Spec.other_than ":") dir = true ->
  Py.rsplit ":" (Upload.sf_files ++ dir)
  = ["frs.sourceforge.net"; "/home/frs/project/adodb/" ++ dir].
Proof.
  intros Hdir. unfold Upload.sf_files, Py.rsplit.
  change ("frs.sourceforge.net:/home/frs/project/adodb/" ++ dir)
    with ("frs.sourceforge.net" ++ String ":" ("/home/frs/project/adodb/" ++ dir)).
  rewrite split_head by reflexivity.
  rewrite split_whole; [reflexivity|].
  now rewrite str_forall_app, Hdir.
Qed.

Lemma short_version_class (c : ascii) (X Y : string) :
  Py.is_digit c = false -> c <> "."%char ->
  Py.digits X = true -> Py.digits Y = true ->
  Py.str_forall (Spec.other_than c) (X ++ "." ++ Y) = true.
Proof.
  intros Hc Hdot HX HY.
  rewrite !str_forall_app.
  rewrite (digits_other_than c X Hc HX), (digits_other_than c Y Hc HY).
  cbn. unfold Spec.other_than.
  destruct (Ascii.eqb_spec "." c); [congruence | reflexivity].
Qed.

Lemma upload_release_files_block (w : Upload.World) (st : Upload.state)
      (X Y Z suf : string) (l : list string) :
  Py.glob (Upload.listdir w (Upload.workdir st)) "adodb-*.zip"
  = Spec.archive_name X Y Z suf :: l ->
  Py.digits X = true -> Py.digits Y = true -> Py.digits Z = true ->
  Spec.prerelease suf ->
  Upload.upload_release_files w st
  = (Ret tt, st, Spec.transfer_block w st (Spec.target_dir X (X ++ "." ++ Y))).
Proof.
  intros Hg HX HY HZ Hsuf.
  pose proof (get_release_version_archive w st X Y Z suf l Hg HX HY HZ Hsuf) as Hv.
  pose proof (target_dir_triple X Y Z "" HX HY HZ (or_introl eq_refl)) as Hdir.
  rewrite sapp_nil_r in Hdir.
  set (dir := Spec.target_dir X (X ++ "." ++ Y)) in *.
  assert (Hs : Py.rsplit ":" (Upload.sf_files ++ dir)
               = ["frs.sourceforge.net"; "/home/frs/project/adodb/" ++ dir]).
  { apply sf_target_pieces, target_dir_class; try reflexivity.
    apply short_version_class; (reflexivity || discriminate || assumption). }
  unfold Upload.upload_release_files.
  rewrite (bind_ret_run _ _ _ _ _ _ Hv), prepend_nil, Hdir.
  erewrite bind_ret_run by reflexivity. rewrite prepend_nil, bind_get_run.
  rewrite !bind_print_run.
  erewrite (bind_ret_run (Upload.glob w "*")) by reflexivity.
  rewrite prepend_nil, !bind_print_run.
  erewrite bind_ret_run by (eapply call_rsync_run; exact Hs).
  rewrite !prepend_prepend. unfold Spec.transfer_block, Upload.print, Upload.emit.
  cbn [Spec.prepend]. destruct (Upload.dry_run st); reflexivity.
Qed.

(** X5. When the first release archive in the working directory is
    [adodb-X.Y.Z.zip], with an optional pre-release suffix,
    [upload_release_files] returns after printing the source, the target
    and the file list, creating the target directory on
    [frs.sourceforge.net] under [/home/frs/project/adodb/] and copying
    [release_path/*] into that same directory, both as [username]; the
    state is left alone. *)
Theorem X5_transfer_stage (w : Upload.World) (st : Upload.state)
        (X Y Z suf : string) (l : list string) :
  Py.glob (Upload.listdir w (Upload.workdir st)) "adodb-*.zip"
  = Spec.archive_name X Y Z suf :: l ->
  Py.digits X = true -> Py.digits Y = true -> Py.digits Z = true ->
  Spec.prerelease suf ->
  Upload.upload_release_files w st
  = (Ret tt, st, Spec.transfer_block w st (Spec.target_dir X (X ++ "." ++ Y))).
Proof. exact (upload_release_files_block w st X Y Z suf l). Qed.

Lemma X5_transfer_stage_witness :
  let w := Spec.example_world ["-u"; "bob"; "release"]
             ["adodb-5.22.7-rc.1.zip"; ".cache"; "adodb-5.22.7-rc.1.tar.gz"]
             "k" (Spec.always 200) in
  let st := Upload.mkState false "bob" "release" false "/home/alice/release" 0 in
  Upload.upload_release_files w st
  = (Ret tt, st,
     [Upload.Print "";
      Upload.Print "Uploading release files...";
      Upload.Print "  Source: release";
      Upload.Print
        "  Target: frs.sourceforge.net:/home/frs/project/adodb/adodb-php5-only/adodb-5.22";
      Upload.Print "  Files:  adodb-5.22.7-rc.1.zip, adodb-5.22.7-rc.1.tar.gz";
      Upload.Print "";
      Upload.Spawn
        "ssh bob@frs.sourceforge.net mkdir -p /home/frs/project/adodb/adodb-php5-only/adodb-5.22";
      Upload.Spawn
        "rsync -vP --rsh ssh  release/* bob@frs.sourceforge.net:/home/frs/project/adodb/adodb-php5-only/adodb-5.22";
      Upload.Print ""]).
Proof.
  intros w st.
  apply (X5_transfer_stage w st "5" "22" "7" "-rc.1" []); try reflexivity.
  right. exists "rc", "1". repeat split. right. now right.
Defined.

(** *** The transfer command *)

Lemma call_rsync_no_host (usr opt src dst : string)
      (st : Upload.state) :
  Py.str_forall (Spec.other_than ":") dst = true ->
  Upload.call_rsync usr opt src dst st = (Raise IndexError, st, []).
Proof.
  intros H. unfold Upload.call_rsync, Py.rsplit.
  rewrite split_whole by assumption. reflexivity.
Qed.

(** X6. Without a colon in the destination, [call_rsync] raises
    [IndexError] when it looks for the remote directory: nothing is
    printed and no process is spawned. *)
Theorem X6_call_rsync_needs_host (usr opt src dst : string)
        (st : Upload.state) :
  Py.str_forall (Spec.other_than ":") dst = true ->
  Upload.call_rsync usr opt src dst st = (Raise IndexError, st, []).
Proof. exact (call_rsync_no_host usr opt src dst st). Qed.

Lemma X6_call_rsync_needs_host_witness :
  let st := Upload.mkState false "alice" "release" false "/home/alice/release" 0 in
  Upload.call_rsync "alice" "" "release/*" "/tmp/sf-adodb/" st
  = (Raise IndexError, st, []).
Proof.
  intros st.
  apply (X6_call_rsync_needs_host "alice" "" "release/*" "/tmp/sf-adodb/" st).
  reflexivity.
Defined.

Lemma call_rsync_pieces (usr opt src host path rest : string) (st : Upload.state) :
  Py.str_forall (Spec.other_than ":") host = true ->
  Py.str_forall (Spec.other_than ":") path = true ->
  rest = "" \/ Py.startswith ":" rest = true ->
  Upload.call_rsync usr opt src (host ++ ":" ++ path ++ rest) st
  = (Ret tt, st,
     map (if Upload.dry_run st then Upload.Print else Upload.Spawn)
       ["ssh " ++ usr ++ "@" ++ host ++ " mkdir -p " ++ path;
        Upload.rsync_cmd usr opt src (host ++ ":" ++ path ++ rest)]).
Proof.
  intros Hh Hp Hr.
  assert (Hs : exists more,
             Py.rsplit ":" (host ++ ":" ++ path ++ rest) = host :: path :: more).
  { unfold Py.rsplit. cbn [String.append]. rewrite split_head by assumption.
    destruct Hr as [-> | Hr].
    - rewrite sapp_nil_r, split_whole by assumption. now exists [].
    - destruct rest as [|c rest]; [discriminate|]. cbn [Py.startswith] in Hr.
      apply andb_true_iff in Hr as [Hc _]. apply Ascii.eqb_eq in Hc. subst c.
      rewrite split_head by assumption. now eexists. }
  destruct Hs as [more Hs].
  rewrite (call_rsync_run usr opt src _ host path more st Hs).
  cbv zeta. now destruct (Upload.dry_run st).
Qed.

(** X7. For a destination [host:path], [call_rsync] first creates [path]
    on [host] and then copies to [host:path], both as the given user; in
    dry-run mode it prints the two command lines instead.  The remote
    directory is the text between the first colon and the second: when the
    destination holds more colons, the directory created is cut short
    while the copy still goes to the whole destination. *)
Theorem X7_call_rsync_commands (usr opt src host path rest : string)
        (st : Upload.state) :
  Py.str_forall (Spec.other_than ":") host = true ->
  Py.str_forall (Spec.other_than ":") path = true ->
  rest = "" \/ Py.startswith ":" rest = true ->
  Upload.call_rsync usr opt src (host ++ ":" ++ path ++ rest) st
  = (Ret tt, st,
     map (if Upload.dry_run st then Upload.Print else Upload.Spawn)
       ["ssh " ++ usr ++ "@" ++ host ++ " mkdir -p " ++ path;
        Upload.rsync_cmd usr opt src (host ++ ":" ++ path ++ rest)]).
Proof. exact (call_rsync_pieces usr opt src host path rest st). Qed.

Lemma X7_call_rsync_commands_witness :
  let live := Upload.mkState false "alice" "release" false "/home/alice/release" 0 in
  let dry := Upload.mkState true "alice" "release" false "/home/alice/release" 0 in
  Upload.call_rsync "alice" "" "release/*" "localhost:/tmp/sf-adodb/" live
  = (Ret tt, live,
     [Upload.Spawn "ssh alice@localhost mkdir -p /tmp/sf-adodb/";
      Upload.Spawn "rsync -vP --rsh ssh  release/* alice@localhost:/tmp/sf-adodb/"])
  /\ Upload.call_rsync "alice" "-n" "release/*" "localhost:/tmp/a:b" dry
     = (Ret tt, dry,
        [Upload.Print "ssh alice@localhost mkdir -p /tmp/a";
         Upload.Print "rsync -vP --rsh ssh -n release/* alice@localhost:/tmp/a:b"]).
Proof.
  intros live dry. split.
  - apply (X7_call_rsync_commands "alice" "" "release/*" "localhost"
             "/tmp/sf-adodb/" "" live); first [reflexivity | now left].
  - apply (X7_call_rsync_commands "alice" "-n" "release/*" "localhost"
             "/tmp/a" ":b" dry); first [reflexivity | now right].
Defined.

(** *** The transfer in dry-run mode *)

Lemma upload_dry_mirrors_live (w : Upload.World) (st : Upload.state) :
  Upload.upload_release_files w (Spec.set_dry true st)
  = (Spec.outcome_of (Upload.upload_release_files w (Spec.set_dry false st)),
     Spec.set_dry true
       (Spec.state_of (Upload.upload_release_files w (Spec.set_dry false st))),
     map Spec.as_print
       (Spec.events_of (Upload.upload_release_files w (Spec.set_dry false st)))).
Proof.
  pose proof (fun d => version_resolution w (Spec.set_dry d st)) as Hv.
  cbn [Spec.set_dry Upload.workdir] in Hv.
  destruct (Py.glob (Upload.listdir w (Upload.workdir st)) "adodb-*.zip")
    as [|z l] eqn:Hg.
  - unfold Upload.upload_release_files.
    rewrite (bind_exit_run _ _ _ _ _ _ (Hv true)).
    rewrite (bind_exit_run _ _ _ _ _ _ (Hv false)). reflexivity.
  - destruct (Hv true)
      as [(X & Y & Z & suf & HX & HY & HZ & Hsuf & -> & _) | [Hne Ht]].
    + rewrite (upload_release_files_block w (Spec.set_dry true st)
                 X Y Z suf l Hg HX HY HZ Hsuf).
      rewrite (upload_release_files_block w (Spec.set_dry false st)
                 X Y Z suf l Hg HX HY HZ Hsuf).
      reflexivity.
    + destruct (Hv false)
        as [(X & Y & Z & suf & HX & HY & HZ & Hsuf & Hz & _) | [_ Hf]].
      { exfalso. exact (Hne X Y Z suf HX HY HZ Hsuf Hz). }
      unfold Upload.upload_release_files.
      rewrite (bind_exit_run _ _ _ _ _ _ Ht).
      rewrite (bind_exit_run _ _ _ _ _ _ Hf). reflexivity.
Qed.

(** X8. In every state, the transfer stage in dry-run mode ends as it
    does otherwise and shows the same events in the same order, except
    that each command line is printed where it would have been run. *)
Theorem X8_dry_transfer_mirrors_live (w : Upload.World) (st : Upload.state) :
  Upload.upload_release_files w (Spec.set_dry true st)
  = (Spec.outcome_of (Upload.upload_release_files w (Spec.set_dry false st)),
     Spec.set_dry true
       (Spec.state_of (Upload.upload_release_files w (Spec.set_dry false st))),
     map Spec.as_print
       (Spec.events_of (Upload.upload_release_files w (Spec.set_dry false st)))).
Proof. exact (upload_dry_mirrors_live w st). Qed.

(** *** Target directories of different versions *)

Lemma base_dir_no_slash (X : string) :
  Py.str_forall (Spec.other_than "/") (Spec.base_dir X) = true.
Proof.
  unfold Spec.base_dir. destruct (Py.dec_value X =? 5)%Z; [reflexivity|].
  rewrite str_forall_app, format_int_class by (reflexivity || discriminate).
  reflexivity.
Qed.

Lemma sapp_inv_dot (X Y X' Y' : string) :
  Py.digits X = true -> Py.digits X' = true ->
  X ++ "." ++ Y = X' ++ "." ++ Y' -> X = X' /\ Y = Y'.
Proof.
  intros HX HX' H.
  destruct (span_unique Py.is_digit X X' ("." ++ Y) ("." ++ Y')) as [-> HY];
    try (now apply digits_forall); try reflexivity; [exact H|].
  now injection HY as ->.
Qed.

Lemma target_dir_inj (X Y X' Y' : string) :
  Py.digits X = true -> Py.digits Y = true ->
  Py.digits X' = true -> Py.digits Y' = true ->
  Spec.target_dir X (X ++ "." ++ Y) = Spec.target_dir X' (X' ++ "." ++ Y') ->
  X = X' /\ Y = Y'.
Proof.
  intros HX HY HX' HY' H. unfold Spec.target_dir in H.
  assert (Hcut : forall A B, Py.digits A = true -> Py.digits B = true ->
             Py.rsplit1 "/" (Spec.base_dir A ++ "/" ++ "adodb-" ++ A ++ "." ++ B)
             = [Spec.base_dir A; "adodb-" ++ A ++ "." ++ B]).
  { intros A B HA HB. apply rsplit1_last.
    rewrite str_forall_app. apply andb_true_iff. split; [reflexivity|].
    apply short_version_class; (reflexivity || discriminate || assumption). }
  pose proof (Hcut X Y HX HY) as H1. rewrite H, (Hcut X' Y' HX' HY') in H1.
  injection H1 as _ H1. symmetry in H1. now apply sapp_inv_dot.
Qed.

(** X9. Two releases go to the same target directory exactly when they
    agree on the major and the minor number as written: the patch number
    and the pre-release suffix never matter, and releases of different
    minor versions never share a directory. *)
Theorem X9_target_dir_shared (X Y Z suf X' Y' Z' suf' : string) :
  Py.digits X = true -> Py.digits Y = true -> Py.digits Z = true ->
  Spec.prerelease suf ->
  Py.digits X' = true -> Py.digits Y' = true -> Py.digits Z' = true ->
  Spec.prerelease suf' ->
  Upload.sourceforge_target_dir (Spec.triple X Y Z ++ suf)
  = Upload.sourceforge_target_dir (Spec.triple X' Y' Z' ++ suf')
  <-> X = X' /\ Y = Y'.
Proof.
  intros HX HY HZ Hsuf HX' HY' HZ' Hsuf'.
  rewrite !target_dir_triple by assumption. split.
  - intros [= H]. now apply target_dir_inj.
  - now intros [-> ->].
Qed.

Lemma X9_target_dir_shared_witness :
  Upload.sourceforge_target_dir "5.22.7" = Upload.sourceforge_target_dir "5.22.10-rc.1"
  /\ Upload.sourceforge_target_dir "5.22.7" <> Upload.sourceforge_target_dir "5.21.7".
Proof.
  split.
  - apply (proj2 (X9_target_dir_shared "5" "22" "7" "" "5" "22" "10" "-rc.1"
                    eq_refl eq_refl eq_refl (or_introl eq_refl)
                    eq_refl eq_refl eq_refl
                    (or_intror (ex_intro _ "rc" (ex_intro _ "1"
                       (conj (or_intror (or_intror eq_refl))
                             (conj eq_refl eq_refl))))))).
    now split.
  - intros H.
    apply (proj1 (X9_target_dir_shared "5" "22" "7" "" "5" "21" "7" ""
                    eq_refl eq_refl eq_refl (or_introl eq_refl)
                    eq_refl eq_refl eq_refl (or_introl eq_refl))) in H.
    destruct H as [_ H]. discriminate.
Defined.

(** ** The account and the arguments *)

Lemma last_user_app (u : string) (pre post : list (string * string)) :
  Spec.last_user u (pre ++ post) = Spec.last_user (Spec.last_user u pre) post.
Proof.
  revert u. induction pre as [|o pre IH]; intros u; [reflexivity|].
  cbn [app Spec.last_user]. apply IH.
Qed.

Lemma last_user_none (u : string) (opts : list (string * string)) :
  Spec.has_opt Spec.user_opt opts = false -> Spec.last_user u opts = u.
Proof.
  induction opts as [|o opts IH]; [reflexivity|].
  cbn [Spec.has_opt existsb Spec.last_user]. intros H.
  apply orb_false_iff in H as [Ho H]. rewrite Ho. now apply IH.
Qed.

Lemma last_user_last (u v o : string) (pre post : list (string * string)) :
  Py.str_in o Spec.user_opt = true ->
  Spec.has_opt Spec.user_opt post = false ->
  Spec.last_user u (pre ++ (o, v) :: post) = v.
Proof.
  intros Ho Hpost. rewrite last_user_app. cbn [Spec.last_user fst snd].
  rewrite Ho. now apply last_user_none.
Qed.

(** X10. After [process_command_line], when no help was asked for, the
    account is the current user if no user option was given, and the value
    of the last user option otherwise. *)
Theorem X10_last_user_wins (w : Upload.World) (opts : list (string * string))
        (args : list string) :
  Spec.parsed w = inl (opts, args) ->
  Spec.has_opt Spec.help_opt opts = false ->
  let st := Spec.state_of (Upload.process_command_line w (Upload.initial_state w)) in
  (Spec.has_opt Spec.user_opt opts = false ->
   Upload.username st = Upload.getuser w)
  /\ (forall pre o v post,
         opts = (pre ++ (o, v) :: post)%list ->
         Py.str_in o Spec.user_opt = true ->
         Spec.has_opt Spec.user_opt post = false ->
         Upload.username st = v).
Proof.
  intros Hp Hh st. unfold st.
  rewrite (process_command_line_all w opts args Hp Hh).
  cbn [Spec.state_of fst snd Spec.after_command_line Upload.username]. split.
  - apply last_user_none.
  - intros pre o v post -> Ho Hpost. now apply last_user_last.
Qed.

Lemma X10_last_user_wins_witness :
  let w := Spec.example_world ["-u"; "bob"; "--user=carol"; "-n"] []
             "k" (Spec.always 200) in
  Upload.username
    (Spec.state_of (Upload.process_command_line w (Upload.initial_state w)))
  = "carol".
Proof.
  intros w.
  apply (proj2 (X10_last_user_wins w
                  [("-u", "bob"); ("--user", "carol"); ("-n", "")] []
                  eq_refl eq_refl)
           [("-u", "bob")] "--user" "carol" [("-n", "")]);
    reflexivity.
Defined.

(** *** Positional arguments *)

Lemma plain_argument (a : string) :
  Py.startswith "-" a = false ->
  (a =? "--") = false
  /\ (Py.str_take 2 a =? "--") = false
  /\ (Py.str_take 1 a =? "-") = false.
Proof.
  destruct a as [|c a]; [now repeat split|].
  cbn [Py.startswith]. rewrite andb_true_r. intros Hc.
  assert (Hn : c <> "-"%char).
  { intros ->. discriminate. }
  repeat split; apply String.eqb_neq.
  - congruence.
  - destruct a; cbn; congruence.
  - cbn. congruence.
Qed.

Lemma gnu_getopt_loop_plain (first : bool) (shortopts : string)
      (longopts : list string) (opts : list (string * string))
      (args : list string) :
  forallb (fun a => negb (Py.startswith "-" a)) args = true ->
  forall fuel prog_args,
    (List.length args <= fuel)%nat ->
    Py.gnu_getopt_loop fuel first shortopts longopts opts prog_args args
    = inl (opts, (prog_args ++ args)%list).
Proof.
  induction args as [|a args IH]; intros Hplain fuel prog_args Hfuel.
  - rewrite app_nil_r. now destruct fuel.
  - cbn [forallb] in Hplain. apply andb_true_iff in Hplain as [Ha Hargs].
    apply negb_true_iff in Ha.
    destruct (plain_argument a Ha) as (H1 & H2 & H3).
    destruct fuel as [|fuel]; [cbn in Hfuel; lia|].
    cbn [Py.gnu_getopt_loop]. rewrite H1, H2, H3. cbn [andb].
    destruct first; [reflexivity|].
    rewrite (IH Hargs) by (cbn in Hfuel; lia).
    now rewrite <- app_assoc.
Qed.

Lemma parsed_plain (w : Upload.World) :
  forallb (fun a => negb (Py.startswith "-" a)) (Upload.argv w) = true ->
  Spec.parsed w = inl ([], Upload.argv w).
Proof.
  intros H. unfold Spec.parsed, Py.gnu_getopt, Upload.options.
  cbn [Py.startswith Ascii.eqb Bool.eqb andb].
  now rewrite gnu_getopt_loop_plain.
Qed.

Lemma parsed_posix (w : Upload.World) (a : string) (rest : list string) :
  Upload.posixly_correct w = true ->
  Upload.argv w = a :: rest ->
  Py.startswith "-" a = false ->
  Spec.parsed w = inl ([], a :: rest).
Proof.
  intros Hposix Hargv Ha. unfold Spec.parsed, Py.gnu_getopt, Upload.options.
  cbn [Py.startswith Ascii.eqb Bool.eqb andb].
  rewrite Hposix, Hargv. cbn [List.length Py.gnu_getopt_loop].
  destruct (plain_argument a Ha) as (H1 & H2 & H3).
  now rewrite H1, H2, H3.
Qed.

(** X11. When no argument starts with a dash, there are no options: the
    command line prints nothing, leaves dry-run and skip-upload off and
    the account at the current user, and takes the first argument for the
    release path, or the current directory when there is none; further
    arguments are ignored. *)
Theorem X11_plain_arguments (w : Upload.World) :
  forallb (fun a => negb (Py.startswith "-" a)) (Upload.argv w) = true ->
  Upload.process_command_line w (Upload.initial_state w)
  = ((if Spec.chdir_fine w (Upload.argv w) then Ret tt else Raise OSError),
     Upload.mkState false (Upload.getuser w)
       (match Upload.argv w with [] => Upload.getcwd w | a :: _ => a end)
       false
       (match Upload.argv w with
        | [] => Upload.getcwd w
        | a :: _ => if Upload.chdir_ok w a
                    then Py.path_join (Upload.getcwd w) a
                    else Upload.getcwd w
        end) 0,
     []).
Proof.
  intros H.
  rewrite (process_command_line_all w [] (Upload.argv w) (parsed_plain w H) eq_refl).
  unfold Spec.after_command_line, Spec.chdir_fine, Spec.start_dir, Spec.shown_path.
  destruct (Upload.argv w) as [|a rest]; reflexivity.
Qed.

Lemma X11_plain_arguments_witness :
  let w := Spec.example_world ["release"; "more"; "and more"] [] "k"
             (Spec.always 200) in
  Upload.process_command_line w (Upload.initial_state w)
  = (Ret tt,
     Upload.mkState false "alice" "release" false "/home/alice/release" 0, []).
Proof.
  intros w. apply (X11_plain_arguments w). reflexivity.
Defined.

(** X12. When the environment variable POSIXLY_CORRECT holds a text that
    is not empty, [process_command_line] takes everything from the first
    argument that does not start with a dash for positional: a dry-run or
    a skip-upload option given after the release path is not seen, and the
    script goes on with both flags off. *)
Theorem X12_posixly_correct (w : Upload.World) (a : string) (rest : list string) :
  Upload.posixly_correct w = true ->
  Upload.argv w = a :: rest ->
  Py.startswith "-" a = false ->
  Spec.parsed w = inl ([], a :: rest)
  /\ Spec.dry_run_requested w = false
  /\ Upload.dry_run (Spec.state_of (Upload.process_command_line w
                                       (Upload.initial_state w))) = false
  /\ Upload.skip_upload (Spec.state_of (Upload.process_command_line w
                                          (Upload.initial_state w))) = false.
Proof.
  intros Hposix Hargv Ha.
  pose proof (parsed_posix w a rest Hposix Hargv Ha) as Hp.
  split; [exact Hp|]. split.
  - unfold Spec.dry_run_requested. now rewrite Hp.
  - now rewrite (process_command_line_all w [] (a :: rest) Hp eq_refl).
Qed.

Lemma X12_posixly_correct_witness :
  let w := Upload.mkWorld ["release"; "--dry-run"] "scripts/uploadrelease.py" true
             "alice" "/home/alice" (fun _ => true)
             (fun _ => ["adodb-5.22.7.zip"]) "k" (fun n _ => Spec.always 200 n)
             Py.req_url in
  Spec.parsed w = inl ([], ["release"; "--dry-run"])
  /\ Spec.dry_run_requested w = false
  /\ Upload.dry_run (Spec.state_of (Upload.process_command_line w
                                       (Upload.initial_state w))) = false
  /\ Upload.skip_upload (Spec.state_of (Upload.process_command_line w
                                          (Upload.initial_state w))) = false.
Proof.
  intros w. apply (X12_posixly_correct w "release" ["--dry-run"]); reflexivity.
Defined.

(** ** Whole runs *)

Lemma main_reaches_loop (w : Upload.World) (opts : list (string * string))
      (args : list string) (X Y Z suf : string) (l : list string) :
  Spec.parsed w = inl (opts, args) ->
  Spec.has_opt Spec.help_opt opts = false ->
  Spec.chdir_fine w args = true ->
  Spec.candidates w args = Spec.archive_name X Y Z suf :: l ->
  Py.digits X = true -> Py.digits Y = true -> Py.digits Z = true ->
  Spec.prerelease suf ->
  let dir := Spec.target_dir X (X ++ "." ++ Y) in
  Upload.run w
  = Spec.prepend (Spec.before_loop w opts args dir)
      (Upload.for_each
         (Py.glob (Upload.listdir w (Spec.start_dir w args)) "adodb-*")
         (Upload.update_file_info w (Upload.sf_api_url dir))
         (Spec.after_command_line w opts args)).
Proof.
  intros Hp Hh Hc Hcand HX HY HZ Hsuf dir.
  pose proof (process_command_line_all w opts args Hp Hh) as Hpcl.
  rewrite Hc in Hpcl.
  set (st1 := Spec.after_command_line w opts args) in *.
  assert (Hwd : Upload.workdir st1 = Spec.start_dir w args).
  { unfold st1, Spec.after_command_line. cbn [Upload.workdir]. now rewrite Hc. }
  assert (Hg : Py.glob (Upload.listdir w (Upload.workdir st1)) "adodb-*.zip"
               = Spec.archive_name X Y Z suf :: l).
  { rewrite Hwd. exact Hcand. }
  pose proof (get_release_version_archive w st1 X Y Z suf l Hg HX HY HZ Hsuf) as Hv.
  pose proof (target_dir_triple X Y Z "" HX HY HZ (or_introl eq_refl)) as Hdir.
  rewrite sapp_nil_r in Hdir. fold dir in Hdir.
  assert (Hmeta :
            Upload.set_sourceforge_file_info w st1
            = Spec.prepend [Upload.Print "Updating uploaded files information"]
                (Upload.for_each
                   (Py.glob (Upload.listdir w (Spec.start_dir w args)) "adodb-*")
                   (Upload.update_file_info w (Upload.sf_api_url dir)) st1)).
  { unfold Upload.set_sourceforge_file_info.
    rewrite bind_print_run, (bind_ret_run _ _ _ _ _ _ Hv), prepend_nil, Hdir.
    erewrite bind_ret_run by reflexivity. rewrite prepend_nil.
    erewrite (bind_ret_run (Upload.glob w "adodb-*")) by reflexivity.
    now rewrite prepend_nil, Hwd. }
  unfold Upload.run, Upload.main. rewrite bind_print_run.
  rewrite (bind_ret_run _ _ _ _ _ _ Hpcl), bind_get_run.
  replace (Upload.skip_upload st1) with (Spec.has_opt Spec.skip_opt opts)
    by reflexivity.
  unfold Spec.before_loop. fold st1.
  destruct (Spec.has_opt Spec.skip_opt opts).
  - rewrite bind_print_run, Hmeta, !prepend_prepend. f_equal.
    cbn [app]. now rewrite <- app_assoc.
  - rewrite (bind_ret_run _ _ _ _ _ _
               (upload_release_files_block w st1 X Y Z suf l Hg HX HY HZ Hsuf)).
    fold dir. rewrite Hmeta, !prepend_prepend. f_equal.
    cbn [app]. now rewrite <- !app_assoc.
Qed.

Lemma option_lines_print (opts : list (string * string)) :
  forallb Upload.is_print (Spec.option_lines opts) = true.
Proof.
  induction opts as [|o opts IH]; [reflexivity|].
  unfold Spec.option_lines in *. cbn [flat_map]. rewrite forallb_app, IH.
  now destruct (Py.str_in _ _).
Qed.

Lemma print_not_request (t : list Upload.event) :
  forallb Upload.is_print t = true -> forallb Spec.not_request t = true.
Proof.
  intros H. rewrite forallb_forall in H |- *. intros e He.
  specialize (H e He). now destruct e.
Qed.

Lemma print_not_spawn (t : list Upload.event) :
  forallb Upload.is_print t = true -> forallb Spec.not_spawn t = true.
Proof.
  intros H. rewrite forallb_forall in H |- *. intros e He.
  specialize (H e He). now destruct e.
Qed.

Lemma transfer_block_quiet (w : Upload.World) (st : Upload.state) (dir : string) :
  forallb Spec.not_request (Spec.transfer_block w st dir) = true.
Proof. unfold Spec.transfer_block. now destruct (Upload.dry_run st). Qed.

Lemma before_loop_quiet (w : Upload.World) (opts : list (string * string))
      (args : list string) (dir : string) :
  forallb Spec.not_request (Spec.before_loop w opts args dir) = true.
Proof.
  unfold Spec.before_loop. cbn [forallb]. rewrite !forallb_app.
  rewrite (print_not_request _ (option_lines_print opts)).
  destruct (Spec.has_opt Spec.skip_opt opts); [reflexivity|].
  now rewrite transfer_block_quiet.
Qed.

Lemma requests_of_app (t1 t2 : list Upload.event) :
  Spec.requests_of (t1 ++ t2) = (Spec.requests_of t1 ++ Spec.requests_of t2)%list.
Proof.
  induction t1 as [|[line | c | r] t1 IH]; cbn [app Spec.requests_of];
    [reflexivity | exact IH | exact IH | now rewrite IH].
Qed.

Lemma requests_of_quiet (t : list Upload.event) :
  forallb Spec.not_request t = true -> Spec.requests_of t = [].
Proof.
  induction t as [|[line | c | r] t IH]; cbn [forallb Spec.requests_of];
    [reflexivity | exact IH | exact IH | discriminate].
Qed.

Lemma requests_of_in (t : list Upload.event) (req : Py.request) :
  In req (Spec.requests_of t) <-> In (Upload.HttpPut req) t.
Proof.
  induction t as [|[line | c | r] t IH]; cbn [Spec.requests_of In].
  - tauto.
  - rewrite IH. split; [now right | now intros [? | ?]].
  - rewrite IH. split; [now right | now intros [? | ?]].
  - rewrite IH. split; intros [H | H]; [left; congruence | now right
                                       | left; congruence | now right].
Qed.

(** *** Runs that stop at the command line *)

Lemma main_help (w : Upload.World) (pre post : list (string * string))
      (h v : string) (args : list string) :
  Spec.parsed w = inl ((pre ++ (h, v) :: post)%list, args) ->
  Spec.has_opt Spec.help_opt pre = false ->
  Py.str_in h Spec.help_opt = true ->
  Upload.run w
  = (Exit 0, Spec.after_opts (Upload.initial_state w) pre,
     (Upload.Print Spec.banner :: Spec.option_lines pre
      ++ [Upload.Print (Spec.usage_line w)])%list).
Proof.
  intros Hp Hpre Hh. unfold Upload.run, Upload.main.
  rewrite bind_print_run.
  assert (Hpcl : Upload.process_command_line w (Upload.initial_state w)
                 = (Exit 0, Spec.after_opts (Upload.initial_state w) pre,
                    (Spec.option_lines pre
                     ++ [Upload.Print (Spec.usage_line w)])%list)).
  { unfold Upload.process_command_line. unfold Spec.parsed in Hp. rewrite Hp.
    rewrite bind_get_run. erewrite bind_ret_run by reflexivity.
    rewrite prepend_nil.
    erewrite bind_exit_run; [reflexivity|].
    change (Upload.mkState _ _ _ _ _ _) with (Upload.initial_state w).
    rewrite (process_options_prefix w pre _ Hpre).
    cbn [Upload.process_options]. rewrite bind_get_run.
    unfold Spec.help_opt in Hh. rewrite Hh. reflexivity. }
  rewrite (bind_exit_run _ _ _ _ _ _ Hpcl). reflexivity.
Qed.

(** X13. Options are processed up to the first help option: the run
    prints the banner, the dry-run notice for each dry-run option before
    it and the usage text, and exits with status 0.  Whatever follows the
    help option has no effect, and the release directory is not
    entered. *)
Theorem X13_help_stops_options (w : Upload.World)
        (pre post : list (string * string)) (h v : string) (args : list string) :
  Spec.parsed w = inl ((pre ++ (h, v) :: post)%list, args) ->
  Spec.has_opt Spec.help_opt pre = false ->
  Py.str_in h Spec.help_opt = true ->
  Upload.run w
  = (Exit 0, Spec.after_opts (Upload.initial_state w) pre,
     (Upload.Print Spec.banner :: Spec.option_lines pre
      ++ [Upload.Print (Spec.usage_line w)])%list).
Proof. exact (main_help w pre post h v args). Qed.

Lemma X13_help_stops_options_witness :
  let w := Spec.example_world ["-n"; "-h"; "-u"; "bob"; "nowhere"] []
             "k" (Spec.always 200) in
  Upload.run w
  = (Exit 0, Upload.mkState true "alice" "" false "/home/alice" 0,
     [Upload.Print Spec.banner; Spec.dry_notice;
      Upload.Print (Spec.usage_line w)]).
Proof.
  intros w.
  apply (X13_help_stops_options w [("-n", "")] [("-u", "bob")] "-h" "" ["nowhere"]);
    reflexivity.
Defined.

Lemma main_chdir_fails (w : Upload.World) (opts : list (string * string))
      (a : string) (args : list string) :
  Spec.parsed w = inl (opts, a :: args) ->
  Spec.has_opt Spec.help_opt opts = false ->
  Upload.chdir_ok w a = false ->
  Upload.run w
  = (Raise OSError, Spec.after_command_line w opts (a :: args),
     Upload.Print Spec.banner :: Spec.option_lines opts).
Proof.
  intros Hp Hh Hc. unfold Upload.run, Upload.main.
  rewrite bind_print_run.
  pose proof (process_command_line_all w opts (a :: args) Hp Hh) as Hpcl.
  cbn [Spec.chdir_fine] in Hpcl. rewrite Hc in Hpcl.
  rewrite (bind_raise_run _ _ _ _ _ _ Hpcl). reflexivity.
Qed.

(** X14. When the release directory given on the command line cannot be
    entered, [os.chdir] raises and nothing catches it: the run ends with
    exit status 1 after the banner and the option notices, with the
    release path already set and the working directory unchanged. *)
Theorem X14_chdir_failure (w : Upload.World) (opts : list (string * string))
        (a : string) (args : list string) :
  Spec.parsed w = inl (opts, a :: args) ->
  Spec.has_opt Spec.help_opt opts = false ->
  Upload.chdir_ok w a = false ->
  Upload.run w
  = (Raise OSError,
     Upload.mkState (Spec.has_opt Spec.dry_opt opts)
                    (Spec.last_user (Upload.getuser w) opts) a
                    (Spec.has_opt Spec.skip_opt opts) (Upload.getcwd w) 0,
     Upload.Print Spec.banner :: Spec.option_lines opts)
  /\ Upload.exit_status w = 1%Z.
Proof.
  intros Hp Hh Hc. pose proof (main_chdir_fails w opts a args Hp Hh Hc) as Hrun.
  unfold Spec.after_command_line in Hrun.
  cbn [Spec.chdir_fine Spec.shown_path] in Hrun. rewrite Hc in Hrun.
  split; [exact Hrun|]. unfold Upload.exit_status. now rewrite Hrun.
Qed.

Lemma X14_chdir_failure_witness :
  let w := Upload.mkWorld ["-n"; "missing"] "scripts/uploadrelease.py" false
             "alice" "/home/alice" (fun _ => false) (fun _ => [])
             "k" (fun _ _ => Upload.NoResponse) Py.req_url in
  Upload.run w
  = (Raise OSError, Upload.mkState true "alice" "missing" false "/home/alice" 0,
     [Upload.Print Spec.banner; Spec.dry_notice])
  /\ Upload.exit_status w = 1%Z.
Proof.
  intros w. apply (X14_chdir_failure w [("-n", "")] "missing" []); reflexivity.
Defined.

(** ** The metadata loop, in full *)

Lemma planned_cons (w : Upload.World) (base f : string) (files : list string) :
  Spec.planned w base (f :: files)
  = (match Upload.defaults_for (snd (Py.splitext f)) with
     | Some tags => [Spec.request_for w base f tags]
     | None => []
     end ++ Spec.planned w base files)%list.
Proof. reflexivity. Qed.

(** When the service accepts every request, the loop sends one request
    for each file with a known extension and returns. *)
Lemma for_each_live_ok (w : Upload.World) (base : string) :
  Spec.service_ok w ->
  forall files st,
    Upload.dry_run st = false ->
    exists st' t,
      Upload.for_each files (Upload.update_file_info w base) st = (Ret tt, st', t)
      /\ Spec.requests_of t = Spec.planned w base files
      /\ forallb Spec.not_spawn t = true.
Proof.
  intros Hok. induction files as [|f files IH]; intros st Hd.
  - exists st, []. now repeat split.
  - rewrite for_each_cons, planned_cons.
    destruct (Upload.defaults_for (snd (Py.splitext f))) as [tags|] eqn:Hx.
    + rewrite (update_live w base f tags st Hx Hd). cbv zeta.
      destruct (Hok (Upload.api_calls st) (Spec.request_for w base f tags))
        as (r & v & Hapi & Hs & He).
      rewrite Hapi, Hs, Z.eqb_refl, He.
      destruct (IH (Spec.bump st) Hd) as (st' & t & Hrun & Hreq & Hsp).
      rewrite Hrun. cbn [Spec.prepend]. do 2 eexists.
      split; [reflexivity|]. split.
      * cbn [app Spec.requests_of Spec.file_line]. now rewrite Hreq.
      * cbn [app forallb Spec.file_line]. exact Hsp.
    + rewrite (update_skip w base f st Hx).
      destruct (IH st Hd) as (st' & t & Hrun & Hreq & Hsp).
      rewrite Hrun. cbn [Spec.prepend]. do 2 eexists.
      split; [reflexivity|]. split.
      * cbn [app Spec.requests_of Spec.file_line Spec.warning_line]. exact Hreq.
      * cbn [app forallb Spec.file_line Spec.warning_line]. exact Hsp.
Qed.

Lemma dry_lines_print (w : Upload.World) (base : string) (files : list string) :
  forallb Upload.is_print (flat_map (Spec.dry_lines w base) files) = true.
Proof.
  induction files as [|f files IH]; [reflexivity|].
  cbn [flat_map]. rewrite forallb_app, IH. unfold Spec.dry_lines.
  now destruct (Upload.defaults_for _).
Qed.

(** Whatever the service answers, the requests the loop sends are the
    first so many of those it has for the files. *)
Lemma loop_requests_prefix (w : Upload.World) (base : string)
      (files : list string) (st : Upload.state) :
  exists rest,
    Spec.planned w base files
    = (Spec.requests_of
         (Spec.events_of (Upload.for_each files (Upload.update_file_info w base) st))
       ++ rest)%list.
Proof.
  destruct (Upload.dry_run st) eqn:Hd.
  { rewrite (for_each_dry w base files st Hd). cbn [Spec.events_of snd].
    rewrite requests_of_quiet; [now eexists|].
    apply print_not_request, dry_lines_print. }
  revert st Hd. induction files as [|f files IH]; intros st Hd.
  - now exists [].
  - rewrite for_each_cons, planned_cons.
    destruct (Upload.defaults_for (snd (Py.splitext f))) as [tags|] eqn:Hx.
    + rewrite (update_live w base f tags st Hx Hd). cbv zeta.
      destruct (IH (Spec.bump st) Hd) as (rest & Hrest).
      destruct (Upload.sf_api w _ _) as [r|].
      * destruct (Upload.status_code r =? Upload.codes_ok)%Z.
        -- destruct (Upload.echoed_default r) as [v | c | e].
           ++ rewrite events_prepend. cbn [app Spec.requests_of Spec.file_line].
              exists rest. now rewrite Hrest.
           ++ now eexists.
           ++ now eexists.
        -- now eexists.
      * now eexists.
    + rewrite (update_skip w base f st Hx), events_prepend.
      cbn [app Spec.requests_of Spec.file_line Spec.warning_line].
      exact (IH st Hd).
Qed.

Lemma endswith_app (a p : string) : Py.endswith p (a ++ p) = true.
Proof.
  unfold Py.endswith. rewrite slength_app.
  replace (String.length a + String.length p - String.length p)%nat
    with (String.length a) by lia.
  rewrite str_drop_app, String.eqb_refl. apply Nat.leb_le. lia.
Qed.

Lemma fnmatch_adodb (f : string) :
  Py.fnmatch "adodb-*" f = true -> Py.startswith "adodb-" f = true.
Proof.
  intros H.
  do 6 (destruct f as [|? f]; cbn [Py.fnmatch] in H; [discriminate|];
        apply andb_true_iff in H as [? H]).
  cbn [Py.startswith].
  repeat match goal with
         | E : (_ =? _)%char = true |- _ =>
             rewrite Ascii.eqb_sym in E; rewrite E; clear E
         end.
  reflexivity.
Qed.

Lemma request_url (w : Upload.World) (dir f : string) (tags : list string) :
  Py.startswith "adodb-" f = true ->
  Py.req_url (Spec.request_for w (Upload.sf_api_url dir) f tags)
  = "https://sourceforge.net/projects/adodb/files/" ++ dir ++ "/" ++ f.
Proof.
  intros Hf. unfold Spec.request_for, Upload.sf_api_url, Py.path_join.
  cbn [Py.req_url].
  assert (Hs : Py.startswith "/" f = false).
  { destruct f as [|c f]; [discriminate|]. cbn [Py.startswith] in Hf |- *.
    apply andb_true_iff in Hf as [Hc _]. apply Ascii.eqb_eq in Hc. now subst c. }
  rewrite Hs.
  replace ("https://sourceforge.net/projects/adodb/files/" ++ dir ++ "/")
    with (("https://sourceforge.net/projects/adodb/files/" ++ dir) ++ "/")
    by now rewrite sapp_assoc.
  rewrite endswith_app, orb_true_r. now rewrite !sapp_assoc.
Qed.

(** X15. Outside dry-run mode, when the release directory can be entered
    and its first release archive is [adodb-X.Y.Z.zip], and the service
    accepts every request, the run ends with exit status 0 after sending
    exactly one request for each file matching [adodb-*] that has a known
    extension, in the order of the directory listing. *)
Theorem X15_live_run_succeeds (w : Upload.World) (opts : list (string * string))
        (args : list string) (X Y Z suf : string) (l : list string) :
  Spec.parsed w = inl (opts, args) ->
  Spec.has_opt Spec.help_opt opts = false ->
  Spec.has_opt Spec.dry_opt opts = false ->
  Spec.chdir_fine w args = true ->
  Spec.candidates w args = Spec.archive_name X Y Z suf :: l ->
  Py.digits X = true -> Py.digits Y = true -> Py.digits Z = true ->
  Spec.prerelease suf ->
  Spec.service_ok w ->
  Upload.exit_status w = 0%Z
  /\ Spec.requests_of (Upload.trace w)
     = Spec.planned w (Upload.sf_api_url (Spec.target_dir X (X ++ "." ++ Y)))
         (Py.glob (Upload.listdir w (Spec.start_dir w args)) "adodb-*").
Proof.
  intros Hp Hh Hd Hc Hcand HX HY HZ Hsuf Hok.
  pose proof (main_reaches_loop w opts args X Y Z suf l
                Hp Hh Hc Hcand HX HY HZ Hsuf) as Hrun.
  cbv zeta in Hrun.
  destruct (for_each_live_ok w
              (Upload.sf_api_url (Spec.target_dir X (X ++ "." ++ Y))) Hok
              (Py.glob (Upload.listdir w (Spec.start_dir w args)) "adodb-*")
              (Spec.after_command_line w opts args) Hd)
    as (st' & t & Hloop & Hreq & _).
  rewrite Hloop in Hrun. unfold Upload.exit_status, Upload.trace.
  rewrite Hrun. cbn [Spec.prepend fst snd]. split; [reflexivity|].
  rewrite requests_of_app, Hreq.
  now rewrite (requests_of_quiet _ (before_loop_quiet w opts args _)).
Qed.

Lemma X15_live_run_succeeds_witness :
  let w := Spec.example_world ["release"]
             ["adodb-5.22.7.tar.gz"; "notes.txt"; "adodb-5.22.7.zip"; "adodb-5.22.7.sig"]
             "k" (Spec.always 200) in
  let base := Upload.sf_api_url "adodb-php5-only/adodb-5.22" in
  Upload.exit_status w = 0%Z
  /\ Spec.requests_of (Upload.trace w)
     = [Spec.request_for w base "adodb-5.22.7.tar.gz"
          ["linux"; "mac"; "bsd"; "solaris"; "others"];
        Spec.request_for w base "adodb-5.22.7.zip" ["windows"]].
Proof.
  intros w base.
  apply (X15_live_run_succeeds w [] ["release"] "5" "22" "7" "" []);
    try reflexivity; [now left|].
  intros n req. do 2 eexists. repeat split.
Defined.

(** X16. In dry-run mode, when the release directory can be entered and
    its first release archive is [adodb-X.Y.Z.zip], the run returns with
    the state the command line left.  After what precedes the loop it
    prints, for every file matching [adodb-*] in the order of the
    directory listing, the file's line followed by the URL of its request
    or by the warning about its extension: no file is left out. *)
Theorem X16_dry_run_complete (w : Upload.World) (opts : list (string * string))
        (args : list string) (X Y Z suf : string) (l : list string) :
  Spec.parsed w = inl (opts, args) ->
  Spec.has_opt Spec.help_opt opts = false ->
  Spec.has_opt Spec.dry_opt opts = true ->
  Spec.chdir_fine w args = true ->
  Spec.candidates w args = Spec.archive_name X Y Z suf :: l ->
  Py.digits X = true -> Py.digits Y = true -> Py.digits Z = true ->
  Spec.prerelease suf ->
  let dir := Spec.target_dir X (X ++ "." ++ Y) in
  Upload.run w
  = (Ret tt, Spec.after_command_line w opts args,
     (Spec.before_loop w opts args dir
      ++ flat_map (Spec.dry_lines w (Upload.sf_api_url dir))
           (Py.glob (Upload.listdir w (Spec.start_dir w args)) "adodb-*"))%list).
Proof.
  intros Hp Hh Hd Hc Hcand HX HY HZ Hsuf dir.
  rewrite (main_reaches_loop w opts args X Y Z suf l Hp Hh Hc Hcand HX HY HZ Hsuf).
  cbv zeta. fold dir.
  now rewrite (for_each_dry w (Upload.sf_api_url dir)
                 (Py.glob (Upload.listdir w (Spec.start_dir w args)) "adodb-*")
                 (Spec.after_command_line w opts args) Hd).
Qed.

Lemma X16_dry_run_complete_witness :
  let w := Spec.example_world ["-n"; "-s"]
             ["adodb-5.22.7.zip"; "adodb-5.22.7.sig"] "k" (Spec.always 401) in
  Upload.run w
  = (Ret tt, Upload.mkState true "alice" "/home/alice" true "/home/alice" 0,
     [Upload.Print Spec.banner; Spec.dry_notice;
      Upload.Print "Skipping upload of release files";
      Upload.Print "Updating uploaded files information";
      Upload.Print "  adodb-5.22.7.zip";
      Upload.Print
        "    Calling SourceForge Release API: https://sourceforge.net/projects/adodb/files/adodb-php5-only/adodb-5.22/adodb-5.22.7.zip?default=windows&api_key=k";
      Upload.Print "  adodb-5.22.7.sig";
      Upload.Print "WARNING: Unknown extension for file adodb-5.22.7.sig"]).
Proof.
  intros w.
  apply (X16_dry_run_complete w [("-n", ""); ("-s", "")] [] "5" "22" "7" "" []);
    try reflexivity. now left.
Defined.

(** X17. When the release directory can be entered and its first release
    archive is [adodb-X.Y.Z.zip], the requests a run sends are, in order,
    the first so many of the requests for the files matching [adodb-*]
    that have a known extension: none is sent twice, out of order, or
    after one for a later file. *)
Theorem X17_requests_in_order (w : Upload.World) (opts : list (string * string))
        (args : list string) (X Y Z suf : string) (l : list string) :
  Spec.parsed w = inl (opts, args) ->
  Spec.has_opt Spec.help_opt opts = false ->
  Spec.chdir_fine w args = true ->
  Spec.candidates w args = Spec.archive_name X Y Z suf :: l ->
  Py.digits X = true -> Py.digits Y = true -> Py.digits Z = true ->
  Spec.prerelease suf ->
  exists rest,
    Spec.planned w (Upload.sf_api_url (Spec.target_dir X (X ++ "." ++ Y)))
      (Py.glob (Upload.listdir w (Spec.start_dir w args)) "adodb-*")
    = (Spec.requests_of (Upload.trace w) ++ rest)%list.
Proof.
  intros Hp Hh Hc Hcand HX HY HZ Hsuf.
  pose proof (main_reaches_loop w opts args X Y Z suf l
                Hp Hh Hc Hcand HX HY HZ Hsuf) as Hrun.
  cbv zeta in Hrun. unfold Upload.trace. rewrite Hrun.
  change (snd ?r) with (Spec.events_of r).
  rewrite events_prepend, requests_of_app.
  rewrite (requests_of_quiet _ (before_loop_quiet w opts args _)).
  apply loop_requests_prefix.
Qed.

Lemma X17_requests_in_order_witness :
  let w := Spec.example_world []
             ["adodb-5.22.7.zip"; "adodb-5.22.7.tar.gz"; "adodb-5.22.7-rc.1.zip"] "k"
             (fun n => Spec.answer_status (if (n =? 0)%nat then 200 else 500)) in
  let base := Upload.sf_api_url "adodb-php5-only/adodb-5.22" in
  exists rest,
    [Spec.request_for w base "adodb-5.22.7.zip" ["windows"];
     Spec.request_for w base "adodb-5.22.7.tar.gz"
       ["linux"; "mac"; "bsd"; "solaris"; "others"];
     Spec.request_for w base "adodb-5.22.7-rc.1.zip" ["windows"]]
    = (Spec.requests_of (Upload.trace w) ++ rest)%list.
Proof.
  intros w base.
  apply (X17_requests_in_order w [] [] "5" "22" "7" ""
           ["adodb-5.22.7-rc.1.zip"]); try reflexivity. now left.
Defined.

(** X18. When the release directory can be entered and its first release
    archive is [adodb-X.Y.Z.zip], every request a run sends is a PUT for a
    name of the directory listing that starts with [adodb-], and its URL
    is the API base, the target directory of that first archive, a slash
    and the name. *)
Theorem X18_request_urls (w : Upload.World) (opts : list (string * string))
        (args : list string) (X Y Z suf : string) (l : list string)
        (req : Py.request) :
  Spec.parsed w = inl (opts, args) ->
  Spec.has_opt Spec.help_opt opts = false ->
  Spec.chdir_fine w args = true ->
  Spec.candidates w args = Spec.archive_name X Y Z suf :: l ->
  Py.digits X = true -> Py.digits Y = true -> Py.digits Z = true ->
  Spec.prerelease suf ->
  In (Upload.HttpPut req) (Upload.trace w) ->
  exists file,
    In file (Upload.listdir w (Spec.start_dir w args))
    /\ Py.startswith "adodb-" file = true
    /\ Py.req_method req = "PUT"
    /\ Py.req_url req
       = "https://sourceforge.net/projects/adodb/files/"
         ++ Spec.target_dir X (X ++ "." ++ Y) ++ "/" ++ file.
Proof.
  intros Hp Hh Hc Hcand HX HY HZ Hsuf Hin.
  pose proof (main_reaches_loop w opts args X Y Z suf l
                Hp Hh Hc Hcand HX HY HZ Hsuf) as Hrun.
  cbv zeta in Hrun.
  destruct (loop_requests_prefix w
              (Upload.sf_api_url (Spec.target_dir X (X ++ "." ++ Y)))
              (Py.glob (Upload.listdir w (Spec.start_dir w args)) "adodb-*")
              (Spec.after_command_line w opts args)) as (rest & Hrest).
  apply requests_of_in in Hin. unfold Upload.trace in Hin. rewrite Hrun in Hin.
  change (snd ?r) with (Spec.events_of r) in Hin.
  rewrite events_prepend, requests_of_app in Hin.
  rewrite (requests_of_quiet _ (before_loop_quiet w opts args _)) in Hin.
  cbn [app] in Hin.
  assert (Hplanned : In req (Spec.planned w
                       (Upload.sf_api_url (Spec.target_dir X (X ++ "." ++ Y)))
                       (Py.glob (Upload.listdir w (Spec.start_dir w args)) "adodb-*"))).
  { rewrite Hrest. apply in_or_app. now left. }
  unfold Spec.planned in Hplanned.
  apply in_flat_map in Hplanned as (file & Hfile & Hreq).
  destruct (Upload.defaults_for _) as [tags|]; [|destruct Hreq].
  destruct Hreq as [<- | []].
  pose proof (fnmatch_adodb file (glob_matches _ _ _ Hfile)) as Hstart.
  exists file. split; [exact (glob_listed _ _ _ Hfile)|].
  split; [exact Hstart|]. split; [reflexivity|].
  now apply request_url.
Qed.

Lemma X18_request_urls_witness :
  let w := Spec.example_world ["-s"]
             ["adodb-7.3.1-beta.2.zip"] "k" (Spec.always 401) in
  exists file,
    In file ["adodb-7.3.1-beta.2.zip"]
    /\ Py.startswith "adodb-" file = true
    /\ Py.req_method (Spec.request_for w (Upload.sf_api_url "adodb7/adodb-7.3")
                        "adodb-7.3.1-beta.2.zip" ["windows"]) = "PUT"
    /\ Py.req_url (Spec.request_for w (Upload.sf_api_url "adodb7/adodb-7.3")
                     "adodb-7.3.1-beta.2.zip" ["windows"])
       = "https://sourceforge.net/projects/adodb/files/adodb7/adodb-7.3/" ++ file.
Proof.
  intros w.
  apply (X18_request_urls w [("-s", "")] [] "7" "3" "1" "-beta.2" []
           (Spec.request_for w (Upload.sf_api_url "adodb7/adodb-7.3")
              "adodb-7.3.1-beta.2.zip" ["windows"])).
  1-7: reflexivity.
  - right. exists "beta", "2". repeat split. right. now left.
  - vm_compute. do 4 right. left. reflexivity.
Defined.

(** ** The order of the stages *)

Ltac walk :=
  lazymatch goal with
  | |- Spec.pres _ _ (Upload.ret _) => apply pres_ret
  | |- Spec.pres _ _ (Upload.lift _) => apply pres_lift
  | |- Spec.pres _ _ (Upload.sys_exit _) => apply pres_lift
  | |- Spec.pres _ _ (Upload.raise _) => apply pres_lift
  | |- Spec.pres _ _ (Upload.print _) => apply pres_emit; reflexivity
  | |- Spec.pres _ _ (Upload.bind Upload.get _) => apply pres_bind_get; intros ? ?
  | |- Spec.pres _ _ (Upload.bind _ _) => apply pres_bind; [|intros ?]
  end.

Lemma anything_stable : Spec.flag_stable Spec.anything.
Proof. now intros s d u r k wd _ _. Qed.

Lemma no_spawn_requests_put (w : Upload.World) (url : string)
      (hdrs : list (string * string)) (params : list (string * Py.param)) :
  Spec.pres Spec.anything Spec.not_spawn (Upload.requests_put w url hdrs params).
Proof.
  intros st _. unfold Upload.requests_put.
  destruct (Upload.sf_api w _ _); now split.
Qed.

Lemma no_spawn_update_file_info (w : Upload.World) (base file : string) :
  Spec.pres Spec.anything Spec.not_spawn (Upload.update_file_info w base file).
Proof.
  unfold Upload.update_file_info. walk; [walk|].
  destruct (Upload.defaults_for _); [|repeat walk].
  walk. destruct (Upload.dry_run s); [repeat walk|].
  walk; [apply no_spawn_requests_put|].
  match goal with
  | |- context [(Upload.status_code ?r =? _)%Z] =>
      destruct (Upload.status_code r =? Upload.codes_ok)%Z
  end; repeat walk.
Qed.

Lemma no_spawn_metadata (w : Upload.World) :
  Spec.pres Spec.anything Spec.not_spawn (Upload.set_sourceforge_file_info w).
Proof.
  unfold Upload.set_sourceforge_file_info. walk; [walk|].
  walk; [apply pres_get_release_version; reflexivity|].
  walk; [walk|]. walk; [apply pres_glob|].
  apply pres_for_each. intros x. apply no_spawn_update_file_info.
Qed.

Lemma no_spawn_command_line (w : Upload.World) :
  Spec.pres Spec.anything Spec.not_spawn (Upload.process_command_line w).
Proof.
  apply pres_process_command_line;
    first [apply anything_stable | reflexivity | intros; reflexivity].
Qed.

Lemma no_request_command_line (w : Upload.World) :
  Spec.pres Spec.anything Spec.not_request (Upload.process_command_line w).
Proof.
  apply pres_process_command_line;
    first [apply anything_stable | reflexivity | intros; reflexivity].
Qed.

Lemma no_request_upload (w : Upload.World) :
  Spec.pres Spec.anything Spec.not_request (Upload.upload_release_files w).
Proof.
  apply pres_upload_release_files;
    first [apply anything_stable | reflexivity | intros; reflexivity].
Qed.

Lemma staged_prepend (T t : list Upload.event) :
  forallb Spec.not_request T = true -> Spec.staged t -> Spec.staged (T ++ t).
Proof.
  intros HT (t1 & t2 & -> & H1 & H2). exists (T ++ t1)%list, t2.
  split; [now rewrite app_assoc|]. split; [|exact H2].
  now rewrite forallb_app, HT, H1.
Qed.

Lemma staged_quiet (t : list Upload.event) :
  forallb Spec.not_request t = true -> Spec.staged t.
Proof. intros H. exists t, []. now rewrite app_nil_r. Qed.

Lemma staged_bind {A B} (m : Upload.M A) (k : A -> Upload.M B) (st : Upload.state) :
  Spec.pres Spec.anything Spec.not_request m ->
  (forall a st1, Spec.staged (Spec.events_of (k a st1))) ->
  Spec.staged (Spec.events_of (Upload.bind m k st)).
Proof.
  intros Hm Hk. destruct (Hm st Logic.I) as [_ Ht1].
  destruct (m st) as [[o st1] t1] eqn:Hr. cbn in Ht1.
  destruct o as [a | c | e].
  - rewrite (bind_ret_run _ _ _ _ _ _ Hr), events_prepend.
    now apply staged_prepend.
  - rewrite (bind_exit_run _ _ _ _ _ _ Hr). now apply staged_quiet.
  - rewrite (bind_raise_run _ _ _ _ _ _ Hr). now apply staged_quiet.
Qed.

Lemma main_staged (w : Upload.World) : Spec.staged (Upload.trace w).
Proof.
  unfold Upload.trace, Upload.run, Upload.main.
  change (snd ?r) with (Spec.events_of r).
  apply staged_bind; [now apply pres_emit|]. intros _ st1.
  apply staged_bind; [apply no_request_command_line|]. intros _ st2.
  rewrite bind_get_run.
  apply staged_bind.
  { destruct (Upload.skip_upload st2);
      [now apply pres_emit | apply no_request_upload]. }
  intros _ st3. exists [], (Spec.events_of (Upload.set_sourceforge_file_info w st3)).
  split; [reflexivity|]. split; [reflexivity|].
  exact (proj2 (no_spawn_metadata w st3 Logic.I)).
Qed.

(** *** How many processes *)

Lemma count_spawns_app (t1 t2 : list Upload.event) :
  Spec.count_spawns (t1 ++ t2)
  = (Spec.count_spawns t1 + Spec.count_spawns t2)%nat.
Proof. unfold Spec.count_spawns. now rewrite filter_app, length_app. Qed.

Lemma count_spawns_none (t : list Upload.event) :
  forallb Spec.not_spawn t = true -> Spec.count_spawns t = 0%nat.
Proof.
  unfold Spec.count_spawns.
  induction t as [|e t IH]; cbn [forallb filter]; [reflexivity|].
  intros H. apply andb_true_iff in H as [He Ht].
  unfold Spec.not_spawn in He. apply negb_true_iff in He. rewrite He. auto.
Qed.

Lemma count_spawns_bind {A B} (m : Upload.M A) (k : A -> Upload.M B)
      (st : Upload.state) (a b : nat) :
  (Spec.count_spawns (Spec.events_of (m st)) <= a)%nat ->
  (forall x st1, Spec.count_spawns (Spec.events_of (k x st1)) <= b)%nat ->
  (Spec.count_spawns (Spec.events_of (Upload.bind m k st)) <= a + b)%nat.
Proof.
  intros Hm Hk. destruct (m st) as [[o st1] t1] eqn:Hr.
  cbn [Spec.events_of snd] in Hm.
  destruct o as [x | c | e].
  - rewrite (bind_ret_run _ _ _ _ _ _ Hr), events_prepend, count_spawns_app.
    specialize (Hk x st1). lia.
  - rewrite (bind_exit_run _ _ _ _ _ _ Hr). cbn [Spec.events_of snd]. lia.
  - rewrite (bind_raise_run _ _ _ _ _ _ Hr). cbn [Spec.events_of snd]. lia.
Qed.

Lemma upload_spawns (w : Upload.World) (st : Upload.state) :
  (Spec.count_spawns (Spec.events_of (Upload.upload_release_files w st)) <= 2)%nat.
Proof.
  pose proof (version_resolution w st) as Hv.
  destruct (Py.glob _ _) as [|z l] eqn:Hg.
  - unfold Upload.upload_release_files.
    rewrite (bind_exit_run _ _ _ _ _ _ Hv). cbn. lia.
  - destruct Hv as [(X & Y & Z & suf & HX & HY & HZ & Hsuf & -> & _) | [_ Hv]].
    + rewrite (upload_release_files_block w st X Y Z suf l Hg HX HY HZ Hsuf).
      unfold Spec.transfer_block. cbn [Spec.events_of snd].
      destruct (Upload.dry_run st); cbn; lia.
    + unfold Upload.upload_release_files.
      rewrite (bind_exit_run _ _ _ _ _ _ Hv). cbn. lia.
Qed.

Lemma main_spawns (w : Upload.World) :
  (Spec.count_spawns (Upload.trace w) <= 2)%nat.
Proof.
  unfold Upload.trace, Upload.run, Upload.main.
  change (snd ?r) with (Spec.events_of r).
  apply (count_spawns_bind _ _ _ 0 2); [cbn; lia|]. intros _ st1.
  apply (count_spawns_bind _ _ _ 0 2).
  { rewrite count_spawns_none; [lia|].
    exact (proj2 (no_spawn_command_line w st1 Logic.I)). }
  intros _ st2. rewrite bind_get_run.
  apply (count_spawns_bind _ _ _ 2 0).
  { destruct (Upload.skip_upload st2); [cbn; lia | apply upload_spawns]. }
  intros _ st3. rewrite count_spawns_none; [lia|].
  exact (proj2 (no_spawn_metadata w st3 Logic.I)).
Qed.

Lemma main_skip_no_spawn (w : Upload.World) (opts : list (string * string))
      (args : list string) :
  Spec.parsed w = inl (opts, args) ->
  Spec.has_opt Spec.skip_opt opts = true ->
  forallb Spec.not_spawn (Upload.trace w) = true.
Proof.
  intros Hp Hs. unfold Upload.trace, Upload.run, Upload.main.
  change (snd ?r) with (Spec.events_of r).
  rewrite bind_print_run, events_prepend. cbn [app forallb Spec.not_spawn
    Spec.is_spawn negb andb].
  destruct (Spec.has_opt Spec.help_opt opts) eqn:Hh.
  - destruct (process_command_line_help w opts args Hp Hh) as (st' & t & Hrun & Ht).
    rewrite (bind_exit_run _ _ _ _ _ _ Hrun). cbn [Spec.events_of snd].
    apply print_not_spawn. now rewrite forallb_app, Ht.
  - pose proof (process_command_line_all w opts args Hp Hh) as Hpcl.
    pose proof (print_not_spawn _ (option_lines_print opts)) as Hq.
    destruct (Spec.chdir_fine w args).
    + rewrite (bind_ret_run _ _ _ _ _ _ Hpcl), events_prepend, forallb_app, Hq.
      rewrite bind_get_run. unfold Spec.after_command_line at 1.
      cbn [Upload.skip_upload]. rewrite Hs, bind_print_run, events_prepend.
      cbn [app forallb Spec.not_spawn Spec.is_spawn negb andb].
      exact (proj2 (no_spawn_metadata w _ Logic.I)).
    + now rewrite (bind_raise_run _ _ _ _ _ _ Hpcl).
Qed.

(** X19. With a skip-upload option on the command line, no run spawns a
    process, however it ends. *)
Theorem X19_skip_upload_spawns_nothing (w : Upload.World)
        (opts : list (string * string)) (args : list string) :
  Spec.parsed w = inl (opts, args) ->
  Spec.has_opt Spec.skip_opt opts = true ->
  forallb Spec.not_spawn (Upload.trace w) = true.
Proof. exact (main_skip_no_spawn w opts args). Qed.

Lemma X19_skip_upload_spawns_nothing_witness :
  let w := Spec.example_world ["--skip-upload"]
             ["adodb-5.22.7.zip"; "adodb-5.22.7.tar.gz"] "k" (Spec.always 200) in
  forallb Spec.not_spawn (Upload.trace w) = true
  /\ Spec.count_requests (Upload.trace w) = 2%nat.
Proof.
  intros w. split; [|reflexivity].
  apply (X19_skip_upload_spawns_nothing w [("--skip-upload", "")] []); reflexivity.
Defined.

(** X20. In every run the transfer comes before the metadata update:
    the events split into a first part without any request and a second
    part without any process.  At most two processes are spawned. *)
Theorem X20_stage_order (w : Upload.World) :
  Spec.staged (Upload.trace w)
  /\ (Spec.count_spawns (Upload.trace w) <= 2)%nat.
Proof. split; [apply main_staged | apply main_spawns]. Qed.

(** ** Requests that go wrong *)

Lemma loop_crash_stop_at (w : Upload.World) (base : string) (files : list string)
        (st : Upload.state) (t1 t2 : list Upload.event) (req : Py.request) :
  Upload.dry_run st = false ->
  Spec.events_of (Upload.for_each files (Upload.update_file_info w base) st)
  = (t1 ++ Upload.HttpPut req :: t2)%list ->
  match Upload.sf_api w (Upload.api_calls st + Spec.count_requests t1) req with
  | Upload.Responded resp =>
      Upload.status_code resp = Upload.codes_ok ->
      forall e, Upload.echoed_default resp = Raise e ->
                t2 = []
                /\ Spec.outcome_of
                     (Upload.for_each files (Upload.update_file_info w base) st)
                   = Raise e
  | Upload.NoResponse =>
      t2 = []
      /\ Spec.outcome_of
           (Upload.for_each files (Upload.update_file_info w base) st)
         = Raise RequestException
  end.
Proof.
  revert st t1. induction files as [|f files IH]; intros st t1 Hd H.
  { cbn in H. now apply no_request_in_nil in H. }
  rewrite for_each_cons in H |- *.
  destruct (Upload.defaults_for (snd (Py.splitext f))) as [tags|] eqn:Hx.
  2:{ rewrite update_skip in H |- * by assumption.
      rewrite events_prepend in H. rewrite outcome_prepend. cbn [app] in H.
      apply split_after_print in H as (t1' & -> & H).
      apply split_after_print in H as (t1'' & -> & H).
      exact (IH st t1'' Hd H). }
  rewrite (update_live w base f tags st Hx Hd) in H |- *. cbv zeta in H |- *.
  assert (Hcount : forall t1' line,
             (Upload.api_calls st
              + Spec.count_requests
                  (Spec.file_line f
                     :: Upload.HttpPut (Spec.request_for w base f tags)
                     :: Upload.Print line :: t1'))%nat
             = (Upload.api_calls (Spec.bump st) + Spec.count_requests t1')%nat).
  { intros t1' line. unfold Spec.count_requests.
    cbn [filter Upload.is_request Spec.file_line length Spec.bump Upload.api_calls].
    lia. }
  destruct (Upload.sf_api w (Upload.api_calls st) _) as [r|] eqn:Hapi.
  - destruct (Upload.status_code r =? Upload.codes_ok)%Z eqn:Hok.
    + destruct (Upload.echoed_default r) as [v | c | e] eqn:He.
      * rewrite events_prepend in H. rewrite outcome_prepend. cbn [app] in H.
        apply split_after_print in H as (t1' & -> & H).
        apply split_at_request in H as [(-> & -> & ->) | (t1'' & -> & H)].
        -- cbn. rewrite Nat.add_0_r, Hapi. intros _ e' He'. congruence.
        -- apply split_after_print in H as (t1''' & -> & H).
           rewrite Hcount. exact (IH (Spec.bump st) t1''' Hd H).
      * cbn in H. apply split_after_print in H as (t1' & -> & H).
        apply split_at_request in H as [(-> & -> & ->) | (t1'' & -> & H)].
        -- cbn. rewrite Nat.add_0_r, Hapi. intros _ e' He'. congruence.
        -- now apply no_request_in_nil in H.
      * cbn in H. apply split_after_print in H as (t1' & -> & H).
        apply split_at_request in H as [(-> & -> & ->) | (t1'' & -> & H)].
        -- cbn. rewrite Nat.add_0_r, Hapi. intros _ e' He'.
           rewrite He in He'. injection He' as <-. now split.
        -- now apply no_request_in_nil in H.
    + cbn in H. apply split_after_print in H as (t1' & -> & H).
      apply split_at_request in H as [(-> & -> & ->) | (t1'' & -> & H)].
      * cbn. rewrite Nat.add_0_r, Hapi. intros Hs. rewrite Hs in Hok.
        now rewrite Z.eqb_refl in Hok.
      * apply split_after_print in H as (t1''' & -> & H).
        now apply no_request_in_nil in H.
  - cbn in H. apply split_after_print in H as (t1' & -> & H).
    apply split_at_request in H as [(-> & -> & ->) | (t1'' & -> & H)].
    + cbn. rewrite Nat.add_0_r, Hapi. now split.
    + now apply no_request_in_nil in H.
Qed.

Lemma loop_crash_stop (w : Upload.World) (base : string) (files : list string)
      (st : Upload.state) :
  Spec.crash_stop w (Upload.api_calls st)
    (Upload.for_each files (Upload.update_file_info w base) st).
Proof.
  destruct (Upload.dry_run st) eqn:Hd.
  - rewrite for_each_dry by exact Hd. intros t1 req t2 H. exfalso.
    cbn [Spec.events_of snd] in H.
    pose proof (print_not_request _ (dry_lines_print w base files)) as Hq.
    rewrite H, forallb_app in Hq. apply andb_true_iff in Hq as [_ Hq].
    discriminate.
  - intros t1 req t2 H. now apply loop_crash_stop_at.
Qed.

Lemma crash_stop_quiet (w : Upload.World) (n : nat)
      (r : outcome unit * Upload.state * list Upload.event) :
  forallb Spec.not_request (Spec.events_of r) = true -> Spec.crash_stop w n r.
Proof.
  intros Hq t1 req t2 H. exfalso. rewrite H, forallb_app in Hq.
  apply andb_true_iff in Hq as [_ Hq]. discriminate.
Qed.

Lemma crash_stop_prepend (w : Upload.World) (n : nat) (T : list Upload.event)
      (r : outcome unit * Upload.state * list Upload.event) :
  forallb Spec.not_request T = true ->
  Spec.crash_stop w n r -> Spec.crash_stop w n (Spec.prepend T r).
Proof.
  intros HT Hr t1 req t2 H. rewrite events_prepend in H.
  destruct (forallb_not_request_split T _ t1 t2 req HT H) as (t1' & -> & HL & Hc).
  rewrite Hc, outcome_prepend. exact (Hr t1' req t2 HL).
Qed.

Lemma crash_stop_bind {A} (w : Upload.World) (n : nat) (m : Upload.M A)
      (k : A -> Upload.M unit) (st : Upload.state) :
  Spec.pres (fun s => Upload.api_calls s = n) Spec.not_request m ->
  Upload.api_calls st = n ->
  (forall a st1, Upload.api_calls st1 = n -> Spec.crash_stop w n (k a st1)) ->
  Spec.crash_stop w n (Upload.bind m k st).
Proof.
  intros Hm Hst Hk. destruct (Hm st Hst) as [Hs1 Ht1].
  destruct (m st) as [[o st1] t1] eqn:Hr. cbn in Hs1, Ht1.
  destruct o as [a | c | e].
  - rewrite (bind_ret_run _ _ _ _ _ _ Hr). apply crash_stop_prepend; auto.
  - rewrite (bind_exit_run _ _ _ _ _ _ Hr). now apply crash_stop_quiet.
  - rewrite (bind_raise_run _ _ _ _ _ _ Hr). now apply crash_stop_quiet.
Qed.

Lemma main_crash_stop (w : Upload.World) : Spec.crash_stop w 0 (Upload.run w).
Proof.
  unfold Upload.run, Upload.main.
  apply crash_stop_bind; [now apply pres_emit | reflexivity |].
  intros _ st1 H1.
  apply crash_stop_bind; [apply pres_process_command_line; calm | exact H1 |].
  intros _ st2 H2. rewrite bind_get_run.
  apply crash_stop_bind; [| exact H2 |].
  { destruct (Upload.skip_upload st2); [now apply pres_emit|].
    apply pres_upload_release_files; calm. }
  intros _ st3 H3. unfold Upload.set_sourceforge_file_info.
  apply crash_stop_bind; [now apply pres_emit | exact H3 |].
  intros _ st4 H4.
  apply crash_stop_bind; [apply pres_get_release_version; calm | exact H4 |].
  intros version st5 H5.
  apply crash_stop_bind; [apply pres_lift | exact H5 |].
  intros dir st6 H6.
  apply crash_stop_bind; [apply pres_glob | exact H6 |].
  intros files st7 H7. rewrite <- H7. apply loop_crash_stop.
Qed.

(** X21. Take any request a run sends.  If the service does not answer
    it, or answers with the success status and a body without the echoed
    tags, the request is the last event of the run, and the exception
    raised ends the run with exit status 1: no later file gets a
    request. *)
Theorem X21_request_failure_aborts (w : Upload.World)
        (t1 t2 : list Upload.event) (req : Py.request) :
  Upload.trace w = (t1 ++ Upload.HttpPut req :: t2)%list ->
  match Upload.sf_api w (Spec.count_requests t1) req with
  | Upload.Responded resp =>
      Upload.status_code resp = Upload.codes_ok ->
      forall e, Upload.echoed_default resp = Raise e ->
                t2 = [] /\ Upload.exit_status w = 1%Z
  | Upload.NoResponse => t2 = [] /\ Upload.exit_status w = 1%Z
  end.
Proof.
  intros H. pose proof (main_crash_stop w t1 req t2 H) as Hcs.
  cbn [Nat.add] in Hcs. unfold Upload.exit_status.
  destruct (Upload.sf_api w _ req) as [r|].
  - intros Hs e He. destruct (Hcs Hs e He) as [Ht2 Ho].
    unfold Spec.outcome_of in Ho. now rewrite Ho.
  - destruct Hcs as [Ht2 Ho]. unfold Spec.outcome_of in Ho. now rewrite Ho.
Qed.

Lemma X21_request_failure_aborts_witness :
  let w := Spec.example_world ["-s"]
             ["adodb-5.22.7.zip"; "adodb-5.22.7.tar.gz"] "k"
             (fun n => Upload.Responded (Upload.mkResponse 200 (Raise KeyError))) in
  let base := Upload.sf_api_url "adodb-php5-only/adodb-5.22" in
  Upload.trace w
  = [Upload.Print Spec.banner;
     Upload.Print "Skipping upload of release files";
     Upload.Print "Updating uploaded files information";
     Upload.Print "  adodb-5.22.7.zip";
     Upload.HttpPut (Spec.request_for w base "adodb-5.22.7.zip" ["windows"])]
  /\ Upload.exit_status w = 1%Z.
Proof.
  intros w base. split; [reflexivity|].
  exact (proj2 (X21_request_failure_aborts w
                  [Upload.Print Spec.banner;
                   Upload.Print "Skipping upload of release files";
                   Upload.Print "Updating uploaded files information";
                   Upload.Print "  adodb-5.22.7.zip"]
                  []
                  (Spec.request_for w base "adodb-5.22.7.zip" ["windows"])
                  eq_refl eq_refl KeyError eq_refl)).
Defined.

(** ** Options that are not recognized *)

Lemma parsed_unknown_short (w : Upload.World) (c : ascii) (rest : string)
      (more : list string) :
  Upload.argv w = ("-" ++ String c rest) :: more ->
  Py.str_in (Py.str c) ["-"; "h"; "u"; "n"; "s"] = false ->
  Spec.parsed w = inr ("option -" ++ Py.str c ++ " not recognized").
Proof.
  intros Hargv Hc. unfold Spec.parsed, Py.gnu_getopt, Upload.options.
  cbn [Py.startswith Ascii.eqb Bool.eqb andb]. rewrite Hargv.
  destruct c as [[] [] [] [] [] [] [] []]; try discriminate Hc; reflexivity.
Qed.

(** X22. When the first argument is a dash followed by a letter other
    than [h], [u], [n] and [s], option parsing fails: the run prints the
    banner, that the option is not recognized and the usage text, and
    exits with status 2, whatever else is on the command line. *)
Theorem X22_unknown_option (w : Upload.World) (c : ascii) (rest : string)
        (more : list string) :
  Upload.argv w = ("-" ++ String c rest) :: more ->
  Py.str_in (Py.str c) ["-"; "h"; "u"; "n"; "s"] = false ->
  Upload.run w
  = (Exit 2, Upload.initial_state w,
     [Upload.Print Spec.banner;
      Upload.Print ("option -" ++ Py.str c ++ " not recognized");
      Upload.Print (Spec.usage_line w)])
  /\ Upload.exit_status w = 2%Z.
Proof.
  intros Hargv Hc.
  pose proof (process_command_line_error w _
                (parsed_unknown_short w c rest more Hargv Hc)) as Hpcl.
  assert (Hrun : Upload.run w
                 = (Exit 2, Upload.initial_state w,
                    [Upload.Print Spec.banner;
                     Upload.Print ("option -" ++ Py.str c ++ " not recognized");
                     Upload.Print (Spec.usage_line w)])).
  { unfold Upload.run, Upload.main. rewrite bind_print_run.
    now rewrite (bind_exit_run _ _ _ _ _ _ Hpcl). }
  split; [exact Hrun|]. unfold Upload.exit_status. now rewrite Hrun.
Qed.

Lemma X22_unknown_option_witness :
  let w := Spec.example_world ["-xn"; "--help"] ["adodb-5.22.7.zip"] "k"
             (Spec.always 200) in
  Upload.run w
  = (Exit 2, Upload.initial_state w,
     [Upload.Print Spec.banner;
      Upload.Print "option -x not recognized";
      Upload.Print (Spec.usage_line w)])
  /\ Upload.exit_status w = 2%Z.
Proof.
  intros w. apply (X22_unknown_option w "x" "n" ["--help"]); reflexivity.
Defined.

(** ** Plain URLs *)

Lemma unreserved_not_slash (c : ascii) :
  Py.is_unreserved c = true -> (c =? "/")%char = false.
Proof.
  intros H. destruct (Ascii.eqb_spec c "/") as [-> | _]; [discriminate | reflexivity].
Qed.

Lemma digit_unreserved (c : ascii) :
  Py.is_digit c = true -> Py.is_unreserved c = true.
Proof. unfold Py.is_digit, Py.is_unreserved. now intros ->. Qed.

Lemma digits_unreserved (d : string) :
  Py.digits d = true -> Py.str_forall Py.is_unreserved d = true.
Proof.
  intros H. apply (str_forall_impl Py.is_digit); [apply digit_unreserved|].
  now apply digits_forall.
Qed.

Lemma format_int_unreserved (z : Z) :
  Py.str_forall Py.is_unreserved (Py.format_int z) = true.
Proof.
  unfold Py.format_int.
  assert (Hu : forall d, Py.str_forall Py.is_unreserved
                           (NilZero.string_of_uint d) = true).
  { intros d. unfold NilZero.string_of_uint.
    destruct d; try (apply uint_string_class; apply digit_unreserved).
    reflexivity. }
  destruct (Z.to_int z) as [d | d]; cbn [NilZero.string_of_int Py.str_forall].
  - apply Hu.
  - now rewrite Hu.
Qed.

Lemma base_dir_unreserved (X : string) :
  Py.str_forall Py.is_unreserved (Spec.base_dir X) = true
  /\ Py.startswith "." (Spec.base_dir X) = false.
Proof.
  unfold Spec.base_dir. destruct (Py.dec_value X =? 5)%Z; [now split|].
  split; [|reflexivity].
  now rewrite str_forall_app, format_int_unreserved.
Qed.

Lemma plain_path_app (a r : string) :
  forall b,
    Py.plain_path_from b (a ++ String "/" r)
    = Py.plain_path_from b a && Py.plain_path_from true r.
Proof.
  induction a as [|c a IH]; intros b; cbn [String.append Py.plain_path_from].
  - reflexivity.
  - destruct (c =? "/")%char; [apply IH|].
    rewrite IH. now rewrite !andb_assoc.
Qed.

Lemma plain_segment (s : string) :
  Py.str_forall Py.is_unreserved s = true ->
  forall b, (b = true -> Py.startswith "." s = false) ->
            Py.plain_path_from b s = true.
Proof.
  induction s as [|c s IH]; intros Hs b Hb; [reflexivity|].
  cbn [Py.str_forall] in Hs. apply andb_true_iff in Hs as [Hc Hs].
  cbn [Py.plain_path_from]. rewrite (unreserved_not_slash c Hc), Hc.
  rewrite (IH Hs false) by discriminate. rewrite andb_true_r. cbn [andb].
  destruct b; [|reflexivity]. specialize (Hb eq_refl).
  cbn [Py.startswith andb] in Hb. rewrite andb_true_r in Hb.
  rewrite Ascii.eqb_sym, Hb. reflexivity.
Qed.

Lemma cut_at_app (c : ascii) (a b : string) :
  Py.str_forall (Spec.other_than c) a = true ->
  Py.cut_at c (a ++ String c b) = Some (a, b).
Proof.
  induction a as [|x a IH]; cbn [Py.str_forall String.append Py.cut_at].
  - now rewrite Ascii.eqb_refl.
  - unfold Spec.other_than at 1. intros H. apply andb_true_iff in H as [Hx Ha].
    apply negb_true_iff in Hx. now rewrite Hx, IH.
Qed.

Lemma file_url (dir file : string) :
  Py.startswith "adodb-" file = true ->
  Py.path_join (Upload.sf_api_url dir) file
  = "https://sourceforge.net/projects/adodb/files/" ++ dir ++ "/" ++ file.
Proof.
  intros Hf. unfold Upload.sf_api_url, Py.path_join.
  assert (Hs : Py.startswith "/" file = false).
  { destruct file as [|c file]; [discriminate|]. cbn [Py.startswith] in Hf |- *.
    apply andb_true_iff in Hf as [Hc _]. apply Ascii.eqb_eq in Hc. now subst c. }
  rewrite Hs.
  replace ("https://sourceforge.net/projects/adodb/files/" ++ dir ++ "/")
    with (("https://sourceforge.net/projects/adodb/files/" ++ dir) ++ "/")
    by now rewrite sapp_assoc.
  rewrite endswith_app, orb_true_r. now rewrite !sapp_assoc.
Qed.

(** The URL of a file with a plain name in a target directory is plain. *)
Lemma file_url_plain (X Y file : string) :
  Py.digits X = true -> Py.digits Y = true ->
  Py.startswith "adodb-" file = true ->
  Spec.plain_name file = true ->
  Py.plain_url
    (Py.path_join (Upload.sf_api_url (Spec.target_dir X (X ++ "." ++ Y))) file)
  = true.
Proof.
  intros HX HY Hstart Hplain.
  rewrite (file_url _ file Hstart).
  unfold Py.plain_url.
  change (Py.startswith "https://"
            ("https://sourceforge.net/projects/adodb/files/"
             ++ Spec.target_dir X (X ++ "." ++ Y) ++ "/" ++ file)) with true.
  cbv iota.
  change (Py.str_drop 8
            ("https://sourceforge.net/projects/adodb/files/"
             ++ Spec.target_dir X (X ++ "." ++ Y) ++ "/" ++ file))
    with ("sourceforge.net"
          ++ String "/" ("projects/adodb/files/"
                         ++ Spec.target_dir X (X ++ "." ++ Y) ++ "/" ++ file)).
  rewrite cut_at_app by reflexivity.
  change (Py.plain_host "sourceforge.net") with true. cbn [andb].
  replace ("projects/adodb/files/"
           ++ Spec.target_dir X (X ++ "." ++ Y) ++ "/" ++ file)
    with ("projects" ++ String "/" ("adodb" ++ String "/" ("files" ++ String "/"
          (Spec.base_dir X ++ String "/" (("adodb-" ++ X ++ "." ++ Y)
                                          ++ String "/" file)))))
    by (unfold Spec.target_dir; rewrite !sapp_assoc; reflexivity).
  rewrite !plain_path_app.
  change (Py.plain_path_from true "projects") with true.
  change (Py.plain_path_from true "adodb") with true.
  change (Py.plain_path_from true "files") with true.
  cbn [andb].
  destruct (base_dir_unreserved X) as [Hb1 Hb2].
  rewrite (plain_segment _ Hb1 true (fun _ => Hb2)).
  rewrite (plain_segment ("adodb-" ++ X ++ "." ++ Y)).
  - apply plain_segment; [exact Hplain|]. intros _.
    destruct file as [|c file]; [discriminate|]. cbn [Py.startswith] in Hstart |- *.
    apply andb_true_iff in Hstart as [Hc _]. apply Ascii.eqb_eq in Hc. now subst c.
  - change ("adodb-" ++ X ++ "." ++ Y) with ("adodb-" ++ (X ++ "." ++ Y)).
    rewrite !str_forall_app, (digits_unreserved X HX), (digits_unreserved Y HY).
    reflexivity.
  - reflexivity.
Qed.

Lemma prerelease_unreserved (suf : string) :
  Spec.prerelease suf -> Py.str_forall Py.is_unreserved suf = true.
Proof.
  intros [-> | (p & n & Hp & Hn & ->)]; [reflexivity|].
  rewrite !str_forall_app, (digits_unreserved n Hn).
  destruct Hp as [-> | [-> | ->]]; reflexivity.
Qed.

Lemma archive_plain_name (X Y Z suf : string) :
  Py.digits X = true -> Py.digits Y = true -> Py.digits Z = true ->
  Spec.prerelease suf ->
  Spec.plain_name (Spec.archive_name X Y Z suf) = true.
Proof.
  intros HX HY HZ Hsuf. unfold Spec.plain_name, Spec.archive_name, Spec.triple.
  rewrite !str_forall_app, (digits_unreserved X HX), (digits_unreserved Y HY),
    (digits_unreserved Z HZ), (prerelease_unreserved suf Hsuf).
  reflexivity.
Qed.

(** ** The API key in the output of a dry run *)

Lemma query_head_ends (tags : list string) :
  Spec.query_head tags
  = String.concat "&" (map Spec.default_param tags ++ [""]) ++ "api_key=".
Proof. unfold Spec.query_head. exact (concat_last "&" _ "" "api_key="). Qed.

Lemma has_opt_first (names : list string) (opts : list (string * string)) :
  Spec.has_opt names opts = true ->
  exists pre h v post,
    opts = (pre ++ (h, v) :: post)%list
    /\ Spec.has_opt names pre = false
    /\ Py.str_in h names = true.
Proof.
  induction opts as [|[o v] opts IH]; [discriminate|].
  cbn [Spec.has_opt existsb fst]. destruct (Py.str_in o names) eqn:Ho.
  - intros _. now exists [], o, v, opts.
  - cbn [orb]. intros H. destruct (IH H) as (pre & h & v' & post & -> & Hpre & Hh).
    exists ((o, v) :: pre), h, v', post. split; [reflexivity|]. split; [|exact Hh].
    cbn [Spec.has_opt existsb fst]. now rewrite Ho.
Qed.

(** When the version resolves, the first candidate is an archive name. *)
Lemma data_error_none (w : Upload.World) (args : list string) :
  Spec.data_error w args = None ->
  exists X Y Z suf l,
    Py.digits X = true /\ Py.digits Y = true /\ Py.digits Z = true
    /\ Spec.prerelease suf
    /\ Spec.candidates w args = Spec.archive_name X Y Z suf :: l.
Proof.
  unfold Spec.data_error. destruct (Spec.candidates w args) as [|z l] eqn:Hg;
    [discriminate|].
  destruct (Py.re_search Upload.version_pattern z) as [m|] eqn:Hm; [|discriminate].
  intros _.
  assert (Hz : Py.fnmatch "adodb-*.zip" z = true).
  { apply (glob_matches (Upload.listdir w (Spec.start_dir w args))).
    unfold Spec.candidates in Hg. rewrite Hg. now left. }
  destruct (version_pattern_sound z m (re_search_sound z m Hm))
    as (X & Y & Z & suf & nl & HX & HY & HZ & Hsuf & Hnl & Hname & _).
  exists X, Y, Z, suf, l.
  assert (Hnil : nl = "").
  { destruct Hnl as [-> | ->]; [reflexivity|]. exfalso.
    apply fnmatch_zip_last in Hz.
    rewrite Hname, archive_then_lf_last in Hz. discriminate. }
  subst nl. rewrite sapp_nil_r in Hname. subst z.
  now repeat split.
Qed.

(** A run that ends on a data error, event by event. *)
Lemma main_data_error_trace (w : Upload.World) (opts : list (string * string))
      (args : list string) (msg : string) :
  Spec.parsed w = inl (opts, args) ->
  Spec.has_opt Spec.help_opt opts = false ->
  Spec.chdir_fine w args = true ->
  Spec.data_error w args = Some msg ->
  Upload.trace w
  = (Upload.Print Spec.banner :: Spec.option_lines opts ++
     (if Spec.has_opt Spec.skip_opt opts
      then [Upload.Print "Skipping upload of release files";
            Upload.Print "Updating uploaded files information"]
      else []) ++ [Upload.Print msg])%list.
Proof.
  intros Hp Hh Hc Hd.
  pose proof (process_command_line_all w opts args Hp Hh) as Hrun.
  rewrite Hc in Hrun.
  set (st1 := Spec.after_command_line w opts args) in Hrun.
  assert (Hv : Upload.get_release_version w st1 = (Exit 1, st1, [Upload.Print msg])).
  { apply (get_release_version_fails w st1 args); [| reflexivity | exact Hd].
    unfold st1, Spec.after_command_line. cbn [Upload.workdir]. now rewrite Hc. }
  unfold Upload.trace, Upload.run, Upload.main. rewrite bind_print_run.
  rewrite (bind_ret_run _ _ _ _ _ _ Hrun), bind_get_run.
  replace (Upload.skip_upload st1) with (Spec.has_opt Spec.skip_opt opts)
    by reflexivity.
  destruct (Spec.has_opt Spec.skip_opt opts).
  - rewrite bind_print_run. unfold Upload.set_sourceforge_file_info.
    rewrite bind_print_run, (bind_exit_run _ _ _ _ _ _ Hv). reflexivity.
  - unfold Upload.upload_release_files at 1.
    erewrite bind_exit_run; [|erewrite bind_exit_run; [reflexivity | exact Hv]].
    reflexivity.
Qed.

(** A run that stops before the metadata loop prints the same whatever
    the key. *)
Lemma early_stop_key_free (w : Upload.World) (k1 k2 : string) :
  Spec.reaches_loop w = false ->
  Upload.trace (Spec.with_key w k1) = Upload.trace (Spec.with_key w k2).
Proof.
  unfold Spec.reaches_loop.
  destruct (Spec.parsed w) as [[opts args] | err] eqn:Hp.
  - assert (Hpk : forall k, Spec.parsed (Spec.with_key w k) = inl (opts, args)).
    { intros k. exact Hp. }
    destruct (Spec.has_opt Spec.help_opt opts) eqn:Hh.
    { intros _.
      destruct (has_opt_first _ _ Hh) as (pre & h & v & post & -> & Hpre & Hhelp).
      unfold Upload.trace.
      rewrite (main_help (Spec.with_key w k1) pre post h v args (Hpk k1) Hpre Hhelp).
      rewrite (main_help (Spec.with_key w k2) pre post h v args (Hpk k2) Hpre Hhelp).
      reflexivity. }
    cbn [negb andb].
    destruct (Spec.chdir_fine w args) eqn:Hc.
    + cbn [andb]. destruct (Spec.data_error w args) as [msg|] eqn:Hd;
        [intros _ | discriminate].
      rewrite (main_data_error_trace (Spec.with_key w k1) opts args msg
                 (Hpk k1) Hh Hc Hd).
      rewrite (main_data_error_trace (Spec.with_key w k2) opts args msg
                 (Hpk k2) Hh Hc Hd).
      reflexivity.
    + intros _. destruct args as [|a args]; [discriminate|].
      cbn [Spec.chdir_fine] in Hc. unfold Upload.trace.
      rewrite (main_chdir_fails (Spec.with_key w k1) opts a args (Hpk k1) Hh Hc).
      rewrite (main_chdir_fails (Spec.with_key w k2) opts a args (Hpk k2) Hh Hc).
      reflexivity.
  - intros _.
    assert (Hrun : forall k,
               Upload.trace (Spec.with_key w k)
               = [Upload.Print Spec.banner; Upload.Print err;
                  Upload.Print (Spec.usage_line w)]).
    { intros k. unfold Upload.trace, Upload.run, Upload.main.
      rewrite bind_print_run.
      now rewrite (bind_exit_run _ _ _ _ _ _
                     (process_command_line_error (Spec.with_key w k) err Hp)). }
    now rewrite !Hrun.
Qed.

(** The trace of a dry run that gets to the metadata loop. *)
Lemma dry_run_trace (w : Upload.World) (opts : list (string * string))
      (args : list string) (X Y Z suf : string) (l : list string) :
  Spec.parsed w = inl (opts, args) ->
  Spec.has_opt Spec.help_opt opts = false ->
  Spec.has_opt Spec.dry_opt opts = true ->
  Spec.chdir_fine w args = true ->
  Spec.candidates w args = Spec.archive_name X Y Z suf :: l ->
  Py.digits X = true -> Py.digits Y = true -> Py.digits Z = true ->
  Spec.prerelease suf ->
  forall key,
    Upload.trace (Spec.with_key w key)
    = (Spec.before_loop w opts args (Spec.target_dir X (X ++ "." ++ Y))
       ++ flat_map (Spec.dry_lines (Spec.with_key w key)
                      (Upload.sf_api_url (Spec.target_dir X (X ++ "." ++ Y))))
            (Py.glob (Upload.listdir w (Spec.start_dir w args)) "adodb-*"))%list.
Proof.
  intros Hp Hh Hd Hc Hcand HX HY HZ Hsuf key.
  unfold Upload.trace.
  rewrite (main_reaches_loop (Spec.with_key w key) opts args X Y Z suf l
             Hp Hh Hc Hcand HX HY HZ Hsuf).
  cbv zeta.
  rewrite (for_each_dry (Spec.with_key w key) _ _
             (Spec.after_command_line (Spec.with_key w key) opts args) Hd).
  reflexivity.
Qed.

(** C10 (as amended). A run that stops before the metadata loop, in
    dry-run mode or not, prints the same whatever the API key is.  A dry
    run that gets as far as the loop (the options parse, help is not asked
    for, the release directory can be entered and the version resolves)
    prints for the release archive a URL that ends in [api_key=] followed
    by the form-encoded key: with another key the lines printed are not
    the same, and neither is the standard output as a whole when the
    names of the files the loop has a request for are made of letters,
    digits, [-], [.], [_] and [~]. *)
Theorem C10_api_key_in_dry_run_output (w : Upload.World) (k1 k2 : string) :
  (Spec.reaches_loop w = false ->
   Upload.trace (Spec.with_key w k1) = Upload.trace (Spec.with_key w k2))
  /\ (Spec.dry_run_requested w = true ->
      Spec.reaches_loop w = true ->
      (exists head,
          In (Upload.Print
                ("    Calling SourceForge Release API: " ++ head ++ "api_key="
                 ++ Py.quote_plus k1))
             (Upload.trace (Spec.with_key w k1)))
      /\ (k1 <> k2 ->
          Upload.trace (Spec.with_key w k1) <> Upload.trace (Spec.with_key w k2))
      /\ (k1 <> k2 ->
          forallb (fun f => implb (Spec.known f) (Spec.plain_name f))
                  (Spec.loop_files w) = true ->
          Upload.stdout (Upload.trace (Spec.with_key w k1))
          <> Upload.stdout (Upload.trace (Spec.with_key w k2)))).
Proof.
  split; [apply early_stop_key_free|].
  unfold Spec.dry_run_requested, Spec.reaches_loop, Spec.loop_files.
  destruct (Spec.parsed w) as [[opts args] | err] eqn:Hp; [|discriminate].
  intros Hdry Hreach.
  apply andb_true_iff in Hreach as [Hreach Hd].
  apply andb_true_iff in Hreach as [Hh Hc]. apply negb_true_iff in Hh.
  destruct (Spec.data_error w args) eqn:Hde; [discriminate | clear Hd].
  destruct (data_error_none w args Hde)
    as (X & Y & Z & suf & l & HX & HY & HZ & Hsuf & Hcand).
  pose proof (dry_run_trace w opts args X Y Z suf l
                Hp Hh Hdry Hc Hcand HX HY HZ Hsuf) as Htrace.
  set (base := Upload.sf_api_url (Spec.target_dir X (X ++ "." ++ Y))) in *.
  set (z := Spec.archive_name X Y Z suf) in *.
  assert (Hin : In z (Py.glob (Upload.listdir w (Spec.start_dir w args)) "adodb-*")).
  { apply glob_zip_in_loop. unfold Spec.candidates in Hcand. rewrite Hcand.
    now left. }
  assert (Hzip : Upload.defaults_for (snd (Py.splitext z)) = Some ["windows"]).
  { unfold z. now rewrite archive_extension. }
  assert (Hplain : Py.plain_url (Py.path_join base z) = true).
  { apply file_url_plain; try assumption.
    - reflexivity.
    - now apply archive_plain_name. }
  split; [|split].
  - exists (Py.path_join base z ++ "?"
            ++ String.concat "&" (map Spec.default_param ["windows"] ++ [""])).
    rewrite Htrace. apply in_or_app. right.
    apply in_flat_map. exists z. split; [exact Hin|].
    unfold Spec.dry_lines. rewrite Hzip. right. left.
    unfold Spec.calling_line. f_equal. f_equal.
    rewrite (prepare_url_plain (Spec.with_key w k1) base z _ _ Hzip Hplain).
    cbn [Upload.sf_api_key Spec.with_key].
    rewrite query_split, query_head_ends. now rewrite !sapp_assoc.
  - intros Hk Heq. rewrite !Htrace in Heq. apply app_inv_head in Heq.
    revert Heq. apply (dry_lines_differ w base _ k1 k2 z); try assumption.
    congruence.
  - intros Hk Hnames Heq. rewrite !Htrace, !stdout_app in Heq.
    apply sapp_inv_head in Heq. revert Heq.
    apply dry_output_differs; [exact Hk | | exists z; split; [exact Hin | congruence]].
    intros f Hf Hknown. rewrite forallb_forall in Hnames.
    specialize (Hnames f Hf). unfold Spec.known in Hnames.
    destruct (Upload.defaults_for (snd (Py.splitext f))); [|congruence].
    cbn [implb] in Hnames.
    apply file_url_plain; try assumption.
    apply fnmatch_adodb. exact (glob_matches _ _ _ Hf).
Qed.

Lemma C10_api_key_in_dry_run_output_witness :
  let w := Spec.example_world ["-n"] ["adodb-5.22.7.zip"; "adodb-5.22.7.tar.gz"] ""
             (Spec.always 200) in
  (exists head,
      In (Upload.Print
            ("    Calling SourceForge Release API: " ++ head ++ "api_key="
             ++ Py.quote_plus "s3cr3t key"))
         (Upload.trace (Spec.with_key w "s3cr3t key")))
  /\ Upload.trace (Spec.with_key w "s3cr3t key")
     <> Upload.trace (Spec.with_key w "another key")
  /\ Upload.stdout (Upload.trace (Spec.with_key w "s3cr3t key"))
     <> Upload.stdout (Upload.trace (Spec.with_key w "another key")).
Proof.
  intros w.
  destruct (proj2 (C10_api_key_in_dry_run_output w "s3cr3t key" "another key")
              eq_refl eq_refl) as (H1 & H2 & H3).
  split; [exact H1|]. split.
  - apply H2. discriminate.
  - apply H3; [discriminate | reflexivity].
Defined.

(** Not any two dry runs differ: two that stop before the metadata loop,
    here for want of a release archive, print the same whatever the
    key. *)
Lemma C10_api_key_in_dry_run_output_counterexample :
  let w := Spec.example_world ["--dry-run"] ["README.md"] "" (Spec.always 200) in
  Spec.dry_run_requested (Spec.with_key w "s3cr3t key") = true
  /\ Spec.dry_run_requested (Spec.with_key w "another key") = true
  /\ "s3cr3t key" <> "another key"
  /\ Upload.stdout (Upload.trace (Spec.with_key w "s3cr3t key"))
     = Upload.stdout (Upload.trace (Spec.with_key w "another key")).
Proof.
  intros w. repeat split. discriminate.
Qed.
